(** * analyseventes.py: classification, aggregation and percentage shares

    A shallow embedding of [analyser_ventes_francophones] and
    [analyser_multiple_regroupements].  The pandas objects the script
    manipulates are modelled as typed columns gathered in frames that live in
    a store, so that in-place column assignment, [copy] and early [return]
    read as they do in the script.  The behaviour of pandas that is followed
    is that of its versions 1.5 to 2.x. *)

From Stdlib Require Import ZArith List String Ascii Bool Lia.
From Stdlib Require Import Permutation Sorted QArith.
From Stdlib Require Import Uint63 PrimFloat.
Import ListNotations.

Local Open Scope string_scope.
Local Open Scope Z_scope.

(** ** Python text operations

    A text is a sequence of code points; the embedding covers the code points
    0..255, one per [ascii].  [lower_char] and [isspace] are the tables of
    Python's [str.lower] and [str.isspace] on that range. *)

Module Texte.

Definition code (c : ascii) : N := N_of_ascii c.

Definition est_majuscule (c : ascii) : bool :=
  let n := code c in
  (((65 <=? n) && (n <=? 90))
   || ((192 <=? n) && (n <=? 222) && negb (n =? 215)))%N.

Definition lower_char (c : ascii) : ascii :=
  if est_majuscule c then ascii_of_N (code c + 32) else c.

Definition isspace (c : ascii) : bool :=
  let n := code c in
  (((9 <=? n) && (n <=? 13)) || ((28 <=? n) && (n <=? 32))
   || (n =? 133) || (n =? 160))%N.

Fixpoint lower (s : string) : string :=
  match s with
  | EmptyString => EmptyString
  | String c r => String (lower_char c) (lower r)
  end.

Fixpoint lstrip (s : string) : string :=
  match s with
  | EmptyString => EmptyString
  | String c r => if isspace c then lstrip r else s
  end.

Fixpoint rstrip (s : string) : string :=
  match s with
  | EmptyString => EmptyString
  | String c r =>
      match rstrip r with
      | EmptyString => if isspace c then EmptyString else String c EmptyString
      | r' => String c r'
      end
  end.

Definition strip (s : string) : string := rstrip (lstrip s).


End Texte.

(** ** Numbers

    Counts are [int64] columns, shares are [float64] columns.  The arithmetic
    the script performs on shares is kept behind an interface so that the same
    program text can be read at IEEE binary64, which is what numpy computes,
    and in exact rational arithmetic. *)

Class Flottant (F : Type) : Type := {
  of_int : Z -> F;
  fdiv : F -> F -> F;
  fmul : F -> F -> F
}.

Definition float_of_Z (z : Z) : float :=
  if z <? 0 then PrimFloat.opp (PrimFloat.of_uint63 (Uint63.of_Z (- z)))
  else PrimFloat.of_uint63 (Uint63.of_Z z).

#[export] Instance binary64 : Flottant float := {
  of_int := float_of_Z;
  fdiv := PrimFloat.div;
  fmul := PrimFloat.mul
}.

#[export] Instance exact : Flottant Q := {
  of_int := inject_Z;
  fdiv := Qdiv;
  fmul := Qmult
}.

(** ** Timestamps and periods *)

Inductive Horodatage : Type :=
| NaT
| Instant (ns : Z).

(** [a >= b] on timestamps; any comparison with [NaT] is false. *)
Definition ge_h (a b : Horodatage) : bool :=
  match a, b with
  | Instant x, Instant y => y <=? x
  | _, _ => false
  end.

Module Calendrier.

Definition ns_par_jour : Z := 86400000000000.

(** Days since 1970-01-01 of an instant in nanoseconds. *)
Definition jour_unix (ns : Z) : Z := ns / ns_par_jour.

(** Proleptic Gregorian date (year, month, day) of a day number. *)
Definition civil (j : Z) : Z * Z * Z :=
  let z := j + 719468 in
  let era := z / 146097 in
  let doe := z - era * 146097 in
  let yoe := (doe - doe / 1460 + doe / 36524 - doe / 146096) / 365 in
  let doy := doe - (365 * yoe + yoe / 4 - yoe / 100) in
  let mp := (5 * doy + 2) / 153 in
  let d := doy - (153 * mp + 2) / 5 + 1 in
  let m := if mp <? 10 then mp + 3 else mp - 9 in
  let y := yoe + era * 400 + (if m <=? 2 then 1 else 0) in
  (y, m, d).

(** Day number of a Gregorian date, the inverse direction. *)
Definition jour_de (y m d : Z) : Z :=
  let y' := if m <=? 2 then y - 1 else y in
  let era := y' / 400 in
  let yoe := y' - era * 400 in
  let mp := if 2 <? m then m - 3 else m + 9 in
  let doy := (153 * mp + 2) / 5 + d - 1 in
  let doe := yoe * 365 + yoe / 4 - yoe / 100 + doy in
  era * 146097 + doe - 719468.

Definition minuit (y m d : Z) : Horodatage :=
  Instant (jour_de y m d * ns_par_jour).

End Calendrier.

(** The four codes of [regroupements_labels]. *)
Inductive Frequence : Type := FW | FM | FQ | FY.

Definition frequence_de (code : string) : option Frequence :=
  if String.eqb code "W" then Some FW
  else if String.eqb code "M" then Some FM
  else if String.eqb code "Q" then Some FQ
  else if String.eqb code "Y" then Some FY
  else None.

(** Ordinal of the period that holds an instant: weeks run Monday to Sunday
    ([W-SUN]), quarters and years are calendar ones ([Q-DEC], [Y-DEC]). *)
Definition ordinal (f : Frequence) (ns : Z) : Z :=
  let j := Calendrier.jour_unix ns in
  let '(y, m, _) := Calendrier.civil j in
  match f with
  | FW => (j + 3) / 7 + 1
  | FM => (y - 1970) * 12 + (m - 1)
  | FQ => (y - 1970) * 4 + (m - 1) / 3
  | FY => y - 1970
  end.

Definition periode_de (f : Frequence) (h : Horodatage) : option Z :=
  match h with
  | NaT => None
  | Instant ns => Some (ordinal f ns)
  end.

Example civil_epoch : Calendrier.civil 0 = (1970, 1, 1).
Proof. reflexivity. Qed.

Example civil_2020_02_29 :
  Calendrier.civil (Calendrier.jour_de 2020 2 29) = (2020, 2, 29).
Proof. vm_compute. reflexivity. Qed.

Example jour_2020_01_15 : Calendrier.jour_de 2020 1 15 = 18276.
Proof. reflexivity. Qed.

Example semaine_lundi :
  (* 1970-01-04 is a Sunday, 1970-01-05 a Monday *)
  ordinal FW (3 * Calendrier.ns_par_jour) = 1
  /\ ordinal FW (4 * Calendrier.ns_par_jour) = 2.
Proof. split; vm_compute; reflexivity. Qed.

Example trimestre_2020_02 :
  periode_de FQ (Calendrier.minuit 2020 2 1) = Some 200
  /\ periode_de FM (Calendrier.minuit 2020 2 1) = Some 601.
Proof. split; vm_compute; reflexivity. Qed.

(** ** Frames

    A [DataFrame] is an index and labelled, typed columns.  Column labels are
    texts, or booleans right after [unstack]. *)

Inductive Etiquette : Type :=
| EBool (b : bool)
| ENom (s : string).

Definition etiquette_eqb (a b : Etiquette) : bool :=
  match a, b with
  | EBool x, EBool y => Bool.eqb x y
  | ENom x, ENom y => String.eqb x y
  | _, _ => false
  end.

Inductive Exception : Type :=
| FileNotFoundError
| ParserError
| ValueError
| KeyError
| AttributeError
| TypeError.

(** What the reader of [pd.read_csv] finds in the file: the header and the
    records, each field as it is written, or missing when pandas reads it as
    NaN. *)
Record Csv : Type := {
  entete : list string;
  lignes : list (list (option string))
}.

(** ** The types [read_csv] gives the columns

    [read_csv] types each column from its fields.  What one field is for the
    reader of pandas, a number, a boolean or any other text, is taken as
    given, and so is the timestamp [pd.to_datetime] makes of a number. *)

Inductive Nature : Type :=
| Numerique
| Booleenne
| Textuelle.

Class Typage : Type := {
  nature : string -> Nature;
  to_datetime_nombre : string -> option Horodatage
}.

(** The dtype of a column that is not a column of texts. *)
Inductive Dtype : Type :=
| Nombres           (* int64, uint64 or float64 *)
| Booleens          (* bool *)
| BooleensOuNaN.    (* object, holding booleans and NaN *)

Section Types.

Context {TY : Typage}.

Definition numerique (o : option string) : bool :=
  match o with
  | None => true
  | Some s => match nature s with Numerique => true | _ => false end
  end.

Definition booleenne (o : option string) : bool :=
  match o with
  | None => true
  | Some s => match nature s with Booleenne => true | _ => false end
  end.

Definition vide (o : option string) : bool :=
  match o with
  | None => true
  | Some _ => false
  end.

(** The reader tries numbers, then booleans, and keeps the texts otherwise:
    a column of numbers may have missing fields (it is then float64, as is a
    column whose fields are all missing), a column of booleans with missing
    fields is an object column of booleans and NaN; [None] stands for a
    column of texts (dtype object), which is also what a file without
    records gives. *)
Definition dtype (l : list (option string)) : option Dtype :=
  match l with
  | [] => None
  | _ :: _ =>
      if forallb numerique l then Some Nombres
      else if forallb booleenne l then
        if forallb (fun o => negb (vide o)) l then Some Booleens
        else Some BooleensOuNaN
      else None
  end.

End Types.

(** Sorted insertion without duplicates, and the sorted distinct values of a
    list: the order in which [groupby] lays out its keys. *)
Fixpoint inserer (x : Z) (l : list Z) : list Z :=
  match l with
  | [] => [x]
  | y :: r =>
      if x <? y then x :: l
      else if x =? y then l
      else y :: inserer x r
  end.

Definition distincts (l : list Z) : list Z := fold_right inserer [] l.

(** Boolean-mask selection. *)
Fixpoint garder {A : Type} (mask : list bool) (l : list A) : list A :=
  match mask, l with
  | b :: m, x :: r => if b then x :: garder m r else garder m r
  | _, _ => []
  end.

(** Assignment on the rows a mask selects: the values stand in the order of
    the selected rows. *)
Fixpoint repartir {A : Type} (mask : list bool) (vals old : list A) : list A :=
  match mask, old with
  | b :: m, x :: r =>
      if b then
        match vals with
        | v :: vs => v :: repartir m vs r
        | [] => x :: repartir m [] r
        end
      else x :: repartir m vals r
  | _, _ => old
  end.

(** Scalar assignment on the rows a mask selects. *)
Fixpoint remplir {A : Type} (mask : list bool) (v : A) (old : list A) : list A :=
  match mask, old with
  | b :: m, x :: r => (if b then v else x) :: remplir m v r
  | _, _ => old
  end.

Fixpoint map2 {A B C : Type} (f : A -> B -> C) (l : list A) (l' : list B)
  : list C :=
  match l, l' with
  | x :: r, y :: r' => f x y :: map2 f r r'
  | _, _ => []
  end.

Definition somme (l : list Z) : Z := fold_right Z.add 0 l.

Section Cadres.

Context {F : Type} {TY : Typage}.

Inductive Colonne : Type :=
| CObjet (l : list (option string))     (* dtype object: text or NaN *)
| CBrut (d : Dtype) (l : list (option string))
                                        (* numbers or booleans, as written *)
| CDate (l : list Horodatage)           (* datetime64[ns] *)
| CBool (l : list bool)                 (* bool *)
| CPeriode (l : list (option Z))        (* period[freq], NaT as None *)
| CInt (l : list Z)                     (* int64 *)
| CFloat (l : list F).                  (* float64 *)

Record DataFrame : Type := {
  index : list Z;
  colonnes : list (Etiquette * Colonne)
}.

Definition etiquettes (d : DataFrame) : list Etiquette :=
  map fst (colonnes d).

Definition contient (e : Etiquette) (l : list Etiquette) : bool :=
  existsb (etiquette_eqb e) l.

Fixpoint chercher (e : Etiquette) (cs : list (Etiquette * Colonne))
  : option Colonne :=
  match cs with
  | [] => None
  | (e', c) :: r => if etiquette_eqb e e' then Some c else chercher e r
  end.

(** [d[e] = c]: replaces the column labelled [e], or appends it. *)
Fixpoint poser (e : Etiquette) (c : Colonne) (cs : list (Etiquette * Colonne))
  : list (Etiquette * Colonne) :=
  match cs with
  | [] => [(e, c)]
  | (e', c') :: r =>
      if etiquette_eqb e e' then (e, c) :: r else (e', c') :: poser e c r
  end.

Definition garder_col (mask : list bool) (c : Colonne) : Colonne :=
  match c with
  | CObjet l => CObjet (garder mask l)
  | CBrut d l => CBrut d (garder mask l)
  | CDate l => CDate (garder mask l)
  | CBool l => CBool (garder mask l)
  | CPeriode l => CPeriode (garder mask l)
  | CInt l => CInt (garder mask l)
  | CFloat l => CFloat (garder mask l)
  end.

(** [d[mask]]: a new frame with the selected rows. *)
Definition selection (mask : list bool) (d : DataFrame) : DataFrame :=
  {| index := garder mask (index d);
     colonnes := map (fun ec => (fst ec, garder_col mask (snd ec))) (colonnes d) |}.

(** The column [read_csv] builds from the fields of one column. *)
Definition colonne_lue (l : list (option string)) : Colonne :=
  match dtype l with
  | None => CObjet l
  | Some d => CBrut d l
  end.

(** The frame [read_csv] builds: a range index and one column per header
    field, typed from its fields, a short record being padded with missing
    cells. *)
Fixpoint colonnes_csv (j : nat) (noms : list string)
  (rows : list (list (option string))) : list (Etiquette * Colonne) :=
  match noms with
  | [] => []
  | n :: r =>
      (ENom n, colonne_lue (map (fun row => nth j row None) rows))
        :: colonnes_csv (S j) r rows
  end.

Definition cadre_csv (f : Csv) : DataFrame :=
  {| index := map Z.of_nat (seq 0 (List.length (lignes f)));
     colonnes := colonnes_csv 0 (entete f) (lignes f) |}.

End Cadres.

Arguments Colonne : clear implicits.
Arguments DataFrame : clear implicits.

(** ** Store, outcomes and the program monad

    Frames are objects: a variable of the script holds a reference into the
    store, [d[e] = c] and [.loc[...] = v] update the object in place, [copy]
    and [d[mask]] allocate.  A statement continues, returns from the function
    or raises. *)

Inductive Message : Type :=
| FichierIntrouvable (fichier : string)
| ErreurChargement (e : Exception)
| ColonneAbsente (colonne : string) (disponibles : list Etiquette)
| ErreurConversionDates (e : Exception)
| AucuneDonnee (date_debut : string)
| ErreurFiltrage (e : Exception)
| RegroupementNonSupporte (regroupement : string).

(** What the function returns: [None] after printing a message, or the pair
    [(ventes_par_periode, ventes_pourcentages)]. *)
Inductive Retourne : Type :=
| Rien (m : Message)
| Tables (ventes_par_periode ventes_pourcentages : nat).

Section Programme.

Context {F : Type} {NF : Flottant F}.

Record Tas : Type := {
  suivant : nat;
  objets : list (nat * DataFrame F)
}.

Definition tas_vide : Tas := {| suivant := 0; objets := [] |}.

Definition cadre_vide : DataFrame F := {| index := []; colonnes := [] |}.

Fixpoint trouver (r : nat) (os : list (nat * DataFrame F)) : DataFrame F :=
  match os with
  | [] => cadre_vide
  | (r', d) :: rest => if Nat.eqb r r' then d else trouver r rest
  end.

Definition lire (r : nat) (t : Tas) : DataFrame F := trouver r (objets t).

Definition ecrire (r : nat) (d : DataFrame F) (t : Tas) : Tas :=
  {| suivant := suivant t; objets := (r, d) :: objets t |}.

Inductive Issue (A : Type) : Type :=
| Suite (a : A) (t : Tas)
| Retour (v : Retourne) (t : Tas)
| Leve (e : Exception) (t : Tas).

Arguments Suite {A} a t.
Arguments Retour {A} v t.
Arguments Leve {A} e t.

Definition Prog (A : Type) : Type := Tas -> Issue A.

Definition ret {A : Type} (a : A) : Prog A := fun t => Suite a t.

Definition bind {A B : Type} (p : Prog A) (k : A -> Prog B) : Prog B :=
  fun t =>
    match p t with
    | Suite a t' => k a t'
    | Retour v t' => Retour v t'
    | Leve e t' => Leve e t'
    end.

Notation "x <- p ;; q" := (bind p (fun x => q))
  (at level 61, p at next level, right associativity).
Notation "p ;; q" := (bind p (fun _ => q))
  (at level 61, right associativity).

Definition retourner {A : Type} (v : Retourne) : Prog A := fun t => Retour v t.

Definition lever {A : Type} (e : Exception) : Prog A := fun t => Leve e t.

(** [try: p except Exception as e: h e] *)
Definition essayer {A : Type} (p : Prog A) (h : Exception -> Prog A) : Prog A :=
  fun t =>
    match p t with
    | Leve e t' => h e t'
    | o => o
    end.

Definition de {A : Type} (x : Exception + A) : Prog A :=
  match x with
  | inl e => lever e
  | inr a => ret a
  end.

Definition si (b : bool) (p : Prog unit) : Prog unit :=
  if b then p else ret tt.

Definition allouer (d : DataFrame F) (t : Tas) : Tas :=
  {| suivant := S (suivant t); objets := (suivant t, d) :: objets t |}.

Definition nouveau (d : DataFrame F) : Prog nat :=
  fun t => Suite (suivant t) (allouer d t).

Definition contenu (r : nat) : Prog (DataFrame F) := fun t => Suite (lire r t) t.

Definition modifier (r : nat) (g : DataFrame F -> DataFrame F) : Prog unit :=
  fun t => Suite tt (ecrire r (g (lire r t)) t).

(** [d[e]] *)
Definition getitem (r : nat) (e : Etiquette) : Prog (Colonne F) :=
  d <- contenu r ;;
  match chercher e (colonnes d) with
  | Some c => ret c
  | None => lever KeyError
  end.

(** [d[e] = c] *)
Definition setitem (r : nat) (e : Etiquette) (c : Colonne F) : Prog unit :=
  modifier r (fun d => {| index := index d; colonnes := poser e c (colonnes d) |}).

(** [d.copy()] *)
Definition copy (r : nat) : Prog nat := d <- contenu r ;; nouveau d.

(** [len(d)] *)
Definition len (r : nat) : Prog Z :=
  d <- contenu r ;; ret (Z.of_nat (List.length (index d))).

End Programme.

Arguments Suite {F A} a t.
Arguments Retour {F A} v t.
Arguments Leve {F A} e t.
Arguments Tas : clear implicits.
Arguments Issue : clear implicits.
Arguments Prog : clear implicits.

Declare Scope prog_scope.
Delimit Scope prog_scope with prog.
Notation "x <- p ;; q" := (bind p (fun x => q))
  (at level 61, p at next level, right associativity) : prog_scope.
Notation "p ;; q" := (bind p (fun _ => q))
  (at level 61, right associativity) : prog_scope.

(** ** Column operations of pandas used by the script *)

Section Colonnes.

Context {F : Type} {NF : Flottant F} {TY : Typage}.

(** [pd.to_datetime] on one text; [None] when it raises.  The parser belongs
    to pandas and is taken as given. *)
Variable pd_to_datetime : string -> option Horodatage.

(** Conversion of the cells one by one, a missing cell giving [NaT]; the
    conversion of the column fails when that of a cell does. *)
Fixpoint convertir (lire_date : string -> option Horodatage)
  (l : list (option string)) : option (list Horodatage) :=
  match l with
  | [] => Some []
  | c :: r =>
      match (match c with None => Some NaT | Some s => lire_date s end) with
      | None => None
      | Some h =>
          match convertir lire_date r with
          | None => None
          | Some hs => Some (h :: hs)
          end
      end
  end.

(** [pd.to_datetime(c)]: texts are parsed, numbers are converted, booleans
    are refused. *)
Definition to_datetime_col (c : Colonne F) : Exception + Colonne F :=
  match c with
  | CObjet l =>
      match convertir pd_to_datetime l with
      | Some hs => inr (CDate hs)
      | None => inl ValueError
      end
  | CBrut Nombres l =>
      match convertir to_datetime_nombre l with
      | Some hs => inr (CDate hs)
      | None => inl ValueError
      end
  | CDate l => inr (CDate l)
  | _ => inl TypeError
  end.

Definition to_datetime_scalaire (s : string) : Exception + Horodatage :=
  match pd_to_datetime s with
  | Some h => inr h
  | None => inl ValueError
  end.

(** [c >= limite] *)
Definition ge_col (c : Colonne F) (limite : Horodatage) : Exception + list bool :=
  match c with
  | CDate l => inr (map (fun h => ge_h h limite) l)
  | _ => inl TypeError
  end.

(** [c.str.lower()], [c.str.strip()]: missing cells stay missing.  The
    accessor [.str] is refused on a column that is not an object column, and
    on an object column that holds a boolean. *)
Definition str_lower (c : Colonne F) : Exception + Colonne F :=
  match c with
  | CObjet l => inr (CObjet (map (option_map Texte.lower) l))
  | CBrut BooleensOuNaN l =>
      if forallb vide l then inr (CObjet (map (option_map Texte.lower) l))
      else inl AttributeError
  | _ => inl AttributeError
  end.

Definition str_strip (c : Colonne F) : Exception + Colonne F :=
  match c with
  | CObjet l => inr (CObjet (map (option_map Texte.strip) l))
  | _ => inl AttributeError
  end.

Definition dans (s : string) (l : list string) : bool :=
  existsb (String.eqb s) l.

Definition longueur (c : Colonne F) : nat :=
  match c with
  | CObjet l => List.length l
  | CBrut _ l => List.length l
  | CDate l => List.length l
  | CBool l => List.length l
  | CPeriode l => List.length l
  | CInt l => List.length l
  | CFloat l => List.length l
  end.

(** [c.isin(valeurs)] for a list of texts. *)
Definition isin (c : Colonne F) (valeurs : list string) : Colonne F :=
  match c with
  | CObjet l =>
      CBool (map (fun o => match o with
                           | Some s => dans s valeurs
                           | None => false
                           end) l)
  | _ => CBool (repeat false (longueur c))
  end.

(** [c.dt.to_period(code)] *)
Definition dt_to_period (c : Colonne F) (code : string) : Exception + Colonne F :=
  match c with
  | CDate l =>
      match frequence_de code with
      | Some f => inr (CPeriode (map (periode_de f) l))
      | None => inl ValueError
      end
  | _ => inl AttributeError
  end.

(** *** [groupby([periode, est_francophone]).size().unstack(fill_value=0)] *)

(** The group keys of the rows; a row whose period is missing is in no group. *)
Definition cles (ps : list (option Z)) (bs : list bool) : list (Z * bool) :=
  flat_map (fun pb => match fst pb with
                      | Some p => [(p, snd pb)]
                      | None => []
                      end) (combine ps bs).

Definition cle_eqb (k k' : Z * bool) : bool :=
  (fst k =? fst k') && Bool.eqb (snd k) (snd k').

Definition effectif (k : Z * bool) (ks : list (Z * bool)) : Z :=
  Z.of_nat (List.length (filter (cle_eqb k) ks)).

(** [size()]: one entry per key present, keys in ascending order. *)
Definition groupby_size (ks : list (Z * bool)) : list ((Z * bool) * Z) :=
  flat_map (fun p =>
    flat_map (fun c =>
      if existsb (cle_eqb (p, c)) ks then [((p, c), effectif (p, c) ks)]
      else []) [false; true]) (distincts (map fst ks)).

Fixpoint valeur (k : Z * bool) (s : list ((Z * bool) * Z)) : option Z :=
  match s with
  | [] => None
  | (k', n) :: r => if cle_eqb k k' then Some n else valeur k r
  end.

(** [unstack(fill_value)]: the second key level becomes the columns, in
    ascending order ([False] before [True]), only the values present. *)
Definition unstack (fill_value : Z) (s : list ((Z * bool) * Z)) : DataFrame F :=
  let idx := distincts (map (fun e => fst (fst e)) s) in
  let cols := filter (fun c => existsb (fun e => Bool.eqb c (snd (fst e))) s)
                [false; true] in
  {| index := idx;
     colonnes :=
       map (fun c =>
              (EBool c,
               CInt (map (fun p => match valeur (p, c) s with
                                   | Some n => n
                                   | None => fill_value
                                   end) idx))) cols |}.

Definition groupby_size_unstack (periode est : Colonne F)
  : Exception + DataFrame F :=
  match periode, est with
  | CPeriode ps, CBool bs => inr (unstack 0 (groupby_size (cles ps bs)))
  | _, _ => inl TypeError
  end.

(** [d.columns = noms] *)
Definition renommer (noms : list Etiquette) (d : DataFrame F)
  : Exception + DataFrame F :=
  if Nat.eqb (List.length noms) (List.length (colonnes d)) then
    inr {| index := index d;
           colonnes := map (fun nc => (fst nc, snd (snd nc)))
                         (combine noms (colonnes d)) |}
  else inl ValueError.

(** *** Arithmetic on numeric columns *)

Definition add_col (a b : Colonne F) : Exception + Colonne F :=
  match a, b with
  | CInt x, CInt y => inr (CInt (map2 Z.add x y))
  | _, _ => inl TypeError
  end.

(** [a > k] *)
Definition gt_col (a : Colonne F) (k : Z) : Exception + list bool :=
  match a with
  | CInt x => inr (map (fun v => k <? v) x)
  | _ => inl TypeError
  end.

(** [a / b]: true division of integer columns gives a float column. *)
Definition truediv_col (a b : Colonne F) : Exception + Colonne F :=
  match a, b with
  | CInt x, CInt y =>
      inr (CFloat (map2 (fun u v => fdiv (of_int u) (of_int v)) x y))
  | _, _ => inl TypeError
  end.

(** [a * k] for an integer scalar [k]. *)
Definition mul_col (a : Colonne F) (k : Z) : Exception + Colonne F :=
  match a with
  | CFloat x => inr (CFloat (map (fun u => fmul u (of_int k)) x))
  | CInt x => inr (CInt (map (fun u => u * k) x))
  | _ => inl TypeError
  end.

(** [.loc[mask, e] = vals]: the column after the assignment, its values held
    as floats once floats have been assigned.  pandas casts such a column
    back to int64 when every value assigned is integral, which changes its
    dtype and none of its values; the embedding keeps the values and does not
    follow that cast. *)
Definition loc_poser_col (mask : list bool) (vals old : Colonne F)
  : Exception + Colonne F :=
  match vals, old with
  | CFloat v, CInt o => inr (CFloat (repartir mask v (map of_int o)))
  | CFloat v, CFloat o => inr (CFloat (repartir mask v o))
  | CInt v, CInt o => inr (CInt (repartir mask v o))
  | _, _ => inl TypeError
  end.

(** [.loc[mask, e] = k] for an integer scalar [k]. *)
Definition loc_poser_scalaire (mask : list bool) (k : Z) (old : Colonne F)
  : Exception + Colonne F :=
  match old with
  | CInt o => inr (CInt (remplir mask k o))
  | CFloat o => inr (CFloat (remplir mask (of_int k) o))
  | _ => inl TypeError
  end.

Fixpoint loc_poser_tout (mask : list bool) (k : Z)
  (cs : list (Etiquette * Colonne F)) : Exception + list (Etiquette * Colonne F) :=
  match cs with
  | [] => inr []
  | (e, c) :: r =>
      match loc_poser_scalaire mask k c with
      | inl x => inl x
      | inr c' =>
          match loc_poser_tout mask k r with
          | inl x => inl x
          | inr r' => inr ((e, c') :: r')
          end
      end
  end.

End Colonnes.

(** ** The script *)

Section Script.

Context {F : Type} {NF : Flottant F} {TY : Typage}.

(** [pd.read_csv(fichier_csv, sep=';')], reading being the file system's and
    pandas's affair: the records, or the exception raised. *)
Variable pd_read_csv : string -> Exception + Csv.
Variable pd_to_datetime : string -> option Horodatage.

Local Open Scope prog_scope.

Definition pays_francophones : list string :=
  ["fr"; "be"; "ch"; "nc"; "ca"; "lu"].

Definition e_accent : string := String (ascii_of_nat 233) EmptyString.

Definition regroupements_labels : list (string * string) :=
  [("W", "semaine"); ("M", "mois"); ("Q", "trimestre");
   ("Y", "ann" ++ e_accent ++ "e")].

Definition autres_pays : Etiquette := ENom "Autres pays".
Definition pays_franco : Etiquette := ENom "Pays francophones".
Definition total : Etiquette := ENom "Total".

(** [d[mask]] *)
Definition getitem_mask (r : nat) (mask : list bool) : Prog F nat :=
  d <- contenu r ;; nouveau (selection mask d).

(** [d.columns = noms] *)
Definition set_columns (r : nat) (noms : list Etiquette) : Prog F unit :=
  d <- contenu r ;;
  d' <- de (renommer noms d) ;;
  modifier r (fun _ => d').

(** [d[e] = k] for an integer scalar. *)
Definition setitem_scalaire (r : nat) (e : Etiquette) (k : Z) : Prog F unit :=
  d <- contenu r ;;
  setitem r e (CInt (repeat k (List.length (index d)))).

(** [d.loc[mask, e]] *)
Definition loc_getitem (r : nat) (mask : list bool) (e : Etiquette)
  : Prog F (Colonne F) :=
  c <- getitem r e ;; ret (garder_col mask c).

(** [d.loc[mask, e] = vals]; the script only assigns to labels the frame has. *)
Definition loc_setitem (r : nat) (mask : list bool) (e : Etiquette)
  (vals : Colonne F) : Prog F unit :=
  old <- getitem r e ;;
  c <- de (loc_poser_col mask vals old) ;;
  setitem r e c.

(** [d.loc[mask, e] = k] *)
Definition loc_setitem_scalaire (r : nat) (mask : list bool) (e : Etiquette)
  (k : Z) : Prog F unit :=
  old <- getitem r e ;;
  c <- de (loc_poser_scalaire mask k old) ;;
  setitem r e c.

(** [d.loc[mask, :] = k] *)
Definition loc_setitem_tout (r : nat) (mask : list bool) (k : Z) : Prog F unit :=
  d <- contenu r ;;
  cs <- de (loc_poser_tout mask k (colonnes d)) ;;
  modifier r (fun _ => {| index := index d; colonnes := cs |}).

(** The share of one column: [vpp.loc[m, e] / vpp.loc[m, 'Total'] * 100]. *)
Definition part (vpp : nat) (mask : list bool) (e : Etiquette)
  : Prog F (Colonne F) :=
  num <- loc_getitem vpp mask e ;;
  den <- loc_getitem vpp mask total ;;
  q <- de (truediv_col num den) ;;
  de (mul_col q 100).

(** The function, block by block as the script lays it out. *)

(* Lecture du fichier CSV *)
Definition lecture (fichier_csv : string) : Prog F nat :=
  essayer (f <- de (pd_read_csv fichier_csv) ;; nouveau (cadre_csv f))
    (fun e =>
       match e with
       | FileNotFoundError => retourner (Rien (FichierIntrouvable fichier_csv))
       | _ => retourner (Rien (ErreurChargement e))
       end).

(* Verification des colonnes *)
Definition verification (df : nat) (colonne_pays colonne_date : string)
  : Prog F unit :=
  d <- contenu df ;;
  si (negb (contient (ENom colonne_pays) (etiquettes d)))
     (retourner (Rien (ColonneAbsente colonne_pays (etiquettes d)))) ;;
  si (negb (contient (ENom colonne_date) (etiquettes d)))
     (retourner (Rien (ColonneAbsente colonne_date (etiquettes d)))).

(* Conversion de la colonne date *)
Definition conversion (df : nat) (colonne_date : string) : Prog F unit :=
  essayer (c <- getitem df (ENom colonne_date) ;;
           c' <- de (to_datetime_col pd_to_datetime c) ;;
           setitem df (ENom colonne_date) c')
    (fun e => retourner (Rien (ErreurConversionDates e))).

(* Filtrage des donnees selon la date de debut specifiee *)
Definition filtrage (df : nat) (colonne_date date_debut : string) : Prog F nat :=
  essayer (date_limite <- de (to_datetime_scalaire pd_to_datetime date_debut) ;;
           c <- getitem df (ENom colonne_date) ;;
           mask <- de (ge_col c date_limite) ;;
           df' <- getitem_mask df mask ;;
           n <- len df' ;;
           si (n =? 0) (retourner (Rien (AucuneDonnee date_debut))) ;;
           ret df')
    (fun e => retourner (Rien (ErreurFiltrage e))).

(* Normalisation des codes pays, classification francophone/non-francophone *)
Definition classification (df : nat) (colonne_pays : string) : Prog F unit :=
  c <- getitem df (ENom colonne_pays) ;;
  c <- de (str_lower c) ;;
  c <- de (str_strip c) ;;
  setitem df (ENom colonne_pays) c ;;
  c <- getitem df (ENom colonne_pays) ;;
  setitem df (ENom "est_francophone") (isin c pays_francophones).

(* Definition des libelles pour les periodes *)
Definition controle_regroupement (regroupement : string) : Prog F unit :=
  si (negb (dans regroupement (map fst regroupements_labels)))
     (retourner (Rien (RegroupementNonSupporte regroupement))).

(* Extraction de la periode selon le regroupement choisi *)
Definition extraction (df : nat) (colonne_date regroupement : string)
  : Prog F unit :=
  c <- getitem df (ENom colonne_date) ;;
  p <- de (dt_to_period c regroupement) ;;
  setitem df (ENom "periode") p.

(* Comptage des ventes par periode et type, renommage, colonnes manquantes,
   total *)
Definition comptage (df : nat) : Prog F nat :=
  p <- getitem df (ENom "periode") ;;
  e <- getitem df (ENom "est_francophone") ;;
  t <- de (groupby_size_unstack p e) ;;
  ventes_par_periode <- nouveau t ;;
  set_columns ventes_par_periode [autres_pays; pays_franco] ;;
  d <- contenu ventes_par_periode ;;
  si (negb (contient autres_pays (etiquettes d)))
     (setitem_scalaire ventes_par_periode autres_pays 0) ;;
  d <- contenu ventes_par_periode ;;
  si (negb (contient pays_franco (etiquettes d)))
     (setitem_scalaire ventes_par_periode pays_franco 0) ;;
  a <- getitem ventes_par_periode autres_pays ;;
  f <- getitem ventes_par_periode pays_franco ;;
  s <- de (add_col a f) ;;
  setitem ventes_par_periode total s ;;
  ret ventes_par_periode.

(* Calcul des pourcentages *)
Definition pourcentages (ventes_par_periode : nat) : Prog F nat :=
  ventes_pourcentages <- copy ventes_par_periode ;;
  tot <- getitem ventes_par_periode total ;;
  mask_non_zero <- de (gt_col tot 0) ;;
  v <- part ventes_par_periode mask_non_zero pays_franco ;;
  loc_setitem ventes_pourcentages mask_non_zero pays_franco v ;;
  v <- part ventes_par_periode mask_non_zero autres_pays ;;
  loc_setitem ventes_pourcentages mask_non_zero autres_pays v ;;
  loc_setitem_scalaire ventes_pourcentages mask_non_zero total 100 ;;
  loc_setitem_tout ventes_pourcentages (map negb mask_non_zero) 0 ;;
  ret ventes_pourcentages.

Definition analyser_ventes_francophones
  (fichier_csv colonne_pays colonne_date regroupement date_debut : string)
  : Prog F Empty_set :=
  df <- lecture fichier_csv ;;
  verification df colonne_pays colonne_date ;;
  conversion df colonne_date ;;
  df <- filtrage df colonne_date date_debut ;;
  classification df colonne_pays ;;
  controle_regroupement regroupement ;;
  extraction df colonne_date regroupement ;;
  ventes_par_periode <- comptage df ;;
  ventes_pourcentages <- pourcentages ventes_par_periode ;;
  retourner (Tables ventes_par_periode ventes_pourcentages).

(** *** [analyser_multiple_regroupements] *)

Definition regroupements : list (string * string) :=
  [("W", "Semaine"); ("M", "Mois"); ("Q", "Trimestre");
   ("Y", "Ann" ++ e_accent ++ "e")].

(** What the helper does that can be observed: the banner it prints, the call
    it makes with its arguments, the error line it prints when the call
    raised. *)
Inductive Evenement : Type :=
| Banniere (nom : string)
| Appel (fichier_csv colonne_pays colonne_date regroupement date_debut : string)
| ErreurAnalyse (nom : string) (e : Exception).

Definition tas_de {A : Type} (o : Issue F A) : Tas F :=
  match o with
  | Suite _ t => t
  | Retour _ t => t
  | Leve _ t => t
  end.

Fixpoint pour_chaque (items : list (string * string))
  (fichier_csv colonne_pays colonne_date date_debut : string) (t : Tas F)
  : list Evenement * Tas F :=
  match items with
  | [] => ([], t)
  | (code, nom) :: reste =>
      let o := analyser_ventes_francophones fichier_csv colonne_pays
                 colonne_date code date_debut t in
      let erreur := match o with
                    | Leve e _ => [ErreurAnalyse nom e]
                    | _ => []
                    end in
      let '(suite, t') := pour_chaque reste fichier_csv colonne_pays
                            colonne_date date_debut (tas_de o) in
      (Banniere nom
         :: Appel fichier_csv colonne_pays colonne_date code date_debut
         :: erreur ++ suite, t')
  end.

Definition analyser_multiple_regroupements
  (fichier_csv colonne_pays colonne_date date_debut : string) (t : Tas F)
  : list Evenement * Tas F :=
  pour_chaque regroupements fichier_csv colonne_pays colonne_date date_debut t.

End Script.

(** A strict reader of [YYYY-MM-DD] texts, used to run the script on concrete
    records; the empty text reads as [NaT], as it does in pandas. *)
Module Iso.

Definition chiffre (c : ascii) : option Z :=
  let n := Z.of_N (N_of_ascii c) in
  if (48 <=? n) && (n <=? 57) then Some (n - 48) else None.

Fixpoint nombre (acc : Z) (s : string) : option Z :=
  match s with
  | EmptyString => Some acc
  | String c r =>
      match chiffre c with
      | Some d => nombre (acc * 10 + d) r
      | None => None
      end
  end.

Definition to_datetime (s : string) : option Horodatage :=
  if String.eqb s "" then Some NaT
  else if negb (Nat.eqb (String.length s) 10) then None
  else if negb (String.eqb (substring 4 1 s) "-" && String.eqb (substring 7 1 s) "-")
  then None
  else
    match nombre 0 (substring 0 4 s), nombre 0 (substring 5 2 s),
          nombre 0 (substring 8 2 s) with
    | Some y, Some m, Some d =>
        let '(y', m', d') := Calendrier.civil (Calendrier.jour_de y m d) in
        if (y' =? y) && (m' =? m) && (d' =? d)
        then Some (Calendrier.minuit y m d) else None
    | _, _, _ => None
    end.

End Iso.

(** ** Classification of a cell (lines 69-76) *)

Module TexteFaits.
Import Texte.


Lemma lower_char_idem (c : ascii) : lower_char (lower_char c) = lower_char c.
Proof. destruct c as [[] [] [] [] [] [] [] []]; reflexivity. Qed.


Lemma lower_idem (s : string) : lower (lower s) = lower s.
Proof.
  induction s as [|c r IH]; simpl; [reflexivity|].
  now rewrite lower_char_idem, IH.
Qed.








End TexteFaits.

(** ** Facts on sorted distinct keys and group sizes *)

Lemma inserer_In (x y : Z) (l : list Z) :
  In y (inserer x l) <-> y = x \/ In y l.
Proof.
  induction l as [|z r IH]; simpl.
  - intuition.
  - destruct (x <? z) eqn:Hlt; [simpl; intuition|].
    destruct (x =? z) eqn:Heq.
    + apply Z.eqb_eq in Heq. subst. simpl. intuition.
    + simpl. rewrite IH. intuition.
Qed.

Lemma inserer_trie (x : Z) (l : list Z) :
  StronglySorted Z.lt l -> StronglySorted Z.lt (inserer x l).
Proof.
  induction 1 as [|z r Hs IH Hall]; simpl.
  - repeat constructor.
  - destruct (x <? z) eqn:Hlt.
    + apply Z.ltb_lt in Hlt. constructor; [now constructor|].
      constructor; [assumption|].
      rewrite Forall_forall in *. intros y Hy. specialize (Hall y Hy). lia.
    + destruct (x =? z) eqn:Heq; [now constructor|].
      apply Z.ltb_ge in Hlt. apply Z.eqb_neq in Heq.
      constructor; [assumption|].
      rewrite Forall_forall in *. intros y Hy.
      apply inserer_In in Hy as [-> | Hy]; [lia | auto].
Qed.

Lemma distincts_In (y : Z) (l : list Z) : In y (distincts l) <-> In y l.
Proof.
  induction l as [|x r IH]; simpl; [reflexivity|].
  rewrite inserer_In, IH. intuition.
Qed.

Lemma distincts_trie (l : list Z) : StronglySorted Z.lt (distincts l).
Proof.
  induction l as [|x r IH]; simpl; [constructor | now apply inserer_trie].
Qed.

Lemma trie_NoDup (l : list Z) : StronglySorted Z.lt l -> NoDup l.
Proof.
  induction 1 as [|z r Hs IH Hall]; constructor; [|assumption].
  intros Hin. rewrite Forall_forall in Hall. specialize (Hall z Hin). lia.
Qed.

Lemma trie_ext (l l' : list Z) :
  StronglySorted Z.lt l -> StronglySorted Z.lt l' ->
  (forall x, In x l <-> In x l') -> l = l'.
Proof.
  intros Hl. revert l'.
  induction Hl as [|a r Hs IH Ha]; intros l' Hl' Hext.
  - destruct l' as [|b r']; [reflexivity|].
    exfalso. apply (proj2 (Hext b)). now left.
  - destruct Hl' as [|b r' Hs' Hb].
    + exfalso. apply (proj1 (Hext a)). now left.
    + rewrite Forall_forall in Ha, Hb.
      assert (a = b) as ->.
      { destruct (proj1 (Hext a) (or_introl eq_refl)) as [E | Hin]; [auto|].
        destruct (proj2 (Hext b) (or_introl eq_refl)) as [E | Hin']; [auto|].
        specialize (Ha b Hin'). specialize (Hb a Hin). lia. }
      f_equal. apply IH; [assumption|].
      intros x. split; intros Hx.
      * destruct (proj1 (Hext x) (or_intror Hx)) as [E | Hin]; [|assumption].
        subst. specialize (Ha _ Hx). lia.
      * destruct (proj2 (Hext x) (or_intror Hx)) as [E | Hin]; [|assumption].
        subst. specialize (Hb _ Hx). lia.
Qed.

Lemma distincts_ext (l l' : list Z) :
  (forall x, In x l <-> In x l') -> distincts l = distincts l'.
Proof.
  intros H. apply trie_ext; try apply distincts_trie.
  intros x. now rewrite !distincts_In.
Qed.

Lemma distincts_perm (l l' : list Z) :
  Permutation l l' -> distincts l = distincts l'.
Proof.
  intros H. apply distincts_ext. intros x. split; intros Hx.
  - eapply Permutation_in; eassumption.
  - eapply Permutation_in; [apply Permutation_sym|]; eassumption.
Qed.

Lemma cle_eqb_eq (k k' : Z * bool) : cle_eqb k k' = true <-> k = k'.
Proof.
  destruct k as [p c], k' as [p' c']. unfold cle_eqb. simpl.
  rewrite andb_true_iff, Z.eqb_eq, Bool.eqb_true_iff.
  split; [intros [-> ->]; reflexivity | intros E; inversion E; auto].
Qed.

Lemma cle_eqb_refl (k : Z * bool) : cle_eqb k k = true.
Proof. now apply cle_eqb_eq. Qed.

(** Number of keys of a period, both classes together. *)
Definition nombre_periode (p : Z) (ks : list (Z * bool)) : Z :=
  Z.of_nat (List.length (filter (fun k => fst k =? p) ks)).

Lemma effectif_cons (k k' : Z * bool) (ks : list (Z * bool)) :
  effectif k (k' :: ks) = (if cle_eqb k k' then 1 else 0) + effectif k ks.
Proof.
  unfold effectif. simpl. destruct (cle_eqb k k'); simpl List.length; lia.
Qed.

Lemma nombre_periode_cons (p : Z) (k : Z * bool) (ks : list (Z * bool)) :
  nombre_periode p (k :: ks)
  = (if fst k =? p then 1 else 0) + nombre_periode p ks.
Proof.
  unfold nombre_periode. simpl. destruct (fst k =? p); simpl List.length; lia.
Qed.

Lemma effectif_somme_classes (p : Z) (ks : list (Z * bool)) :
  effectif (p, false) ks + effectif (p, true) ks = nombre_periode p ks.
Proof.
  induction ks as [|[q c] r IH].
  - reflexivity.
  - rewrite !effectif_cons, nombre_periode_cons.
    unfold cle_eqb. cbn [fst snd]. rewrite (Z.eqb_sym q p).
    destruct (p =? q), c; cbn [andb Bool.eqb]; lia.
Qed.


Lemma effectif_absent (k : Z * bool) (ks : list (Z * bool)) :
  existsb (cle_eqb k) ks = false -> effectif k ks = 0.
Proof.
  induction ks as [|k' r IH]; [reflexivity|].
  simpl. rewrite effectif_cons. intros H.
  apply orb_false_iff in H as [H1 H2]. rewrite H1, IH by assumption. reflexivity.
Qed.

Lemma nombre_periode_present (p : Z) (ks : list (Z * bool)) :
  In p (map fst ks) -> 0 < nombre_periode p ks.
Proof.
  induction ks as [|k r IH]; simpl; [tauto|].
  rewrite nombre_periode_cons. intros [E | Hin].
  - rewrite E, Z.eqb_refl. unfold nombre_periode. lia.
  - specialize (IH Hin). destruct (fst k =? p); lia.
Qed.

Lemma somme_indicatrice (x : Z) (l : list Z) :
  NoDup l ->
  somme (map (fun p => if x =? p then 1 else 0) l) = if existsb (Z.eqb x) l then 1 else 0.
Proof.
  induction 1 as [|y r Hnin Hnd IH]; [reflexivity|].
  simpl. rewrite IH. destruct (x =? y) eqn:E; simpl; [|reflexivity].
  apply Z.eqb_eq in E. subst y.
  destruct (existsb (Z.eqb x) r) eqn:Hex; [|reflexivity].
  apply existsb_exists in Hex as [z [Hz Ez]]. apply Z.eqb_eq in Ez. subst z.
  contradiction.
Qed.

Lemma somme_map_plus (f g : Z -> Z) (l : list Z) :
  somme (map (fun p => f p + g p) l) = somme (map f l) + somme (map g l).
Proof. induction l as [|x r IH]; simpl; lia. Qed.

(** Every key is counted once: the sizes of the periods add up to the number
    of keys. *)
Lemma somme_nombre_periode (l : list Z) (ks : list (Z * bool)) :
  NoDup l -> (forall k, In k ks -> In (fst k) l) ->
  somme (map (fun p => nombre_periode p ks) l) = Z.of_nat (List.length ks).
Proof.
  intros Hnd. induction ks as [|k r IH]; intros Hin.
  - clear. induction l as [|x l' IHl]; [reflexivity|].
    simpl. rewrite IHl. reflexivity.
  - rewrite (map_ext _ (fun p => (if fst k =? p then 1 else 0) + nombre_periode p r)).
    2:{ intros p. apply nombre_periode_cons. }
    rewrite somme_map_plus, IH by (intros k' Hk'; apply Hin; now right).
    rewrite somme_indicatrice by assumption.
    assert (existsb (Z.eqb (fst k)) l = true) as ->.
    { apply existsb_exists. exists (fst k). split; [apply Hin; now left|].
      apply Z.eqb_refl. }
    simpl List.length. lia.
Qed.

(** ** The table [groupby(...).size().unstack(fill_value=0)] builds *)

Section FaitsTable.

Context {F : Type}.

Definition presente (c : bool) (ks : list (Z * bool)) : bool :=
  existsb (fun k => Bool.eqb c (snd k)) ks.

Definition classes (ks : list (Z * bool)) : list bool :=
  filter (fun c => presente c ks) [false; true].

Definition periodes (ks : list (Z * bool)) : list Z := distincts (map fst ks).

Definition table (ks : list (Z * bool)) : DataFrame F :=
  {| index := periodes ks;
     colonnes :=
       map (fun c => (EBool c, CInt (map (fun p => effectif (p, c) ks) (periodes ks))))
         (classes ks) |}.

Lemma In_groupby_size (e : (Z * bool) * Z) (ks : list (Z * bool)) :
  In e (groupby_size ks)
  <-> exists p c, e = ((p, c), effectif (p, c) ks)
                  /\ existsb (cle_eqb (p, c)) ks = true.
Proof.
  unfold groupby_size. rewrite in_flat_map. split.
  - intros [p [Hp He]]. apply in_flat_map in He as [c [Hc He]].
    destruct (existsb (cle_eqb (p, c)) ks) eqn:Hex; [|contradiction].
    destruct He as [<- | []]. now exists p, c.
  - intros [p [c [-> Hex]]]. exists p. split.
    + apply distincts_In. apply existsb_exists in Hex as [k [Hk Ek]].
      apply cle_eqb_eq in Ek. subst k. now apply (in_map fst) in Hk.
    + apply in_flat_map. exists c. split; [destruct c; simpl; auto|].
      rewrite Hex. now left.
Qed.

Lemma valeur_Some (k : Z * bool) (n : Z) (s : list ((Z * bool) * Z)) :
  valeur k s = Some n -> In (k, n) s.
Proof.
  induction s as [|[k' m] r IH]; simpl; [discriminate|].
  destruct (cle_eqb k k') eqn:E.
  - intros H. inversion H; subst. apply cle_eqb_eq in E. subst. now left.
  - intros H. right. auto.
Qed.

Lemma valeur_None (k : Z * bool) (s : list ((Z * bool) * Z)) :
  valeur k s = None -> forall n, ~ In (k, n) s.
Proof.
  induction s as [|[k' m] r IH]; simpl; [tauto|].
  destruct (cle_eqb k k') eqn:E; [discriminate|].
  intros H n [Heq | Hin].
  - inversion Heq; subst. rewrite cle_eqb_refl in E. discriminate.
  - exact (IH H n Hin).
Qed.

Lemma valeur_groupby_size (k : Z * bool) (ks : list (Z * bool)) :
  match valeur k (groupby_size ks) with Some n => n | None => 0 end
  = effectif k ks.
Proof.
  destruct (valeur k (groupby_size ks)) as [n|] eqn:Hv.
  - apply valeur_Some in Hv. apply In_groupby_size in Hv as [p [c [E _]]].
    now inversion E.
  - symmetry. apply effectif_absent.
    destruct (existsb (cle_eqb k) ks) eqn:Hex; [|reflexivity].
    exfalso. apply (valeur_None _ _ Hv (effectif k ks)).
    apply In_groupby_size. destruct k as [p c]. now exists p, c.
Qed.

Lemma periodes_groupby_size (ks : list (Z * bool)) :
  distincts (map (fun e => fst (fst e)) (groupby_size ks)) = periodes ks.
Proof.
  apply distincts_ext. intros x. rewrite !in_map_iff. split.
  - intros [e [<- He]]. apply In_groupby_size in He as [p [c [-> Hex]]].
    apply existsb_exists in Hex as [k [Hk Ek]]. apply cle_eqb_eq in Ek.
    subst k. now exists (p, c).
  - intros [[p c] [<- Hk]]. exists ((p, c), effectif (p, c) ks). split; [reflexivity|].
    apply In_groupby_size. exists p, c. split; [reflexivity|].
    apply existsb_exists. exists (p, c). split; [assumption | apply cle_eqb_refl].
Qed.

Lemma presente_groupby_size (c : bool) (ks : list (Z * bool)) :
  existsb (fun e => Bool.eqb c (snd (fst e))) (groupby_size ks) = presente c ks.
Proof.
  unfold presente. apply eq_true_iff_eq. rewrite !existsb_exists. split.
  - intros [e [He Ec]]. apply In_groupby_size in He as [p [c' [-> Hex]]].
    apply existsb_exists in Hex as [k [Hk Ek]]. apply cle_eqb_eq in Ek.
    subst k. now exists (p, c').
  - intros [[p c'] [Hk Ec]]. exists ((p, c'), effectif (p, c') ks). split; [|assumption].
    apply In_groupby_size. exists p, c'. split; [reflexivity|].
    apply existsb_exists. exists (p, c'). split; [assumption | apply cle_eqb_refl].
Qed.

Lemma unstack_groupby_size (ks : list (Z * bool)) :
  unstack 0 (groupby_size ks) = table ks.
Proof.
  unfold unstack, table, classes. rewrite periodes_groupby_size. f_equal.
  cbn [filter]. rewrite !presente_groupby_size.
  assert (E : forall c,
    map (fun p => match valeur (p, c) (groupby_size ks) with
                  | Some n => n
                  | None => 0
                  end) (periodes ks)
    = map (fun p => effectif (p, c) ks) (periodes ks)).
  { intros c. apply map_ext. intros p. apply valeur_groupby_size. }
  destruct (presente false ks), (presente true ks); simpl; now rewrite ?E.
Qed.

Lemma table_perm (ks ks' : list (Z * bool)) :
  Permutation ks ks' -> table ks = table ks'.
Proof.
  intros H.
  assert (Hp : periodes ks = periodes ks').
  { apply distincts_perm. now apply Permutation_map. }
  assert (He : forall k, effectif k ks = effectif k ks').
  { intros k. unfold effectif. f_equal. apply Permutation_length.
    clear Hp. induction H; simpl.
    - constructor.
    - destruct (cle_eqb k x); [now constructor | assumption].
    - destruct (cle_eqb k x), (cle_eqb k y); try apply Permutation_refl;
        apply perm_swap.
    - eapply Permutation_trans; eassumption. }
  assert (Hc : forall c, presente c ks = presente c ks').
  { intros c. unfold presente. apply eq_true_iff_eq. rewrite !existsb_exists.
    split; intros [k [Hk E]]; exists k; split; try assumption.
    - eapply Permutation_in; eassumption.
    - eapply Permutation_in; [apply Permutation_sym|]; eassumption. }
  assert (E : forall c,
    map (fun p => effectif (p, c) ks) (periodes ks')
    = map (fun p => effectif (p, c) ks') (periodes ks')).
  { intros c. apply map_ext. intros p. apply He. }
  unfold table, classes. rewrite Hp. f_equal. cbn [filter]. rewrite !Hc.
  destruct (presente false ks'), (presente true ks'); simpl; now rewrite ?E.
Qed.

End FaitsTable.

(** ** Facts on the store, the monad and frames *)

Section FaitsProgramme.

Context {F : Type} {NF : Flottant F} {TY : Typage}.

Lemma lire_ecrire_meme (r : nat) (d : DataFrame F) (t : Tas F) :
  lire r (ecrire r d t) = d.
Proof. unfold lire, ecrire. simpl. now rewrite Nat.eqb_refl. Qed.

Lemma lire_ecrire_autre (r r' : nat) (d : DataFrame F) (t : Tas F) :
  r <> r' -> lire r (ecrire r' d t) = lire r t.
Proof.
  intros H. unfold lire, ecrire. simpl.
  apply Nat.eqb_neq in H. now rewrite H.
Qed.

Lemma lire_allouer_meme (d : DataFrame F) (t : Tas F) :
  lire (suivant t) (allouer d t) = d.
Proof. unfold lire, allouer. simpl. now rewrite Nat.eqb_refl. Qed.

Lemma lire_allouer_autre (r : nat) (d : DataFrame F) (t : Tas F) :
  r <> suivant t -> lire r (allouer d t) = lire r t.
Proof.
  intros H. unfold lire, allouer. simpl.
  apply Nat.eqb_neq in H. now rewrite H.
Qed.

Lemma bind_suite {A B : Type} (p : Prog F A) (k : A -> Prog F B)
  (t t' : Tas F) (a : A) :
  p t = Suite a t' -> bind p k t = k a t'.
Proof. intros H. unfold bind. now rewrite H. Qed.

Lemma bind_retour {A B : Type} (p : Prog F A) (k : A -> Prog F B)
  (t t' : Tas F) (v : Retourne) :
  p t = Retour v t' -> bind p k t = Retour v t'.
Proof. intros H. unfold bind. now rewrite H. Qed.

Lemma bind_leve {A B : Type} (p : Prog F A) (k : A -> Prog F B)
  (t t' : Tas F) (e : Exception) :
  p t = Leve e t' -> bind p k t = Leve e t'.
Proof. intros H. unfold bind. now rewrite H. Qed.

Lemma etiquette_eqb_eq (a b : Etiquette) : etiquette_eqb a b = true <-> a = b.
Proof.
  destruct a as [x|x], b as [y|y]; simpl.
  - rewrite Bool.eqb_true_iff. split; [now intros -> | now intros [= ->]].
  - split; discriminate.
  - split; discriminate.
  - rewrite String.eqb_eq. split; [now intros -> | now intros [= ->]].
Qed.

Lemma etiquette_eqb_refl (a : Etiquette) : etiquette_eqb a a = true.
Proof. now apply etiquette_eqb_eq. Qed.

Lemma etiquette_eqb_neq (a b : Etiquette) : etiquette_eqb a b = false <-> a <> b.
Proof.
  rewrite <- etiquette_eqb_eq. destruct (etiquette_eqb a b); intuition congruence.
Qed.

Lemma chercher_poser_meme (e : Etiquette) (c : Colonne F)
  (cs : list (Etiquette * Colonne F)) :
  chercher e (poser e c cs) = Some c.
Proof.
  induction cs as [|[e' c'] r IH]; simpl.
  - now rewrite etiquette_eqb_refl.
  - destruct (etiquette_eqb e e') eqn:E; simpl.
    + now rewrite etiquette_eqb_refl.
    + now rewrite E.
Qed.

Lemma chercher_poser_autre (e e' : Etiquette) (c : Colonne F)
  (cs : list (Etiquette * Colonne F)) :
  e <> e' -> chercher e (poser e' c cs) = chercher e cs.
Proof.
  intros Hne. apply etiquette_eqb_neq in Hne.
  induction cs as [|[x cx] r IH]; simpl.
  - now rewrite Hne.
  - destruct (etiquette_eqb e' x) eqn:E; simpl.
    + apply etiquette_eqb_eq in E. subst x. now rewrite Hne.
    + destruct (etiquette_eqb e x); [reflexivity | exact IH].
Qed.

Lemma chercher_selection (e : Etiquette) (mask : list bool)
  (cs : list (Etiquette * Colonne F)) :
  chercher e (map (fun ec => (fst ec, garder_col mask (snd ec))) cs)
  = option_map (garder_col mask) (chercher e cs).
Proof.
  induction cs as [|[x cx] r IH]; simpl; [reflexivity|].
  destruct (etiquette_eqb e x); [reflexivity | exact IH].
Qed.

Lemma contient_chercher (e : Etiquette) (cs : list (Etiquette * Colonne F)) :
  contient e (map fst cs)
  = match chercher e cs with Some _ => true | None => false end.
Proof.
  induction cs as [|[x cx] r IH]; simpl; [reflexivity|].
  destruct (etiquette_eqb e x); [reflexivity | exact IH].
Qed.

(** Position of a field in the header, and the cell of a record there. *)
Fixpoint rang (nom : string) (noms : list string) : option nat :=
  match noms with
  | [] => None
  | n :: r => if String.eqb nom n then Some O else option_map S (rang nom r)
  end.

Definition cellule (j : nat) (ligne : list (option string)) : option string :=
  nth j ligne None.

Lemma chercher_colonnes_csv (nom : string) (j : nat) (noms : list string)
  (rows : list (list (option string))) :
  chercher (ENom nom) (colonnes_csv (F := F) j noms rows)
  = option_map (fun k => colonne_lue (map (cellule (j + k)) rows)) (rang nom noms).
Proof.
  revert j. induction noms as [|n r IH]; intros j; simpl; [reflexivity|].
  destruct (String.eqb nom n).
  - simpl. now rewrite Nat.add_0_r.
  - rewrite IH. destruct (rang nom r) as [k|]; simpl; [|reflexivity].
    now rewrite Nat.add_succ_r.
Qed.

Lemma chercher_cadre_csv (nom : string) (f : Csv) :
  chercher (ENom nom) (colonnes (cadre_csv (F := F) f))
  = option_map (fun k => colonne_lue (map (cellule k) (lignes f)))
      (rang nom (entete f)).
Proof. unfold cadre_csv. simpl. apply chercher_colonnes_csv. Qed.

Lemma garder_length {A B : Type} (mask : list bool) (l : list A) (l' : list B) :
  List.length l = List.length l' ->
  List.length (garder mask l) = List.length (garder mask l').
Proof.
  revert l l'. induction mask as [|b m IH]; intros [|x r] [|y r'] H;
    simpl in *; try reflexivity; try discriminate.
  injection H as H. destruct b; simpl; auto.
Qed.

Lemma garder_map {A B : Type} (g : A -> B) (mask : list bool) (l : list A) :
  garder mask (map g l) = map g (garder mask l).
Proof.
  revert l. induction mask as [|b m IH]; intros [|x r]; simpl; try reflexivity.
  destruct b; simpl; now rewrite IH.
Qed.

Lemma garder_filter {A : Type} (g : A -> bool) (l : list A) :
  garder (map g l) l = filter g l.
Proof.
  induction l as [|x r IH]; simpl; [reflexivity|].
  destruct (g x); now rewrite IH.
Qed.

End FaitsProgramme.

(** ** The records, cell by cell *)

(** Classification of one cell: lines 73 and 76 on a single value. *)
Definition classer (o : option string) : bool :=
  match o with
  | Some s => dans (Texte.strip (Texte.lower s)) pays_francophones
  | None => false
  end.

Section FaitsCellules.

(** The conversion [pd.to_datetime] applies to a cell of the date column,
    which depends on the type of the column. *)
Variable pd_to_datetime : string -> option Horodatage.

(** Reading of one cell as a date: whether the conversion accepts it, and the
    timestamp it gives. *)
Definition horodater (o : option string) : option Horodatage :=
  match o with
  | None => Some NaT
  | Some s => pd_to_datetime s
  end.

Definition lisible (o : option string) : bool :=
  match horodater o with Some _ => true | None => false end.

Definition date_cellule (o : option string) : Horodatage :=
  match horodater o with Some h => h | None => NaT end.

Lemma convertir_spec (l : list (option string)) :
  convertir pd_to_datetime l
  = if forallb lisible l then Some (map date_cellule l) else None.
Proof.
  induction l as [|o r IH]; simpl; [reflexivity|].
  unfold lisible at 1, date_cellule at 1, horodater.
  destruct o as [s|].
  - destruct (pd_to_datetime s); simpl; [|reflexivity].
    rewrite IH. destruct (forallb lisible r); reflexivity.
  - simpl. rewrite IH. destruct (forallb lisible r); reflexivity.
Qed.

(** A record is kept by the date filter when its date is at or after the
    limit. *)
Definition retenue (jd : nat) (limite : Horodatage) (ligne : list (option string))
  : bool :=
  ge_h (date_cellule (cellule jd ligne)) limite.

Definition retenues (jd : nat) (limite : Horodatage)
  (rows : list (list (option string))) : list (list (option string)) :=
  filter (retenue jd limite) rows.

(** The group key of a record: its period and its class. *)
Definition cle_ligne (jp jd : nat) (fq : Frequence) (ligne : list (option string))
  : list (Z * bool) :=
  match periode_de fq (date_cellule (cellule jd ligne)) with
  | Some p => [(p, classer (cellule jp ligne))]
  | None => []
  end.

Definition cles_lignes (jp jd : nat) (fq : Frequence)
  (rows : list (list (option string))) : list (Z * bool) :=
  flat_map (cle_ligne jp jd fq) rows.

Lemma cles_des_colonnes (jp jd : nat) (fq : Frequence)
  (rows : list (list (option string))) :
  cles (map (periode_de fq) (map date_cellule (map (cellule jd) rows)))
    (map classer (map (cellule jp) rows))
  = cles_lignes jp jd fq rows.
Proof.
  unfold cles, cles_lignes. induction rows as [|r rs IH]; [reflexivity|].
  cbn [map combine flat_map fst snd]. rewrite IH. unfold cle_ligne at 2.
  destruct (periode_de fq (date_cellule (cellule jd r))); reflexivity.
Qed.

Lemma masque_lignes (jd : nat) (limite : Horodatage)
  (rows : list (list (option string))) :
  map (fun h => ge_h h limite) (map date_cellule (map (cellule jd) rows))
  = map (retenue jd limite) rows.
Proof. rewrite !map_map. reflexivity. Qed.

Lemma garder_lignes {A : Type} (g : list (option string) -> A) (jd : nat)
  (limite : Horodatage) (rows : list (list (option string))) :
  garder (map (retenue jd limite) rows) (map g rows)
  = map g (retenues jd limite rows).
Proof. rewrite garder_map. unfold retenues. now rewrite garder_filter. Qed.

Lemma longueur_filtre (jd : nat) (limite : Horodatage)
  (rows : list (list (option string))) :
  List.length (garder (map (retenue jd limite) rows)
                 (map Z.of_nat (seq 0 (List.length rows))))
  = List.length (retenues jd limite rows).
Proof.
  unfold retenues. rewrite <- garder_filter. apply garder_length.
  now rewrite length_map, length_seq.
Qed.

(** Every record kept by the filter has a date, hence one key. *)
Lemma cles_retenues_length (jp jd : nat) (fq : Frequence) (limite : Horodatage)
  (rows : list (list (option string))) :
  List.length (cles_lignes jp jd fq (retenues jd limite rows))
  = List.length (retenues jd limite rows).
Proof.
  unfold cles_lignes, retenues. induction rows as [|r rs IH]; [reflexivity|].
  cbn [filter]. destruct (retenue jd limite r) eqn:E; [|exact IH].
  cbn [flat_map]. rewrite length_app, IH. unfold cle_ligne.
  unfold retenue in E. destruct (date_cellule (cellule jd r)); [discriminate|].
  reflexivity.
Qed.

End FaitsCellules.

(** ** Each block of the function, as a transformation of the store *)

Section FaitsScript.

Context {F : Type} {NF : Flottant F} {TY : Typage}.
Variable pd_read_csv : string -> Exception + Csv.
Variable pd_to_datetime : string -> option Horodatage.

(** [d] with column [e] set to [c]. *)
Definition avec (e : Etiquette) (c : Colonne F) (d : DataFrame F) : DataFrame F :=
  {| index := index d; colonnes := poser e c (colonnes d) |}.

(** The conversion [pd.to_datetime] applies to the cells of a column read
    from the file, by the type of the column, and the exception it raises
    when a cell is refused. *)
Definition horodateur (d : option Dtype) : string -> option Horodatage :=
  match d with
  | None => pd_to_datetime
  | Some Nombres => to_datetime_nombre
  | Some _ => fun _ => None
  end.

Definition erreur_conversion (d : option Dtype) : Exception :=
  match d with
  | Some Booleens | Some BooleensOuNaN => TypeError
  | _ => ValueError
  end.

(** The conversion of the cells of column [jd] of a file. *)
Definition lecture_dates (f : Csv) (jd : nat) : string -> option Horodatage :=
  horodateur (dtype (map (cellule jd) (lignes f))).

(** Whether [.str] applies to the cells [l] kept of a column of type [d]. *)
Definition str_admis (d : option Dtype) (l : list (option string)) : bool :=
  match d with
  | None => true
  | Some BooleensOuNaN => forallb vide l
  | Some _ => false
  end.

(** Whether [.str] applies to column [jp] of a file, cut down to [rows]. *)
Definition pays_textuels (f : Csv) (jp : nat)
  (rows : list (list (option string))) : bool :=
  str_admis (dtype (map (cellule jp) (lignes f))) (map (cellule jp) rows).

Ltac pas :=
  cbv beta iota delta
    [bind essayer getitem contenu ret de lever retourner si setitem modifier
     nouveau copy len getitem_mask set_columns setitem_scalaire loc_getitem
     loc_setitem loc_setitem_scalaire loc_setitem_tout part].

Ltac calcul :=
  cbn -[lire ecrire allouer isin pays_francophones Z.of_nat Z.eqb garder
        selection].

Lemma lecture_ok (fichier_csv : string) (f : Csv) (t : Tas F) :
  pd_read_csv fichier_csv = inr f ->
  lecture pd_read_csv fichier_csv t = Suite (suivant t) (allouer (cadre_csv f) t).
Proof. intros H. unfold lecture. pas. now rewrite H. Qed.

Lemma lecture_echec (fichier_csv : string) (e : Exception) (t : Tas F) :
  pd_read_csv fichier_csv = inl e ->
  lecture pd_read_csv fichier_csv t
  = Retour (Rien (match e with
                  | FileNotFoundError => FichierIntrouvable fichier_csv
                  | _ => ErreurChargement e
                  end)) t.
Proof. intros H. unfold lecture. pas. rewrite H. now destruct e. Qed.

Lemma verification_ok (df : nat) (pays date : string) (t : Tas F) :
  contient (ENom pays) (etiquettes (lire df t)) = true ->
  contient (ENom date) (etiquettes (lire df t)) = true ->
  verification df pays date t = Suite tt t.
Proof. intros H1 H2. unfold verification. pas. now rewrite H1, H2. Qed.

Lemma verification_pays (df : nat) (pays date : string) (t : Tas F) :
  contient (ENom pays) (etiquettes (lire df t)) = false ->
  verification df pays date t
  = Retour (Rien (ColonneAbsente pays (etiquettes (lire df t)))) t.
Proof. intros H1. unfold verification. pas. now rewrite H1. Qed.

Lemma verification_date (df : nat) (pays date : string) (t : Tas F) :
  contient (ENom pays) (etiquettes (lire df t)) = true ->
  contient (ENom date) (etiquettes (lire df t)) = false ->
  verification df pays date t
  = Retour (Rien (ColonneAbsente date (etiquettes (lire df t)))) t.
Proof. intros H1 H2. unfold verification. pas. now rewrite H1, H2. Qed.

Lemma forallb_faux {A : Type} (g g' : A -> bool) (l : list A) :
  (forall x, g' x = true -> g x = true) ->
  forallb g l = false -> forallb g' l = false.
Proof.
  intros H E. destruct (forallb g' l) eqn:E'; [|reflexivity].
  rewrite <- E. symmetry. rewrite forallb_forall in *. auto.
Qed.

Lemma booleens_illisibles (l : list (option string)) :
  dtype l = Some Booleens \/ dtype l = Some BooleensOuNaN ->
  forallb (lisible (fun _ => None)) l = false.
Proof.
  unfold dtype. destruct l as [|o r]; [intros [H|H]; discriminate|].
  destruct (forallb numerique (o :: r)) eqn:E; [intros [H|H]; discriminate|].
  intros _. apply (forallb_faux numerique); [|exact E].
  intros [s|]; [discriminate | reflexivity].
Qed.

Lemma to_datetime_lue (l : list (option string)) :
  to_datetime_col (F := F) pd_to_datetime (colonne_lue l)
  = if forallb (lisible (horodateur (dtype l))) l
    then inr (CDate (map (date_cellule (horodateur (dtype l))) l))
    else inl (erreur_conversion (dtype l)).
Proof.
  unfold colonne_lue. destruct (dtype l) as [[| |]|] eqn:E;
    cbn [to_datetime_col horodateur erreur_conversion].
  - rewrite convertir_spec. now destruct (forallb _ l).
  - rewrite booleens_illisibles by auto. reflexivity.
  - rewrite booleens_illisibles by auto. reflexivity.
  - rewrite convertir_spec. now destruct (forallb _ l).
Qed.

Lemma conversion_ok (df : nat) (date : string) (t : Tas F) (c c' : Colonne F) :
  chercher (ENom date) (colonnes (lire df t)) = Some c ->
  to_datetime_col pd_to_datetime c = inr c' ->
  conversion pd_to_datetime df date t
  = Suite tt (ecrire df (avec (ENom date) c' (lire df t)) t).
Proof.
  intros H1 H2. unfold conversion. pas. rewrite H1.
  cbn -[to_datetime_col]. rewrite H2. reflexivity.
Qed.

Lemma conversion_echec (df : nat) (date : string) (t : Tas F) (c : Colonne F)
  (e : Exception) :
  chercher (ENom date) (colonnes (lire df t)) = Some c ->
  to_datetime_col pd_to_datetime c = inl e ->
  conversion pd_to_datetime df date t = Retour (Rien (ErreurConversionDates e)) t.
Proof.
  intros H1 H2. unfold conversion. pas. rewrite H1.
  cbn -[to_datetime_col]. rewrite H2. reflexivity.
Qed.

Lemma filtrage_limite (df : nat) (date debut : string) (t : Tas F) :
  pd_to_datetime debut = None ->
  filtrage pd_to_datetime df date debut t = Retour (Rien (ErreurFiltrage ValueError)) t.
Proof.
  intros H. unfold filtrage, to_datetime_scalaire. pas.
  now rewrite H.
Qed.

Lemma filtrage_spec (df : nat) (date debut : string) (t : Tas F)
  (hs : list Horodatage) (limite : Horodatage) :
  pd_to_datetime debut = Some limite ->
  chercher (ENom date) (colonnes (lire df t)) = Some (CDate hs) ->
  let mask := map (fun h => ge_h h limite) hs in
  let t' := allouer (selection mask (lire df t)) t in
  filtrage pd_to_datetime df date debut t
  = if Z.of_nat (List.length (garder mask (index (lire df t)))) =? 0
    then Retour (Rien (AucuneDonnee debut)) t'
    else Suite (suivant t) t'.
Proof.
  intros H1 H2 mask t'. unfold filtrage, to_datetime_scalaire. pas.
  rewrite H1, H2. cbn -[Z.of_nat Z.eqb garder lire allouer selection].
  fold mask. rewrite lire_allouer_meme. cbn -[Z.of_nat Z.eqb garder lire allouer].
  fold t'.
  destruct (Z.of_nat (List.length (garder mask (index (lire df t)))) =? 0);
    reflexivity.
Qed.

Lemma isin_normalise (l : list (option string)) :
  isin (F := F)
    (CObjet (map (option_map Texte.strip) (map (option_map Texte.lower) l)))
    pays_francophones
  = CBool (map classer l).
Proof.
  unfold isin. f_equal. rewrite !map_map. apply map_ext.
  intros [s|]; reflexivity.
Qed.

Definition normalisee (l : list (option string)) : Colonne F :=
  CObjet (map (option_map Texte.strip) (map (option_map Texte.lower) l)).

Lemma str_lue (mask : list bool) (l : list (option string)) :
  str_lower (F := F) (garder_col mask (colonne_lue l))
  = if str_admis (dtype l) (garder mask l)
    then inr (CObjet (map (option_map Texte.lower) (garder mask l)))
    else inl AttributeError.
Proof.
  unfold colonne_lue. destruct (dtype l) as [[| |]|]; reflexivity.
Qed.

Lemma classification_ok (df : nat) (pays : string) (t : Tas F)
  (c : Colonne F) (l : list (option string)) :
  chercher (ENom pays) (colonnes (lire df t)) = Some c ->
  str_lower c = inr (CObjet (map (option_map Texte.lower) l)) ->
  let d1 := avec (ENom pays) (normalisee l) (lire df t) in
  classification df pays t
  = Suite tt (ecrire df (avec (ENom "est_francophone") (CBool (map classer l)) d1)
                (ecrire df d1 t)).
Proof.
  intros H Hs d1. unfold classification. pas. rewrite H.
  cbn -[lire ecrire allouer isin pays_francophones Z.of_nat Z.eqb garder
        selection str_lower].
  rewrite Hs.
  calcul. rewrite lire_ecrire_meme. calcul. rewrite chercher_poser_meme.
  rewrite isin_normalise, !lire_ecrire_meme. reflexivity.
Qed.

Lemma classification_refus (df : nat) (pays : string) (t : Tas F)
  (c : Colonne F) (e : Exception) :
  chercher (ENom pays) (colonnes (lire df t)) = Some c ->
  str_lower c = inl e ->
  classification df pays t = Leve e t.
Proof.
  intros H Hs. unfold classification. pas. rewrite H.
  cbn -[str_lower]. now rewrite Hs.
Qed.

Lemma dans_regroupement (code : string) :
  dans code (map fst regroupements_labels)
  = match frequence_de code with Some _ => true | None => false end.
Proof.
  unfold dans, frequence_de. simpl.
  rewrite !(String.eqb_sym code).
  destruct (String.eqb "W" code), (String.eqb "M" code),
    (String.eqb "Q" code), (String.eqb "Y" code); reflexivity.
Qed.

Lemma controle_ok (code : string) (fq : Frequence) (t : Tas F) :
  frequence_de code = Some fq -> controle_regroupement code t = Suite tt t.
Proof.
  intros H. unfold controle_regroupement. rewrite dans_regroupement, H.
  reflexivity.
Qed.

Lemma controle_echec (code : string) (t : Tas F) :
  frequence_de code = None ->
  controle_regroupement code t = Retour (Rien (RegroupementNonSupporte code)) t.
Proof.
  intros H. unfold controle_regroupement. rewrite dans_regroupement, H.
  reflexivity.
Qed.

Lemma extraction_ok (df : nat) (date code : string) (t : Tas F)
  (hs : list Horodatage) (fq : Frequence) :
  chercher (ENom date) (colonnes (lire df t)) = Some (CDate hs) ->
  frequence_de code = Some fq ->
  extraction df date code t
  = Suite tt (ecrire df (avec (ENom "periode") (CPeriode (map (periode_de fq) hs))
                           (lire df t)) t).
Proof.
  intros H1 H2. unfold extraction. pas. rewrite H1. cbn. rewrite H2.
  reflexivity.
Qed.

Lemma extraction_bool (df : nat) (date code : string) (t : Tas F)
  (bs : list bool) :
  chercher (ENom date) (colonnes (lire df t)) = Some (CBool bs) ->
  extraction df date code t = Leve AttributeError t.
Proof. intros H1. unfold extraction. pas. now rewrite H1. Qed.

(** The counts table of a list of keys, as the script leaves it. *)
Definition comptes (ks : list (Z * bool)) : DataFrame F :=
  let a := map (fun p => effectif (p, false) ks) (periodes ks) in
  let f := map (fun p => effectif (p, true) ks) (periodes ks) in
  {| index := periodes ks;
     colonnes := [(autres_pays, CInt a); (pays_franco, CInt f);
                  (total, CInt (map2 Z.add a f))] |}.

Lemma comptage_ok (df : nat) (t : Tas F) (ps : list (option Z)) (bs : list bool) :
  chercher (ENom "periode") (colonnes (lire df t)) = Some (CPeriode ps) ->
  chercher (ENom "est_francophone") (colonnes (lire df t)) = Some (CBool bs) ->
  presente false (cles ps bs) = true ->
  presente true (cles ps bs) = true ->
  exists t',
    comptage df t = Suite (suivant t) t'
    /\ lire (suivant t) t' = comptes (cles ps bs)
    /\ suivant t' = S (suivant t)
    /\ forall r, r <> suivant t -> lire r t' = lire r t.
Proof.
  intros H1 H2 Hf Ht. unfold comptage. pas. rewrite H1, H2.
  unfold groupby_size_unstack. rewrite unstack_groupby_size.
  unfold table, classes. cbn [filter]. rewrite Hf, Ht.
  repeat progress
    (rewrite ?lire_allouer_meme, ?lire_ecrire_meme;
     cbn -[lire ecrire allouer effectif periodes cles]).
  eexists. split; [reflexivity|]. split; [|split].
  - rewrite lire_ecrire_meme. reflexivity.
  - reflexivity.
  - intros r Hr. rewrite !lire_ecrire_autre by assumption.
    now apply lire_allouer_autre.
Qed.

Lemma comptage_une_classe (df : nat) (t : Tas F) (ps : list (option Z))
  (bs : list bool) :
  chercher (ENom "periode") (colonnes (lire df t)) = Some (CPeriode ps) ->
  chercher (ENom "est_francophone") (colonnes (lire df t)) = Some (CBool bs) ->
  presente false (cles ps bs) && presente true (cles ps bs) = false ->
  comptage df t = Leve ValueError (allouer (table (cles ps bs)) t).
Proof.
  intros H1 H2 Hc. unfold comptage. pas. rewrite H1, H2.
  unfold groupby_size_unstack. rewrite unstack_groupby_size.
  cbv beta iota. rewrite lire_allouer_meme.
  unfold renommer, table, classes. cbn [filter].
  destruct (presente false (cles ps bs)), (presente true (cles ps bs));
    try discriminate; reflexivity.
Qed.

(** A frame with the three columns of the counts table. *)
Definition trois (idx : list Z) (a f tot : Colonne F) : DataFrame F :=
  {| index := idx;
     colonnes := [(autres_pays, a); (pays_franco, f); (total, tot)] |}.

(** What lines 113-124 leave in a share column and in the total column of
    [ventes_pourcentages], given the counts [x] and the totals [tot]. *)
Definition parts_brutes (x tot : list Z) : list F :=
  let mask := map (fun v => 0 <? v) tot in
  remplir (map negb mask) (of_int 0)
    (repartir mask
       (map (fun u => fmul u (of_int 100))
          (map2 (fun u v => fdiv (of_int u) (of_int v))
             (garder mask x) (garder mask tot)))
       (map of_int x)).

Definition totaux_bruts (tot : list Z) : list Z :=
  let mask := map (fun v => 0 <? v) tot in
  remplir (map negb mask) 0 (remplir mask 100 tot).

Lemma pourcentages_ok (vpp : nat) (t : Tas F) (idx a f tot : list Z) :
  lire vpp t = trois idx (CInt a) (CInt f) (CInt tot) ->
  vpp <> suivant t ->
  exists t',
    pourcentages vpp t = Suite (suivant t) t'
    /\ lire (suivant t) t'
       = trois idx (CFloat (parts_brutes a tot)) (CFloat (parts_brutes f tot))
           (CInt (totaux_bruts tot))
    /\ suivant t' = S (suivant t)
    /\ forall r, r <> suivant t -> lire r t' = lire r t.
Proof.
  intros H Hne. unfold pourcentages. pas.
  repeat progress
    (rewrite ?lire_allouer_meme, ?lire_ecrire_meme,
       ?(lire_ecrire_autre vpp (suivant t)), ?(lire_allouer_autre vpp),
       ?H by assumption;
     cbn -[lire ecrire allouer garder repartir remplir map map2 Z.ltb]).
  eexists. split; [reflexivity|]. split; [|split].
  - rewrite lire_ecrire_meme. reflexivity.
  - reflexivity.
  - intros r Hr. rewrite !lire_ecrire_autre by assumption.
    now apply lire_allouer_autre.
Qed.

Lemma parts_brutes_spec (x tot : list Z) :
  List.length x = List.length tot ->
  parts_brutes x tot
  = map2 (fun u v => if 0 <? v
                     then fmul (fdiv (of_int u) (of_int v)) (of_int 100)
                     else of_int 0) x tot.
Proof.
  unfold parts_brutes. revert tot.
  induction x as [|u x' IH]; intros [|v tot'] H; simpl in H; try discriminate.
  - reflexivity.
  - injection H as H. specialize (IH tot' H).
    cbn [map garder]. destruct (0 <? v) eqn:E.
    + cbn [map2 map repartir negb remplir]. now rewrite IH, E.
    + cbn [map2 map repartir negb remplir]. now rewrite IH, E.
Qed.

Lemma totaux_bruts_spec (tot : list Z) :
  totaux_bruts tot = map (fun v => if 0 <? v then 100 else 0) tot.
Proof.
  unfold totaux_bruts. induction tot as [|v r IH]; [reflexivity|].
  cbn [map]. destruct (0 <? v) eqn:E; cbn [remplir negb]; now rewrite IH.
Qed.

(** *** The run as a function of the records *)

(** The outcome of a call: the exception raised, or the value returned. *)
Definition resultat (o : Issue F Empty_set) : Exception + Retourne :=
  match o with
  | Suite a _ => match a with end
  | Retour v _ => inr v
  | Leve e _ => inl e
  end.

(** The outcome the function has on given arguments, [n] being the next free
    reference of the store it starts from. *)
Definition attendu (n : nat)
  (fichier_csv colonne_pays colonne_date regroupement date_debut : string)
  : Exception + Retourne :=
  match pd_read_csv fichier_csv with
  | inl e =>
      inr (Rien (match e with
                 | FileNotFoundError => FichierIntrouvable fichier_csv
                 | _ => ErreurChargement e
                 end))
  | inr f =>
      match rang colonne_pays (entete f), rang colonne_date (entete f) with
      | None, _ => inr (Rien (ColonneAbsente colonne_pays (map ENom (entete f))))
      | Some _, None =>
          inr (Rien (ColonneAbsente colonne_date (map ENom (entete f))))
      | Some jp, Some jd =>
          let h := lecture_dates f jd in
          if negb (forallb (lisible h) (map (cellule jd) (lignes f)))
          then inr (Rien (ErreurConversionDates
                            (erreur_conversion
                               (dtype (map (cellule jd) (lignes f))))))
          else
            match pd_to_datetime date_debut with
            | None => inr (Rien (ErreurFiltrage ValueError))
            | Some limite =>
                match retenues h jd limite (lignes f) with
                | [] => inr (Rien (AucuneDonnee date_debut))
                | _ :: _ =>
                    if String.eqb colonne_pays colonne_date
                       || negb (pays_textuels f jp
                                  (retenues h jd limite (lignes f)))
                    then inl AttributeError
                    else
                      match frequence_de regroupement with
                      | None =>
                          inr (Rien (RegroupementNonSupporte regroupement))
                      | Some fq =>
                          if String.eqb colonne_date "est_francophone"
                          then inl AttributeError
                          else
                            let ks := cles_lignes h jp jd fq
                                        (retenues h jd limite (lignes f)) in
                            if presente false ks && presente true ks
                            then inr (Tables (S (S n)) (S (S (S n))))
                            else inl ValueError
                      end
                end
            end
      end
  end.

(** The percentage table of a list of keys, as the script leaves it. *)
Definition partage (ks : list (Z * bool)) : DataFrame F :=
  let a := map (fun p => effectif (p, false) ks) (periodes ks) in
  let f := map (fun p => effectif (p, true) ks) (periodes ks) in
  let tot := map2 Z.add a f in
  trois (periodes ks) (CFloat (parts_brutes a tot)) (CFloat (parts_brutes f tot))
    (CInt (totaux_bruts tot)).

(** The group keys a call works on. *)
Definition cles_appel
  (fichier_csv colonne_pays colonne_date regroupement date_debut : string)
  : list (Z * bool) :=
  match pd_read_csv fichier_csv with
  | inl _ => []
  | inr f =>
      match rang colonne_pays (entete f), rang colonne_date (entete f),
            pd_to_datetime date_debut, frequence_de regroupement with
      | Some jp, Some jd, Some limite, Some fq =>
          cles_lignes (lecture_dates f jd) jp jd fq
            (retenues (lecture_dates f jd) jd limite (lignes f))
      | _, _, _, _ => []
      end
  end.

Lemma etiquettes_colonnes_csv (j : nat) (noms : list string)
  (rows : list (list (option string))) :
  map fst (colonnes_csv (F := F) j noms rows) = map ENom noms.
Proof.
  revert j. induction noms as [|n r IH]; intros j; simpl; [reflexivity|].
  now rewrite IH.
Qed.

Lemma etiquettes_cadre_csv (f : Csv) :
  etiquettes (cadre_csv (F := F) f) = map ENom (entete f).
Proof. apply etiquettes_colonnes_csv. Qed.

Lemma contient_cadre_csv (nom : string) (f : Csv) :
  contient (ENom nom) (etiquettes (cadre_csv (F := F) f))
  = match rang nom (entete f) with Some _ => true | None => false end.
Proof.
  unfold etiquettes. rewrite contient_chercher, chercher_cadre_csv.
  now destruct (rang nom (entete f)).
Qed.

Ltac hors_cadre :=
  let r := fresh "r" in
  let Hr := fresh "Hr" in
  intros r Hr;
  repeat match goal with x := _ |- _ => subst x end;
  repeat first
    [ rewrite lire_ecrire_autre by (cbn [suivant ecrire allouer]; lia)
    | rewrite lire_allouer_autre by (cbn [suivant ecrire allouer]; lia) ];
  reflexivity.

Ltac peu_alloue :=
  intros ? ?; try discriminate;
  repeat match goal with x := _ |- _ => subst x end;
  cbn [suivant ecrire allouer]; lia.

Ltac termine t' :=
  exists t';
  split; [reflexivity | split; [intros ? ? [=] | split; [peu_alloue | hors_cadre]]].

Theorem execution
  (fichier_csv colonne_pays colonne_date regroupement date_debut : string)
  (t : Tas F) :
  exists t',
    analyser_ventes_francophones pd_read_csv pd_to_datetime fichier_csv
      colonne_pays colonne_date regroupement date_debut t
    = match attendu (suivant t) fichier_csv colonne_pays colonne_date
              regroupement date_debut with
      | inl e => Leve e t'
      | inr v => Retour v t'
      end
    /\ (forall a b,
          attendu (suivant t) fichier_csv colonne_pays colonne_date
            regroupement date_debut = inr (Tables a b) ->
          let ks := cles_appel fichier_csv colonne_pays colonne_date
                      regroupement date_debut in
          lire a t' = comptes ks /\ lire b t' = partage ks)
    /\ (forall m,
          attendu (suivant t) fichier_csv colonne_pays colonne_date
            regroupement date_debut = inr (Rien m) ->
          (suivant t' <= S (S (suivant t)))%nat)
    /\ (forall r, (r < suivant t)%nat -> lire r t' = lire r t).
Proof.
  unfold attendu, cles_appel, analyser_ventes_francophones.
  destruct (pd_read_csv fichier_csv) as [e|f] eqn:Hr.
  { rewrite (bind_retour _ _ _ _ _ (lecture_echec _ _ _ Hr)). termine t. }
  rewrite (bind_suite _ _ _ _ _ (lecture_ok _ _ _ Hr)).
  set (df := suivant t). set (t1 := allouer (cadre_csv f) t).
  assert (L1 : lire df t1 = cadre_csv f) by apply lire_allouer_meme.
  (* Verification des colonnes *)
  destruct (rang colonne_pays (entete f)) as [jp|] eqn:Hjp.
  2:{ rewrite (bind_retour _ _ _ _ _ (verification_pays df colonne_pays colonne_date t1
        ltac:(rewrite L1, contient_cadre_csv, Hjp; reflexivity))).
      rewrite L1, etiquettes_cadre_csv. termine t1. }
  destruct (rang colonne_date (entete f)) as [jd|] eqn:Hjd.
  2:{ rewrite (bind_retour _ _ _ _ _ (verification_date df colonne_pays colonne_date t1
        ltac:(rewrite L1, contient_cadre_csv, Hjp; reflexivity)
        ltac:(rewrite L1, contient_cadre_csv, Hjd; reflexivity))).
      rewrite L1, etiquettes_cadre_csv. termine t1. }
  rewrite (bind_suite _ _ _ _ _ (verification_ok df colonne_pays colonne_date t1
        ltac:(rewrite L1, contient_cadre_csv, Hjp; reflexivity)
        ltac:(rewrite L1, contient_cadre_csv, Hjd; reflexivity))).
  (* Conversion de la colonne date *)
  assert (C1 : chercher (ENom colonne_date) (colonnes (lire df t1))
               = Some (colonne_lue (map (cellule jd) (lignes f)))).
  { rewrite L1, chercher_cadre_csv, Hjd. reflexivity. }
  pose proof (to_datetime_lue (map (cellule jd) (lignes f))) as Hc.
  fold (lecture_dates f jd) in Hc. cbv zeta.
  set (h := lecture_dates f jd) in *.
  destruct (forallb (lisible h) (map (cellule jd) (lignes f))) eqn:Hl;
    cbn [negb].
  2:{ rewrite (bind_retour _ _ _ _ _ (conversion_echec _ _ _ _ _ C1 Hc)).
      termine t1. }
  rewrite (bind_suite _ _ _ _ _ (conversion_ok _ _ _ _ _ C1 Hc)).
  rewrite L1.
  set (hs := map (date_cellule h) (map (cellule jd) (lignes f))).
  set (d1 := avec (ENom colonne_date) (CDate hs) (cadre_csv f)).
  set (t2 := ecrire df d1 t1).
  assert (L2 : lire df t2 = d1) by apply lire_ecrire_meme.
  assert (C2 : chercher (ENom colonne_date) (colonnes (lire df t2)) = Some (CDate hs)).
  { rewrite L2. apply chercher_poser_meme. }
  (* Filtrage *)
  destruct (pd_to_datetime date_debut) as [limite|] eqn:Hd.
  2:{ rewrite (bind_retour _ _ _ _ _ (filtrage_limite _ _ _ _ Hd)). termine t2. }
  pose proof (filtrage_spec df colonne_date date_debut t2 hs limite Hd C2) as Hf.
  cbv zeta in Hf. rewrite L2 in Hf. unfold hs in Hf.
  rewrite !masque_lignes in Hf. cbn [index d1 avec cadre_csv] in Hf.
  rewrite longueur_filtre in Hf.
  set (mask := map (retenue h jd limite) (lignes f)) in *.
  set (d2 := selection mask d1) in *.
  set (t3 := allouer d2 t2) in *.
  destruct (retenues h jd limite (lignes f)) as [|l0 ls] eqn:HR.
  { cbn in Hf. rewrite (bind_retour _ _ _ _ _ Hf). termine t3. }
  cbn [List.length Z.of_nat Z.eqb] in Hf.
  rewrite (bind_suite _ _ _ _ _ Hf).
  set (df' := suivant t2).
  assert (L3 : lire df' t3 = d2) by apply lire_allouer_meme.
  assert (C3 : chercher (ENom colonne_date) (colonnes (lire df' t3))
               = Some (CDate (garder mask hs))).
  { rewrite L3. unfold d2, selection. cbn [colonnes].
    rewrite chercher_selection. unfold d1, avec. cbn [colonnes].
    rewrite chercher_poser_meme. reflexivity. }
  (* Normalisation et classification *)
  destruct (String.eqb colonne_pays colonne_date) eqn:Hpd; cbn [orb].
  { apply String.eqb_eq in Hpd. subst colonne_pays.
    rewrite (bind_leve _ _ _ _ _
               (classification_refus _ _ _ _ AttributeError C3 eq_refl)).
    termine t3. }
  assert (Npd : ENom colonne_pays <> ENom colonne_date).
  { intros [= E]. apply String.eqb_neq in Hpd. contradiction. }
  assert (C4 : chercher (ENom colonne_pays) (colonnes (lire df' t3))
               = Some (garder_col mask
                         (colonne_lue (map (cellule jp) (lignes f))))).
  { rewrite L3. unfold d2, selection. cbn [colonnes].
    rewrite chercher_selection. unfold d1, avec. cbn [colonnes].
    rewrite chercher_poser_autre by assumption.
    rewrite chercher_cadre_csv, Hjp. reflexivity. }
  pose proof (str_lue mask (map (cellule jp) (lignes f))) as Hs.
  unfold mask in Hs at 2 3. rewrite !garder_lignes, HR in Hs.
  unfold pays_textuels.
  destruct (str_admis (dtype (map (cellule jp) (lignes f)))
              (map (cellule jp) (l0 :: ls))) eqn:Hta; cbn [negb].
  2:{ rewrite (bind_leve _ _ _ _ _ (classification_refus _ _ _ _ _ C4 Hs)).
      termine t3. }
  rewrite (bind_suite _ _ _ _ _ (classification_ok _ _ _ _ _ C4 Hs)).
  rewrite L3.
  set (pays := map (cellule jp) (l0 :: ls)).
  set (d3 := avec (ENom colonne_pays) (normalisee pays) d2).
  set (d4 := avec (ENom "est_francophone") (CBool (map classer pays)) d3).
  set (t4 := ecrire df' d4 (ecrire df' d3 t3)).
  assert (L4 : lire df' t4 = d4) by apply lire_ecrire_meme.
  (* Regroupement *)
  destruct (frequence_de regroupement) as [fq|] eqn:Hfq.
  2:{ rewrite (bind_retour _ _ _ _ _ (controle_echec _ _ Hfq)). termine t4. }
  rewrite (bind_suite _ _ _ _ _ (controle_ok _ _ _ Hfq)).
  (* Extraction de la periode *)
  destruct (String.eqb colonne_date "est_francophone") eqn:Hde.
  { apply String.eqb_eq in Hde.
    assert (C5 : chercher (ENom colonne_date) (colonnes (lire df' t4))
                 = Some (CBool (map classer pays))).
    { rewrite L4, Hde. apply chercher_poser_meme. }
    rewrite (bind_leve _ _ _ _ _ (extraction_bool _ _ regroupement _ _ C5)).
    termine t4. }
  assert (Nde : ENom colonne_date <> ENom "est_francophone").
  { intros [= E]. apply String.eqb_neq in Hde. contradiction. }
  assert (C5 : chercher (ENom colonne_date) (colonnes (lire df' t4))
               = Some (CDate (garder mask hs))).
  { rewrite L4. unfold d4, d3, avec. cbn [colonnes].
    rewrite !chercher_poser_autre by (assumption || (apply not_eq_sym; assumption)).
    rewrite <- L3. exact C3. }
  rewrite (bind_suite _ _ _ _ _ (extraction_ok _ _ _ _ _ _ C5 Hfq)).
  rewrite L4.
  set (d5 := avec (ENom "periode") (CPeriode (map (periode_de fq) (garder mask hs))) d4).
  set (t5 := ecrire df' d5 t4).
  assert (L5 : lire df' t5 = d5) by apply lire_ecrire_meme.
  assert (C6 : chercher (ENom "periode") (colonnes (lire df' t5))
               = Some (CPeriode (map (periode_de fq) (garder mask hs)))).
  { rewrite L5. apply chercher_poser_meme. }
  assert (C7 : chercher (ENom "est_francophone") (colonnes (lire df' t5))
               = Some (CBool (map classer pays))).
  { rewrite L5. unfold d5, avec. cbn [colonnes].
    rewrite chercher_poser_autre by discriminate.
    apply chercher_poser_meme. }
  assert (K : cles (map (periode_de fq) (garder mask hs)) (map classer pays)
              = cles_lignes h jp jd fq (l0 :: ls)).
  { unfold hs, pays, mask. rewrite map_map, !garder_lignes, HR.
    rewrite <- cles_des_colonnes. now rewrite !map_map. }
  (* Comptage *)
  clear Hc.
  destruct (presente false (cles_lignes h jp jd fq (l0 :: ls))
            && presente true (cles_lignes h jp jd fq (l0 :: ls))) eqn:Hc.
  2:{ rewrite <- K in Hc.
      rewrite (bind_leve _ _ _ _ _ (comptage_une_classe _ _ _ _ C6 C7 Hc)).
      eexists; split; [reflexivity | split; [intros ? ? [=] | split; [intros ? [=] | hors_cadre]]]. }
  apply andb_prop in Hc as [Hc1 Hc2]. rewrite <- K in Hc1, Hc2.
  destruct (comptage_ok _ _ _ _ C6 C7 Hc1 Hc2) as (t6 & E6 & L6 & S6 & A6).
  rewrite (bind_suite _ _ _ _ _ E6).
  (* Pourcentages *)
  assert (N6 : suivant t5 <> suivant t6) by (rewrite S6; lia).
  destruct (pourcentages_ok (suivant t5) t6 _ _ _ _ L6 N6)
    as (t7 & E7 & L7 & S7 & A7).
  rewrite (bind_suite _ _ _ _ _ E7).
  exists t7. split; [|split; [|split]].
  - rewrite S6. reflexivity.
  - intros a b [= <- <-]. rewrite <- K. split.
    + rewrite A7 by exact N6. exact L6.
    + rewrite S6 in L7. exact L7.
  - intros m [=].
  - intros r Hr'. rewrite A7, A6.
    + revert r Hr'. hors_cadre.
    + cbn [suivant ecrire allouer t5 t4 t3 t2 t1]. lia.
    + rewrite S6. cbn [suivant ecrire allouer t5 t4 t3 t2 t1]. lia.
Qed.

(** *** Consequences for a call that returns its two tables *)

Lemma execution_resultat
  (fichier_csv colonne_pays colonne_date regroupement date_debut : string)
  (t : Tas F) :
  resultat (analyser_ventes_francophones pd_read_csv pd_to_datetime fichier_csv
              colonne_pays colonne_date regroupement date_debut t)
  = attendu (suivant t) fichier_csv colonne_pays colonne_date regroupement
      date_debut.
Proof.
  destruct (execution fichier_csv colonne_pays colonne_date regroupement
              date_debut t) as (t' & E & _).
  rewrite E. now destruct (attendu _ _ _ _ _ _).
Qed.

Lemma execution_tables
  (fichier_csv colonne_pays colonne_date regroupement date_debut : string)
  (t t' : Tas F) (a b : nat) :
  analyser_ventes_francophones pd_read_csv pd_to_datetime fichier_csv
    colonne_pays colonne_date regroupement date_debut t
  = Retour (Tables a b) t' ->
  attendu (suivant t) fichier_csv colonne_pays colonne_date regroupement
    date_debut = inr (Tables a b)
  /\ lire a t' = comptes (cles_appel fichier_csv colonne_pays colonne_date
                            regroupement date_debut)
  /\ lire b t' = partage (cles_appel fichier_csv colonne_pays colonne_date
                            regroupement date_debut)
  /\ (forall r, (r < suivant t)%nat -> lire r t' = lire r t).
Proof.
  intros H.
  destruct (execution fichier_csv colonne_pays colonne_date regroupement
              date_debut t) as (t'' & E & C & _ & Fr).
  rewrite H in E.
  destruct (attendu _ _ _ _ _ _) as [e|v] eqn:Ha; [discriminate|].
  injection E as <- <-. split; [reflexivity|].
  destruct (C a b eq_refl) as [C1 C2]. auto.
Qed.

(** What the arguments of a successful call satisfy. *)
Record Reussite
  (fichier_csv colonne_pays colonne_date regroupement date_debut : string)
  (f : Csv) (jp jd : nat) (limite : Horodatage) (fq : Frequence) : Prop := {
  r_lecture : pd_read_csv fichier_csv = inr f;
  r_pays : rang colonne_pays (entete f) = Some jp;
  r_date : rang colonne_date (entete f) = Some jd;
  r_lisible : forallb (lisible (lecture_dates f jd))
                (map (cellule jd) (lignes f)) = true;
  r_limite : pd_to_datetime date_debut = Some limite;
  r_retenues : retenues (lecture_dates f jd) jd limite (lignes f) <> [];
  r_distinctes : String.eqb colonne_pays colonne_date = false;
  r_textes : pays_textuels f jp
               (retenues (lecture_dates f jd) jd limite (lignes f)) = true;
  r_frequence : frequence_de regroupement = Some fq;
  r_libre : String.eqb colonne_date "est_francophone" = false;
  r_autres : presente false
               (cles_lignes (lecture_dates f jd) jp jd fq
                  (retenues (lecture_dates f jd) jd limite (lignes f))) = true;
  r_franco : presente true
               (cles_lignes (lecture_dates f jd) jp jd fq
                  (retenues (lecture_dates f jd) jd limite (lignes f))) = true
}.

Lemma attendu_tables (n : nat)
  (fichier_csv colonne_pays colonne_date regroupement date_debut : string)
  (a b : nat) :
  attendu n fichier_csv colonne_pays colonne_date regroupement date_debut
  = inr (Tables a b) ->
  exists f jp jd limite fq,
    Reussite fichier_csv colonne_pays colonne_date regroupement date_debut
      f jp jd limite fq
    /\ cles_appel fichier_csv colonne_pays colonne_date regroupement date_debut
       = cles_lignes (lecture_dates f jd) jp jd fq
           (retenues (lecture_dates f jd) jd limite (lignes f))
    /\ a = S (S n) /\ b = S (S (S n)).
Proof.
  unfold attendu, cles_appel.
  destruct (pd_read_csv fichier_csv) as [e|f] eqn:Hr; [discriminate|].
  destruct (rang colonne_pays (entete f)) as [jp|] eqn:Hjp; [|discriminate].
  destruct (rang colonne_date (entete f)) as [jd|] eqn:Hjd; [|discriminate].
  cbv zeta. set (h := lecture_dates f jd).
  destruct (forallb (lisible h) (map (cellule jd) (lignes f))) eqn:Hl;
    [|discriminate]. cbn [negb].
  destruct (pd_to_datetime date_debut) as [limite|] eqn:Hd; [|discriminate].
  destruct (retenues h jd limite (lignes f)) as [|l0 ls] eqn:HR; [discriminate|].
  destruct (String.eqb colonne_pays colonne_date) eqn:Hpd; [discriminate|].
  destruct (pays_textuels f jp (l0 :: ls)) eqn:Hta; [|discriminate].
  cbn [orb negb].
  destruct (frequence_de regroupement) as [fq|] eqn:Hfq; [|discriminate].
  destruct (String.eqb colonne_date "est_francophone") eqn:Hde; [discriminate|].
  destruct (presente false (cles_lignes h jp jd fq (l0 :: ls))) eqn:Hc1;
    [|discriminate].
  destruct (presente true (cles_lignes h jp jd fq (l0 :: ls))) eqn:Hc2;
    [|discriminate].
  cbn [andb]. intros [= <- <-].
  exists f, jp, jd, limite, fq. fold h. rewrite HR.
  split; [|auto].
  constructor; fold h; try assumption; rewrite ?HR; try assumption;
    discriminate.
Qed.

Lemma attendu_reussite (n : nat)
  (fichier_csv colonne_pays colonne_date regroupement date_debut : string)
  (f : Csv) (jp jd : nat) (limite : Horodatage) (fq : Frequence) :
  Reussite fichier_csv colonne_pays colonne_date regroupement date_debut
    f jp jd limite fq ->
  attendu n fichier_csv colonne_pays colonne_date regroupement date_debut
  = inr (Tables (S (S n)) (S (S (S n))))
  /\ cles_appel fichier_csv colonne_pays colonne_date regroupement date_debut
     = cles_lignes (lecture_dates f jd) jp jd fq
         (retenues (lecture_dates f jd) jd limite (lignes f)).
Proof.
  intros [Hr Hjp Hjd Hl Hd HR Hpd Hta Hfq Hde Hc1 Hc2].
  unfold attendu, cles_appel. cbv zeta.
  rewrite Hr, Hjp, Hjd, Hl, Hd, Hpd, Hta, Hfq, Hde.
  cbn [negb orb]. rewrite Hc1, Hc2.
  destruct (retenues (lecture_dates f jd) jd limite (lignes f));
    [contradiction | auto].
Qed.

Lemma comptes_total (ks : list (Z * bool)) :
  map2 Z.add (map (fun p => effectif (p, false) ks) (periodes ks))
    (map (fun p => effectif (p, true) ks) (periodes ks))
  = map (fun p => nombre_periode p ks) (periodes ks).
Proof.
  induction (periodes ks) as [|p r IH]; [reflexivity|].
  cbn [map map2]. now rewrite IH, effectif_somme_classes.
Qed.

Lemma somme_comptes (ks : list (Z * bool)) :
  somme (map (fun p => nombre_periode p ks) (periodes ks))
  = Z.of_nat (List.length ks).
Proof.
  apply somme_nombre_periode.
  - apply trie_NoDup, distincts_trie.
  - intros k Hk. apply distincts_In. now apply in_map.
Qed.

Lemma nombre_periode_periodes (ks : list (Z * bool)) :
  Forall (fun v => 0 < v) (map (fun p => nombre_periode p ks) (periodes ks)).
Proof.
  apply Forall_forall. intros v Hv. apply in_map_iff in Hv as [p [<- Hp]].
  apply nombre_periode_present. apply (proj1 (distincts_In _ _)). exact Hp.
Qed.

End FaitsScript.

(** ** Properties of the aggregation *)

Section Proprietes.

Context {F : Type} {NF : Flottant F} {TY : Typage}.
Variable pd_read_csv : string -> Exception + Csv.
Variable pd_to_datetime : string -> option Horodatage.

Lemma nth_map_defaut {A : Type} (g : A -> Z) (l : list A) (d : A) (i : nat) :
  (i < List.length l)%nat -> nth i (map g l) 0 = g (nth i l d).
Proof.
  intros H. rewrite (nth_indep _ 0 (g d)) by now rewrite length_map.
  apply map_nth.
Qed.

(** C3. In every row of the counts table a call returns, the francophone
    count and the count of the other countries add up to the total. *)
Theorem total_somme_des_classes
  (fichier_csv colonne_pays colonne_date regroupement date_debut : string)
  (t t' : Tas F) (a b : nat) :
  analyser_ventes_francophones pd_read_csv pd_to_datetime fichier_csv
    colonne_pays colonne_date regroupement date_debut t
  = Retour (Tables a b) t' ->
  exists autres franco tot : list Z,
    colonnes (lire a t')
    = [(autres_pays, CInt autres); (pays_franco, CInt franco);
       (total, CInt tot)]
    /\ List.length autres = List.length (index (lire a t'))
    /\ List.length franco = List.length (index (lire a t'))
    /\ List.length tot = List.length (index (lire a t'))
    /\ forall i, (i < List.length (index (lire a t')))%nat ->
         nth i franco 0 + nth i autres 0 = nth i tot 0.
Proof.
  intros H. apply execution_tables in H as (_ & La & _ & _).
  rewrite La. set (ks := cles_appel _ _ _ _ _ _ _).
  exists (map (fun p => effectif (p, false) ks) (periodes ks)),
         (map (fun p => effectif (p, true) ks) (periodes ks)),
         (map (fun p => nombre_periode p ks) (periodes ks)).
  unfold comptes. cbn [colonnes index]. rewrite comptes_total, !length_map.
  repeat split; try reflexivity.
  intros i Hi. rewrite !(nth_map_defaut _ _ 0) by assumption.
  rewrite Z.add_comm. apply effectif_somme_classes.
Qed.

(** C4. The totals of the counts table add up to the number of records the
    date filter keeps, and no row of the table is empty: every kept record is
    counted in one period, and only periods that hold a record appear. *)
Theorem somme_des_totaux
  (fichier_csv colonne_pays colonne_date regroupement date_debut : string)
  (t t' : Tas F) (a b : nat) :
  analyser_ventes_francophones pd_read_csv pd_to_datetime fichier_csv
    colonne_pays colonne_date regroupement date_debut t
  = Retour (Tables a b) t' ->
  exists (f : Csv) (jd : nat) (limite : Horodatage) (tot : list Z),
    pd_read_csv fichier_csv = inr f
    /\ rang colonne_date (entete f) = Some jd
    /\ pd_to_datetime date_debut = Some limite
    /\ chercher total (colonnes (lire a t')) = Some (CInt tot)
    /\ somme tot
       = Z.of_nat (List.length
                     (filter (retenue (lecture_dates pd_to_datetime f jd)
                                jd limite) (lignes f)))
    /\ Forall (fun v => 0 < v) tot.
Proof.
  intros H. apply execution_tables in H as (Ha & La & _ & _).
  apply attendu_tables in Ha
    as (f & jp & jd & limite & fq & R & K & _ & _).
  set (h := lecture_dates pd_to_datetime f jd) in *.
  exists f, jd, limite,
    (map (fun p => nombre_periode p
                     (cles_lignes h jp jd fq (retenues h jd limite (lignes f))))
       (periodes (cles_lignes h jp jd fq (retenues h jd limite (lignes f))))).
  destruct R. repeat split; try assumption.
  - rewrite La, K. unfold comptes. cbn [colonnes]. now rewrite comptes_total.
  - rewrite somme_comptes, cles_retenues_length. reflexivity.
  - apply nombre_periode_periodes.
Qed.

Lemma filter_perm {A : Type} (g : A -> bool) (l l' : list A) :
  Permutation l l' -> Permutation (filter g l) (filter g l').
Proof.
  induction 1 as [|x l l' _ IH|x y l|l l' l'' _ IH1 _ IH2]; simpl.
  - constructor.
  - destruct (g x); [now constructor | assumption].
  - destruct (g x), (g y); try apply Permutation_refl; apply perm_swap.
  - eapply Permutation_trans; eassumption.
Qed.

Lemma forallb_perm {A : Type} (g : A -> bool) (l l' : list A) :
  Permutation l l' -> forallb g l = true -> forallb g l' = true.
Proof.
  intros P H. rewrite forallb_forall in *. intros x Hx. apply H.
  eapply Permutation_in; [apply Permutation_sym|]; eassumption.
Qed.

Lemma presente_perm (c : bool) (ks ks' : list (Z * bool)) :
  Permutation ks ks' -> presente c ks = presente c ks'.
Proof.
  intros P. unfold presente. apply eq_true_iff_eq. rewrite !existsb_exists.
  split; intros [k [Hk E]]; exists k; split; try assumption.
  - eapply Permutation_in; eassumption.
  - eapply Permutation_in; [apply Permutation_sym|]; eassumption.
Qed.

Lemma effectif_perm (k : Z * bool) (ks ks' : list (Z * bool)) :
  Permutation ks ks' -> effectif k ks = effectif k ks'.
Proof.
  intros P. unfold effectif. f_equal. apply Permutation_length.
  now apply filter_perm.
Qed.

Lemma periodes_perm (ks ks' : list (Z * bool)) :
  Permutation ks ks' -> periodes ks = periodes ks'.
Proof. intros P. apply distincts_perm. now apply Permutation_map. Qed.

Lemma comptes_perm (ks ks' : list (Z * bool)) :
  Permutation ks ks' -> comptes (F := F) ks = comptes ks'.
Proof.
  intros P. unfold comptes. rewrite (periodes_perm _ _ P).
  assert (E : forall c,
    map (fun p => effectif (p, c) ks) (periodes ks')
    = map (fun p => effectif (p, c) ks') (periodes ks')).
  { intros c. apply map_ext. intros p. now apply effectif_perm. }
  now rewrite !E.
Qed.

Lemma partage_perm (ks ks' : list (Z * bool)) :
  Permutation ks ks' -> partage (F := F) ks = partage ks'.
Proof.
  intros P. unfold partage. rewrite (periodes_perm _ _ P).
  assert (E : forall c,
    map (fun p => effectif (p, c) ks) (periodes ks')
    = map (fun p => effectif (p, c) ks') (periodes ks')).
  { intros c. apply map_ext. intros p. now apply effectif_perm. }
  now rewrite !E.
Qed.

Lemma cles_lignes_perm (h : string -> option Horodatage) (jp jd : nat)
  (fq : Frequence) (limite : Horodatage)
  (rows rows' : list (list (option string))) :
  Permutation rows rows' ->
  Permutation
    (cles_lignes h jp jd fq (retenues h jd limite rows))
    (cles_lignes h jp jd fq (retenues h jd limite rows')).
Proof.
  intros P. unfold cles_lignes, retenues.
  apply Permutation_flat_map. now apply filter_perm.
Qed.

(** The type of a column does not depend on the order of the records. *)
Lemma forallb_perm_eq {A : Type} (g : A -> bool) (l l' : list A) :
  Permutation l l' -> forallb g l = forallb g l'.
Proof.
  intros P. apply eq_true_iff_eq. split; apply forallb_perm;
    [exact P | now apply Permutation_sym].
Qed.

Lemma dtype_perm (l l' : list (option string)) :
  Permutation l l' -> dtype l = dtype l'.
Proof.
  intros P. unfold dtype. destruct l as [|o r], l' as [|o' r'].
  - reflexivity.
  - now apply Permutation_nil_cons in P.
  - apply Permutation_sym in P. now apply Permutation_nil_cons in P.
  - now rewrite !(forallb_perm_eq _ _ _ P).
Qed.

Lemma lecture_dates_perm (f f' : Csv) (jd : nat) :
  Permutation (lignes f) (lignes f') ->
  lecture_dates pd_to_datetime f jd = lecture_dates pd_to_datetime f' jd.
Proof.
  intros P. unfold lecture_dates. f_equal. apply dtype_perm.
  now apply Permutation_map.
Qed.

Lemma pays_textuels_perm (f f' : Csv) (jp : nat)
  (rows rows' : list (list (option string))) :
  Permutation (lignes f) (lignes f') -> Permutation rows rows' ->
  pays_textuels f jp rows = pays_textuels f' jp rows'.
Proof.
  intros P P'. unfold pays_textuels.
  rewrite (dtype_perm _ _ (Permutation_map (cellule jp) P)).
  unfold str_admis. destruct (dtype _) as [[| |]|]; try reflexivity.
  apply forallb_perm_eq. now apply Permutation_map.
Qed.

(** C5. The rows of the counts table stand in ascending order of period, and
    a call on the same records in another order returns the same two
    tables. *)
Theorem agregation_triee_et_symetrique
  (pd_read_csv' : string -> Exception + Csv)
  (fichier_csv colonne_pays colonne_date regroupement date_debut : string)
  (f f' : Csv) (t t1 : Tas F) (a b : nat) :
  pd_read_csv fichier_csv = inr f ->
  pd_read_csv' fichier_csv = inr f' ->
  entete f' = entete f ->
  Permutation (lignes f) (lignes f') ->
  analyser_ventes_francophones pd_read_csv pd_to_datetime fichier_csv
    colonne_pays colonne_date regroupement date_debut t
  = Retour (Tables a b) t1 ->
  StronglySorted Z.lt (index (lire a t1))
  /\ exists t1',
       analyser_ventes_francophones pd_read_csv' pd_to_datetime fichier_csv
         colonne_pays colonne_date regroupement date_debut t
       = Retour (Tables a b) t1'
       /\ lire a t1' = lire a t1
       /\ lire b t1' = lire b t1.
Proof.
  intros Hr Hr' He P H.
  apply execution_tables in H as (Ha & La & Lb & _).
  apply attendu_tables in Ha
    as (f0 & jp & jd & limite & fq & R & K & -> & ->).
  destruct R as [Hr0 Hjp Hjd Hl Hd HR Hpd Hta Hfq Hde Hc1 Hc2].
  rewrite Hr in Hr0. injection Hr0 as <-.
  split.
  { rewrite La. unfold comptes. cbn [index]. apply distincts_trie. }
  pose proof (lecture_dates_perm f f' jd P) as Eh.
  pose proof (cles_lignes_perm (lecture_dates pd_to_datetime f jd) jp jd fq
                limite _ _ P) as PK.
  assert (PR : Permutation
                 (retenues (lecture_dates pd_to_datetime f jd) jd limite
                    (lignes f))
                 (retenues (lecture_dates pd_to_datetime f jd) jd limite
                    (lignes f'))).
  { unfold retenues. now apply filter_perm. }
  assert (R' : Reussite pd_read_csv' pd_to_datetime fichier_csv colonne_pays
                 colonne_date regroupement date_debut f' jp jd limite fq).
  { constructor; rewrite ?He, <- ?Eh; try assumption.
    - apply (forallb_perm _ _ _ (Permutation_map _ P) Hl).
    - intros E. apply HR.
      apply Permutation_nil. apply Permutation_sym. now rewrite <- E.
    - now rewrite <- (pays_textuels_perm f f' jp _ _ P PR).
    - now rewrite <- (presente_perm _ _ _ PK).
    - now rewrite <- (presente_perm _ _ _ PK). }
  destruct (attendu_reussite pd_read_csv' pd_to_datetime (suivant t) _ _ _ _ _
              _ _ _ _ _ R') as [Ha' K'].
  destruct (execution pd_read_csv' pd_to_datetime fichier_csv colonne_pays
              colonne_date regroupement date_debut t) as (t1' & E & C & _ & _).
  rewrite Ha' in E. exists t1'. split; [exact E|].
  destruct (C _ _ Ha') as [La' Lb']. cbv zeta in La', Lb'.
  rewrite La', Lb', La, Lb, K, K', <- Eh.
  split; [apply comptes_perm | apply partage_perm]; now apply Permutation_sym.
Qed.

(** C10. Computing the percentages leaves the counts table as it was: the
    shares are written into a copy, a distinct object, so the counts table a
    call returns still holds its integer columns. *)
Theorem comptes_intacts :
  (forall (vpp : nat) (t : Tas F) (idx a f tot : list Z),
     lire vpp t = trois idx (CInt a) (CInt f) (CInt tot) ->
     vpp <> suivant t ->
     exists (pct : nat) (t' : Tas F),
       pourcentages vpp t = Suite pct t'
       /\ pct <> vpp
       /\ lire vpp t' = trois idx (CInt a) (CInt f) (CInt tot)
       /\ lire pct t'
          = trois idx (CFloat (parts_brutes a tot)) (CFloat (parts_brutes f tot))
              (CInt (totaux_bruts tot)))
  /\ (forall (fichier_csv colonne_pays colonne_date regroupement date_debut : string)
        (t t' : Tas F) (a b : nat),
        analyser_ventes_francophones pd_read_csv pd_to_datetime fichier_csv
          colonne_pays colonne_date regroupement date_debut t
        = Retour (Tables a b) t' ->
        a <> b
        /\ exists ks : list (Z * bool),
             lire a t'
             = trois (periodes ks)
                 (CInt (map (fun p => effectif (p, false) ks) (periodes ks)))
                 (CInt (map (fun p => effectif (p, true) ks) (periodes ks)))
                 (CInt (map (fun p => nombre_periode p ks) (periodes ks)))).
Proof.
  split.
  - intros vpp t idx a f tot L N.
    destruct (pourcentages_ok vpp t idx a f tot L N) as (t' & E & Lp & _ & A).
    exists (suivant t), t'. repeat split.
    + exact E.
    + auto.
    + rewrite A by assumption. exact L.
    + exact Lp.
  - intros fichier_csv colonne_pays colonne_date regroupement date_debut
      t t' a b H.
    apply execution_tables in H as (Ha & La & _ & _).
    apply attendu_tables in Ha as (f & jp & jd & limite & fq & _ & _ & -> & ->).
    split; [lia|].
    eexists. rewrite La. unfold comptes, trois. now rewrite comptes_total.
Qed.

Lemma map2_ext_Forall {A B : Type} (g h : A -> Z -> B) (P : Z -> Prop)
  (l : list A) (l' : list Z) :
  (forall u v, P v -> g u v = h u v) -> Forall P l' ->
  map2 g l l' = map2 h l l'.
Proof.
  intros E H. revert l. induction H as [|v r Hv _ IH]; intros [|u l];
    try reflexivity.
  cbn [map2]. now rewrite E, IH.
Qed.

Lemma partage_positif (ks : list (Z * bool)) :
  let a := map (fun p => effectif (p, false) ks) (periodes ks) in
  let f := map (fun p => effectif (p, true) ks) (periodes ks) in
  let tot := map (fun p => nombre_periode p ks) (periodes ks) in
  let part := fun u v => fmul (fdiv (of_int u) (of_int v)) (of_int 100) in
  partage (F := F) ks
  = trois (periodes ks) (CFloat (map2 part a tot)) (CFloat (map2 part f tot))
      (CInt (map (fun _ => 100) tot)).
Proof.
  intros a f tot part. unfold partage. rewrite comptes_total. fold a f tot.
  assert (P : Forall (fun v => 0 < v) tot) by apply nombre_periode_periodes.
  rewrite !parts_brutes_spec by (unfold a, f, tot; now rewrite !length_map).
  rewrite totaux_bruts_spec.
  rewrite (map2_ext_Forall _ part (fun v => 0 < v) a tot);
    [| intros u v Hv; apply Z.ltb_lt in Hv; now rewrite Hv | exact P].
  rewrite (map2_ext_Forall _ part (fun v => 0 < v) f tot);
    [| intros u v Hv; apply Z.ltb_lt in Hv; now rewrite Hv | exact P].
  assert (T : map (fun v => if 0 <? v then 100 else 0) tot
              = map (fun _ => 100) tot).
  { clear - P. induction P as [|v r Hv _ IH]; cbn [map]; [reflexivity|].
    apply Z.ltb_lt in Hv. now rewrite Hv, IH. }
  now rewrite T.
Qed.

Lemma map2_length {A B C : Type} (g : A -> B -> C) (l : list A) (l' : list B) :
  List.length l = List.length l' -> List.length (map2 g l l') = List.length l.
Proof.
  revert l'. induction l as [|x r IH]; intros [|y r'] H; simpl in *;
    try reflexivity; try discriminate.
  f_equal. apply IH. now injection H.
Qed.

Lemma parts_de_l_appel
  (fichier_csv colonne_pays colonne_date regroupement date_debut : string)
  (t t' : Tas F) (a b : nat) :
  analyser_ventes_francophones pd_read_csv pd_to_datetime fichier_csv
    colonne_pays colonne_date regroupement date_debut t
  = Retour (Tables a b) t' ->
  let part := fun u v => fmul (fdiv (of_int u) (of_int v)) (of_int 100) in
  exists idx autres franco tot : list Z,
    lire a t' = trois idx (CInt autres) (CInt franco) (CInt tot)
    /\ tot = map2 Z.add autres franco
    /\ List.length autres = List.length idx
    /\ List.length franco = List.length idx
    /\ Forall (fun v => 0 < v) tot
    /\ lire b t'
       = trois idx (CFloat (map2 part autres tot)) (CFloat (map2 part franco tot))
           (CInt (map (fun _ => 100) tot)).
Proof.
  intros H part. apply execution_tables in H as (_ & La & Lb & _).
  set (ks := cles_appel _ _ _ _ _ _ _) in *.
  exists (periodes ks),
         (map (fun p => effectif (p, false) ks) (periodes ks)),
         (map (fun p => effectif (p, true) ks) (periodes ks)),
         (map (fun p => nombre_periode p ks) (periodes ks)).
  split. { rewrite La. unfold comptes, trois. now rewrite comptes_total. }
  split. { symmetry. apply comptes_total. }
  split. { apply length_map. }
  split. { apply length_map. }
  split. { apply nombre_periode_periodes. }
  rewrite Lb. apply partage_positif.
Qed.


(** C8. Each check of the function ends the call with a message of its own
    and without tables, none of which has been built by then.  The checks
    stand in the order of the code: an unsupported grouping is reported once
    the classification has gone through, which needs a country column of
    texts, distinct from the date column; otherwise the classification
    raises [AttributeError] first.  A call that returns tables returns the
    counts and the percentages of the records kept, both whole, after every
    check has passed; and it does return them when every check passes, the
    classification goes through, the date column is not named
    est_francophone and both classes of countries occur. *)
Theorem erreurs_sans_resultat_partiel
  (fichier_csv colonne_pays colonne_date regroupement date_debut : string)
  (t : Tas F) :
  let o := analyser_ventes_francophones pd_read_csv pd_to_datetime fichier_csv
             colonne_pays colonne_date regroupement date_debut t in
  (forall f, pd_read_csv fichier_csv = inr f ->
     (rang colonne_pays (entete f) = None ->
      resultat o = inr (Rien (ColonneAbsente colonne_pays (map ENom (entete f)))))
     /\ (forall jp, rang colonne_pays (entete f) = Some jp ->
         (rang colonne_date (entete f) = None ->
          resultat o
          = inr (Rien (ColonneAbsente colonne_date (map ENom (entete f)))))
         /\ (forall jd, rang colonne_date (entete f) = Some jd ->
             let h := lecture_dates pd_to_datetime f jd in
             let dates := map (cellule jd) (lignes f) in
             (forallb (lisible h) dates = false ->
              resultat o
              = inr (Rien (ErreurConversionDates
                             (erreur_conversion (dtype dates)))))
             /\ (forallb (lisible h) dates = true ->
                 (pd_to_datetime date_debut = None ->
                  resultat o = inr (Rien (ErreurFiltrage ValueError)))
                 /\ (forall limite, pd_to_datetime date_debut = Some limite ->
                     let gardees := retenues h jd limite (lignes f) in
                     (gardees = [] ->
                      resultat o = inr (Rien (AucuneDonnee date_debut)))
                     /\ (gardees <> [] ->
                         (colonne_pays = colonne_date
                          \/ pays_textuels f jp gardees = false ->
                          resultat o = inl AttributeError)
                         /\ (colonne_pays <> colonne_date ->
                             pays_textuels f jp gardees = true ->
                             frequence_de regroupement = None ->
                             resultat o
                             = inr (Rien (RegroupementNonSupporte
                                            regroupement)))))))))
  /\ (forall m, resultat o = inr (Rien m) ->
        (suivant (tas_de o) <= S (S (suivant t)))%nat)
  /\ (forall a b, resultat o = inr (Tables a b) ->
        a <> b
        /\ exists f jp jd limite fq,
             Reussite pd_read_csv pd_to_datetime fichier_csv colonne_pays
               colonne_date regroupement date_debut f jp jd limite fq
             /\ let h := lecture_dates pd_to_datetime f jd in
                let ks := cles_lignes h jp jd fq
                            (retenues h jd limite (lignes f)) in
                lire a (tas_de o) = comptes ks
                /\ lire b (tas_de o) = partage ks)
  /\ (forall f jp jd limite fq,
        Reussite pd_read_csv pd_to_datetime fichier_csv colonne_pays
          colonne_date regroupement date_debut f jp jd limite fq ->
        exists a b, resultat o = inr (Tables a b)).
Proof.
  intros o.
  assert (R : resultat o
              = attendu pd_read_csv pd_to_datetime (suivant t) fichier_csv
                  colonne_pays colonne_date regroupement date_debut)
    by apply execution_resultat.
  split; [|split; [|split]].
  - intros f Hr. rewrite R. unfold attendu. rewrite Hr.
    split; [now intros ->|]. intros jp ->.
    split; [now intros ->|]. intros jd ->. cbv zeta.
    split; [now intros ->|]. intros ->. cbn [negb].
    split; [now intros ->|]. intros limite ->.
    split; [now intros ->|]. intros HR.
    destruct (retenues (lecture_dates pd_to_datetime f jd) jd limite (lignes f))
      as [|l0 ls]; [contradiction|].
    split.
    + intros [E | E].
      * apply String.eqb_eq in E. now rewrite E.
      * rewrite E. cbn [negb]. now rewrite Bool.orb_true_r.
    + intros Hne Hta Hf. apply String.eqb_neq in Hne.
      now rewrite Hne, Hta, Hf.
  - intros m Hm. rewrite R in Hm.
    destruct (execution pd_read_csv pd_to_datetime fichier_csv colonne_pays
                colonne_date regroupement date_debut t) as (t' & E & _ & S & _).
    fold o in E. rewrite Hm in E. rewrite E. cbn [tas_de]. exact (S m Hm).
  - intros a b Hab.
    assert (E : o = Retour (Tables a b) (tas_de o)).
    { destruct o as [[]|v t'|e t']; [|discriminate]. injection Hab as ->.
      reflexivity. }
    apply execution_tables in E as (Ha & La & Lb & _).
    apply attendu_tables in Ha
      as (f & jp & jd & limite & fq & Re & K & -> & ->).
    split; [lia|]. exists f, jp, jd, limite, fq. split; [exact Re|].
    cbv zeta. rewrite <- K. split; assumption.
  - intros f jp jd limite fq Hs. rewrite R.
    destruct (attendu_reussite pd_read_csv pd_to_datetime (suivant t) _ _ _ _ _
                _ _ _ _ _ Hs) as [-> _].
    eauto.
Qed.

(** When the records kept by the filter are all of one class, the assignment
    of the two column names on line 99 raises: the lines that would add the
    missing column are never reached. *)
Lemma une_classe_leve
  (fichier_csv colonne_pays colonne_date regroupement date_debut : string)
  (t : Tas F) (f : Csv) (jp jd : nat) (limite : Horodatage) (fq : Frequence) :
  pd_read_csv fichier_csv = inr f ->
  rang colonne_pays (entete f) = Some jp ->
  rang colonne_date (entete f) = Some jd ->
  let h := lecture_dates pd_to_datetime f jd in
  forallb (lisible h) (map (cellule jd) (lignes f)) = true ->
  pd_to_datetime date_debut = Some limite ->
  retenues h jd limite (lignes f) <> [] ->
  colonne_pays <> colonne_date ->
  pays_textuels f jp (retenues h jd limite (lignes f)) = true ->
  frequence_de regroupement = Some fq ->
  colonne_date <> "est_francophone" ->
  (let ks := cles_lignes h jp jd fq (retenues h jd limite (lignes f)) in
   presente false ks = false \/ presente true ks = false) ->
  resultat (analyser_ventes_francophones pd_read_csv pd_to_datetime fichier_csv
              colonne_pays colonne_date regroupement date_debut t)
  = inl ValueError.
Proof.
  intros Hr Hjp Hjd h Hl Hd HR Hpd Hta Hfq Hde Hc.
  rewrite execution_resultat. unfold attendu. cbv zeta. fold h.
  rewrite Hr, Hjp, Hjd. fold h. rewrite Hl, Hd, Hta, Hfq. cbn [negb].
  apply String.eqb_neq in Hpd, Hde. rewrite Hpd, Hde. cbn [orb].
  destruct (retenues h jd limite (lignes f)); [contradiction|].
  cbv zeta in Hc. destruct Hc as [-> | ->]; [reflexivity|].
  now rewrite andb_false_r.
Qed.

End Proprietes.

(** ** Classification of country codes *)



(** ** The helper that runs the four groupings *)

Definition est_appel (e : Evenement) : bool :=
  match e with
  | Appel _ _ _ _ _ => true
  | _ => false
  end.

Section Multiple.

Context {F : Type} {NF : Flottant F} {TY : Typage}.
Variable pd_read_csv : string -> Exception + Csv.
Variable pd_to_datetime : string -> option Horodatage.
Variables fichier_csv colonne_pays colonne_date date_debut : string.

(** The store after one call of the main function. *)
Definition apres (code : string) (t : Tas F) : Tas F :=
  tas_de (analyser_ventes_francophones pd_read_csv pd_to_datetime fichier_csv
            colonne_pays colonne_date code date_debut t).

Lemma pour_chaque_appels (items : list (string * string)) (t : Tas F) :
  filter est_appel
    (fst (pour_chaque pd_read_csv pd_to_datetime items fichier_csv colonne_pays
            colonne_date date_debut t))
  = map (fun it => Appel fichier_csv colonne_pays colonne_date (fst it) date_debut)
      items
  /\ snd (pour_chaque pd_read_csv pd_to_datetime items fichier_csv colonne_pays
            colonne_date date_debut t)
     = fold_left (fun t' it => apres (fst it) t') items t.
Proof.
  revert t. induction items as [|[code nom] r IH]; intros t; [now split|].
  cbn [pour_chaque fold_left fst].
  fold (apres code t).
  specialize (IH (apres code t)).
  destruct (pour_chaque pd_read_csv pd_to_datetime r fichier_csv colonne_pays
              colonne_date date_debut (apres code t)) as [suite t'].
  cbn [fst snd] in *. destruct IH as [IH1 IH2]. split; [|exact IH2].
  cbn [filter est_appel]. f_equal. rewrite filter_app, IH1.
  now destruct (analyser_ventes_francophones _ _ _ _ _ _ _ _).
Qed.

End Multiple.

(** C9. [analyser_multiple_regroupements] calls the main function once for
    each of W, M, Q and Y, in that order, each time with the file, the two
    column names and the start date it was given; it goes on to the next
    grouping whatever the call did, and it does nothing else to the data: the
    store it leaves is the one the four calls leave. *)
Theorem quatre_appels {F : Type} {NF : Flottant F} {TY : Typage}
  (pd_read_csv : string -> Exception + Csv)
  (pd_to_datetime : string -> option Horodatage)
  (fichier_csv colonne_pays colonne_date date_debut : string) (t : Tas F) :
  let sortie := analyser_multiple_regroupements pd_read_csv pd_to_datetime
                  fichier_csv colonne_pays colonne_date date_debut t in
  let appel := fun code =>
    Appel fichier_csv colonne_pays colonne_date code date_debut in
  let suivi := apres pd_read_csv pd_to_datetime fichier_csv colonne_pays
                 colonne_date date_debut in
  filter est_appel (fst sortie) = [appel "W"; appel "M"; appel "Q"; appel "Y"]
  /\ snd sortie = suivi "Y" (suivi "Q" (suivi "M" (suivi "W" t))).
Proof.
  intros sortie appel suivi. unfold sortie, analyser_multiple_regroupements.
  destruct (pour_chaque_appels pd_read_csv pd_to_datetime fichier_csv
              colonne_pays colonne_date date_debut regroupements t) as [E1 E2].
  rewrite E1, E2. split; reflexivity.
Qed.

(** ** Percentages *)

(** C1, as the code has it. In the percentages table of a call each share is
    its own quotient, count / total * 100, the total of every row being
    positive, and the total column is set to 100; the two shares of a row add
    up to 100 in exact arithmetic. *)
Theorem parts_par_division :
  (forall (F : Type) (NF : Flottant F) (TY : Typage)
     (pd_read_csv : string -> Exception + Csv)
     (pd_to_datetime : string -> option Horodatage)
     (fichier_csv colonne_pays colonne_date regroupement date_debut : string)
     (t t' : Tas F) (a b : nat),
     analyser_ventes_francophones pd_read_csv pd_to_datetime fichier_csv
       colonne_pays colonne_date regroupement date_debut t
     = Retour (Tables a b) t' ->
     let part := fun u v => fmul (fdiv (of_int u) (of_int v)) (of_int 100) in
     exists idx autres franco tot : list Z,
       lire a t' = trois idx (CInt autres) (CInt franco) (CInt tot)
       /\ tot = map2 Z.add autres franco
       /\ List.length autres = List.length idx
       /\ List.length franco = List.length idx
       /\ Forall (fun v => 0 < v) tot
       /\ lire b t'
          = trois idx (CFloat (map2 part autres tot))
              (CFloat (map2 part franco tot)) (CInt (map (fun _ => 100) tot)))
  /\ (forall autres franco tot : Z,
        0 < tot -> autres + franco = tot ->
        (@fmul Q exact (fdiv (of_int franco) (of_int tot)) (of_int 100)
         + @fmul Q exact (fdiv (of_int autres) (of_int tot)) (of_int 100)
         == 100)%Q).
Proof.
  split.
  - intros F NF TY rd parse fichier_csv colonne_pays colonne_date regroupement
      date_debut t t' a b H.
    exact (parts_de_l_appel rd parse _ _ _ _ _ _ _ _ _ H).
  - intros autres franco tot Ht E. cbn [fmul fdiv of_int exact].
    assert (N : ~ (inject_Z tot == 0)%Q).
    { intros H. unfold Qeq in H. simpl in H. lia. }
    subst tot. rewrite inject_Z_plus in *. field. exact N.
Qed.

(** ** Runs on concrete records *)

(** A reader for the examples: a field written in decimal digits is a number
    and converts to that many nanoseconds after the epoch, the six spellings
    of true and false are booleans, any other field is a text. *)
Definition nature_simple (s : string) : Nature :=
  if dans s ["True"; "TRUE"; "true"; "False"; "FALSE"; "false"] then Booleenne
  else
    match s, Iso.nombre 0 s with
    | String _ _, Some _ => Numerique
    | _, _ => Textuelle
    end.

#[export] Instance typage_simple : Typage := {
  nature := nature_simple;
  to_datetime_nombre := fun s => option_map Instant (Iso.nombre 0 s)
}.

(** The scenario of the specification: three sales, two in January 2020 and
    one in February. *)
Definition ventes : Csv :=
  {| entete := ["pays"; "date"];
     lignes := [[Some "FR"; Some "2020-01-15"];
                [Some "us"; Some "2020-01-20"];
                [Some "ca"; Some "2020-02-01"]] |}.

(** The same sales in another order. *)
Definition ventes_melangees : Csv :=
  {| entete := ["pays"; "date"];
     lignes := [[Some "ca"; Some "2020-02-01"];
                [Some "FR"; Some "2020-01-15"];
                [Some "us"; Some "2020-01-20"]] |}.

(** One francophone sale and two others in the same month. *)
Definition ventes_tiers : Csv :=
  {| entete := ["pays"; "date"];
     lignes := [[Some "FR"; Some "2020-01-15"];
                [Some "us"; Some "2020-01-20"];
                [Some "de"; Some "2020-01-21"]] |}.

(** Francophone sales only. *)
Definition ventes_francophones : Csv :=
  {| entete := ["pays"; "date"];
     lignes := [[Some "FR"; Some "2020-01-15"];
                [Some "be"; Some "2020-02-03"]] |}.

Definition lecteur (c : Csv) (fichier_csv : string) : Exception + Csv :=
  if String.eqb fichier_csv "ventesdolibarr.csv" then inr c
  else inl FileNotFoundError.

(** The call of the script's main block on a file that holds [c], shares in
    binary64. *)
Abbreviation appel c regroupement :=
  (analyser_ventes_francophones (F := float) (lecteur c) Iso.to_datetime
     "ventesdolibarr.csv" "pays" "date" regroupement "2020-01-01" tas_vide).

Example scenario_mensuel :
  resultat (appel ventes "M") = inr (Tables 2 3)
  /\ lire 2 (tas_de (appel ventes "M"))
     = trois [600; 601] (CInt [1; 0]) (CInt [1; 1]) (CInt [2; 1])
  /\ lire 3 (tas_de (appel ventes "M"))
     = trois [600; 601] (CFloat [50%float; 0%float])
         (CFloat [50%float; 100%float]) (CInt [100; 100]).
Proof. repeat split; vm_compute; reflexivity. Qed.

(** C2, at a failing input: with francophone sales only the call raises
    [ValueError] on line 99 and returns no table. *)
Theorem une_classe_ValueError :
  resultat (appel ventes_francophones "M") = inl ValueError.
Proof. vm_compute. reflexivity. Qed.

(** C1, as stated, fails in binary64: with one francophone sale out of three
    the two shares are 33.33333333333333 and 66.66666666666666; their sum is
    not 100, the share of the others is not 100 minus the francophone share,
    and the francophone share is not 100 * 1 / 3. *)
Lemma parts_binary64_contre_exemple :
  exists pa pf : float,
    resultat (appel ventes_tiers "M") = inr (Tables 2 3)
    /\ lire 2 (tas_de (appel ventes_tiers "M"))
       = trois [600] (CInt [2]) (CInt [1]) (CInt [3])
    /\ lire 3 (tas_de (appel ventes_tiers "M"))
       = trois [600] (CFloat [pa]) (CFloat [pf]) (CInt [100])
    /\ PrimFloat.eqb (pf + pa) 100 = false
    /\ PrimFloat.eqb pa (100 - pf) = false
    /\ PrimFloat.eqb pf (100 * 1 / 3) = false.
Proof.
  exists (2 / 3 * 100)%float, (1 / 3 * 100)%float.
  repeat split; vm_compute; reflexivity.
Qed.

Lemma appel_ventes_mensuel :
  appel ventes "M" = Retour (Tables 2 3) (tas_de (appel ventes "M")).
Proof. vm_compute. reflexivity. Defined.

Lemma total_somme_des_classes_temoin :
  appel ventes "M" = Retour (Tables 2 3) (tas_de (appel ventes "M"))
  /\ exists autres franco tot : list Z,
       colonnes (lire 2 (tas_de (appel ventes "M")))
       = [(autres_pays, CInt autres); (pays_franco, CInt franco);
          (total, CInt tot)]
       /\ List.length autres = List.length (index (lire 2 (tas_de (appel ventes "M"))))
       /\ List.length franco = List.length (index (lire 2 (tas_de (appel ventes "M"))))
       /\ List.length tot = List.length (index (lire 2 (tas_de (appel ventes "M"))))
       /\ forall i, (i < List.length (index (lire 2 (tas_de (appel ventes "M")))))%nat ->
            nth i franco 0 + nth i autres 0 = nth i tot 0.
Proof.
  split; [exact appel_ventes_mensuel|].
  exact (total_somme_des_classes (lecteur ventes) Iso.to_datetime
           "ventesdolibarr.csv" "pays" "date" "M" "2020-01-01" tas_vide
           (tas_de (appel ventes "M")) 2 3 appel_ventes_mensuel).
Defined.

Lemma somme_des_totaux_temoin :
  appel ventes "M" = Retour (Tables 2 3) (tas_de (appel ventes "M"))
  /\ exists (f : Csv) (jd : nat) (limite : Horodatage) (tot : list Z),
       lecteur ventes "ventesdolibarr.csv" = inr f
       /\ rang "date" (entete f) = Some jd
       /\ Iso.to_datetime "2020-01-01" = Some limite
       /\ chercher total (colonnes (lire 2 (tas_de (appel ventes "M"))))
          = Some (CInt tot)
       /\ somme tot
          = Z.of_nat (List.length
                        (filter (retenue (lecture_dates Iso.to_datetime f jd)
                                   jd limite) (lignes f)))
       /\ Forall (fun v => 0 < v) tot.
Proof.
  split; [exact appel_ventes_mensuel|].
  exact (somme_des_totaux (lecteur ventes) Iso.to_datetime
           "ventesdolibarr.csv" "pays" "date" "M" "2020-01-01" tas_vide
           (tas_de (appel ventes "M")) 2 3 appel_ventes_mensuel).
Defined.

Lemma ventes_permutees : Permutation (lignes ventes) (lignes ventes_melangees).
Proof.
  apply Permutation_sym.
  exact (Permutation_cons_app
           [[Some "FR"; Some "2020-01-15"]; [Some "us"; Some "2020-01-20"]] []
           [Some "ca"; Some "2020-02-01"] (Permutation_refl _)).
Defined.

Lemma agregation_triee_et_symetrique_temoin :
  appel ventes "M" = Retour (Tables 2 3) (tas_de (appel ventes "M"))
  /\ Permutation (lignes ventes) (lignes ventes_melangees)
  /\ StronglySorted Z.lt (index (lire 2 (tas_de (appel ventes "M"))))
  /\ exists t1',
       appel ventes_melangees "M" = Retour (Tables 2 3) t1'
       /\ lire 2 t1' = lire 2 (tas_de (appel ventes "M"))
       /\ lire 3 t1' = lire 3 (tas_de (appel ventes "M")).
Proof.
  split; [exact appel_ventes_mensuel|]. split; [exact ventes_permutees|].
  exact (agregation_triee_et_symetrique (lecteur ventes) Iso.to_datetime
           (lecteur ventes_melangees)
           "ventesdolibarr.csv" "pays" "date" "M" "2020-01-01"
           ventes ventes_melangees tas_vide (tas_de (appel ventes "M")) 2 3
           eq_refl eq_refl eq_refl ventes_permutees appel_ventes_mensuel).
Defined.

(** A store whose frame 0 holds three dated rows. *)
Definition tas_dates : Tas float :=
  allouer
    {| index := [0; 1; 2];
       colonnes :=
         [(ENom "date",
           CDate [Calendrier.minuit 2020 1 15; Calendrier.minuit 2020 1 20;
                  Calendrier.minuit 2020 2 1])] |}
    tas_vide.



Lemma comptes_intacts_temoin :
  appel ventes "M" = Retour (Tables 2 3) (tas_de (appel ventes "M"))
  /\ 2%nat <> 3%nat
  /\ exists ks : list (Z * bool),
       lire 2 (tas_de (appel ventes "M"))
       = trois (periodes ks)
           (CInt (map (fun p => effectif (p, false) ks) (periodes ks)))
           (CInt (map (fun p => effectif (p, true) ks) (periodes ks)))
           (CInt (map (fun p => nombre_periode p ks) (periodes ks))).
Proof.
  split; [exact appel_ventes_mensuel|].
  exact (proj2 (comptes_intacts (lecteur ventes) Iso.to_datetime)
           "ventesdolibarr.csv" "pays" "date" "M" "2020-01-01" tas_vide
           (tas_de (appel ventes "M")) 2%nat 3%nat appel_ventes_mensuel).
Defined.

Lemma parts_par_division_temoin :
  0 < 3 /\ 2 + 1 = 3
  /\ (@fmul Q exact (fdiv (of_int 1) (of_int 3)) (of_int 100)
      + @fmul Q exact (fdiv (of_int 2) (of_int 3)) (of_int 100) == 100)%Q.
Proof.
  split; [reflexivity|]. split; [reflexivity|].
  exact (proj2 parts_par_division 2 1 3 eq_refl eq_refl).
Defined.

Lemma debut_2020_01_01 :
  Iso.to_datetime "2020-01-01" = Some (Calendrier.minuit 2020 1 1).
Proof. vm_compute. reflexivity. Defined.

Lemma erreurs_sans_resultat_partiel_temoin :
  frequence_de "D" = None
  /\ resultat (appel ventes "D") = inr (Rien (RegroupementNonSupporte "D")).
Proof.
  split; [reflexivity|].
  pose proof (erreurs_sans_resultat_partiel (lecteur ventes) Iso.to_datetime
                "ventesdolibarr.csv" "pays" "date" "D" "2020-01-01" tas_vide)
    as T.
  cbv zeta in T. destruct T as [T _].
  destruct (T ventes eq_refl) as [_ T1].
  destruct (T1 0%nat eq_refl) as [_ T2].
  destruct (T2 1%nat eq_refl) as [_ T3].
  assert (L : forallb (lisible (lecture_dates Iso.to_datetime ventes 1))
                (map (cellule 1) (lignes ventes))
              = true) by (vm_compute; reflexivity).
  destruct (T3 L) as [_ T4].
  destruct (T4 _ debut_2020_01_01) as [_ T5].
  assert (G : retenues (lecture_dates Iso.to_datetime ventes 1) 1
                (Calendrier.minuit 2020 1 1) (lignes ventes) <> [])
    by (vm_compute; discriminate).
  destruct (T5 G) as [_ T6].
  apply T6.
  - discriminate.
  - vm_compute. reflexivity.
  - reflexivity.
Defined.

(** Two sales whose country field is empty: [read_csv] makes the column a
    float64 column of NaN, on which [.str] is refused. *)
Definition ventes_sans_pays : Csv :=
  {| entete := ["pays"; "date"];
     lignes := [[None; Some "2020-01-15"];
                [None; Some "2020-02-03"]] |}.

(** The same with an earlier sale that names its country: the column is now
    a column of texts, the classification goes through, and the two sales
    kept, both of the other countries, make line 99 raise. *)
Definition ventes_sans_pays_puis_fr : Csv :=
  {| entete := ["pays"; "date"];
     lignes := lignes ventes_sans_pays
               ++ [[Some "fr"; Some "2019-05-05"]] |}.

Example colonne_de_nombres :
  dtype (map (cellule 0) (lignes ventes_sans_pays)) = Some Nombres
  /\ resultat (appel ventes_sans_pays "M") = inl AttributeError
  /\ dtype (map (cellule 0) (lignes ventes_sans_pays_puis_fr)) = None
  /\ resultat (appel ventes_sans_pays_puis_fr "M") = inl ValueError.
Proof. repeat split; vm_compute; reflexivity. Qed.

(** C8, as stated, fails: with a grouping outside W, M, Q, Y and a country
    column that is not a column of texts the call does not end on the
    message of the unsupported grouping; the classification, which comes
    first, raises [AttributeError]. *)
Lemma regroupement_non_signale :
  frequence_de "D" = None
  /\ resultat (appel ventes_sans_pays "D") = inl AttributeError
  /\ resultat (appel ventes_sans_pays "D")
     <> inr (Rien (RegroupementNonSupporte "D")).
Proof.
  split; [reflexivity|]. split; [vm_compute; reflexivity|].
  vm_compute. discriminate.
Qed.

(** ** Further properties of the two functions *)

Section Complements.

Context {F : Type} {NF : Flottant F} {TY : Typage}.
Variable pd_read_csv : string -> Exception + Csv.
Variable pd_to_datetime : string -> option Horodatage.

(** X1. When the file cannot be read the call returns [None] at once, with
    the "not found" message for [FileNotFoundError] and the loading message
    for any other exception, and the store is left as it was. *)
Theorem lecture_impossible
  (fichier_csv colonne_pays colonne_date regroupement date_debut : string)
  (t : Tas F) (e : Exception) :
  pd_read_csv fichier_csv = inl e ->
  analyser_ventes_francophones pd_read_csv pd_to_datetime fichier_csv
    colonne_pays colonne_date regroupement date_debut t
  = Retour (Rien (match e with
                  | FileNotFoundError => FichierIntrouvable fichier_csv
                  | _ => ErreurChargement e
                  end)) t.
Proof.
  intros H. unfold analyser_ventes_francophones.
  apply bind_retour. now apply lecture_echec.
Qed.

Lemma ge_h_NaT (h : Horodatage) : ge_h h NaT = false.
Proof. now destruct h. Qed.

Lemma retenues_NaT (h : string -> option Horodatage) (jd : nat)
  (rows : list (list (option string))) :
  retenues h jd NaT rows = [].
Proof.
  unfold retenues. induction rows as [|r rs IH]; [reflexivity|].
  cbn [filter]. unfold retenue at 1. now rewrite ge_h_NaT.
Qed.

(** X2. A start date that reads as [NaT] (the empty text, in pandas) keeps no
    record, since no date compares at or after [NaT]: with a readable file,
    both columns and readable dates the call returns [None] with the "no
    data" message, whatever the records. *)
Theorem debut_NaT_aucune_donnee
  (fichier_csv colonne_pays colonne_date regroupement date_debut : string)
  (t : Tas F) (f : Csv) (jp jd : nat) :
  pd_read_csv fichier_csv = inr f ->
  rang colonne_pays (entete f) = Some jp ->
  rang colonne_date (entete f) = Some jd ->
  forallb (lisible (lecture_dates pd_to_datetime f jd))
    (map (cellule jd) (lignes f)) = true ->
  pd_to_datetime date_debut = Some NaT ->
  resultat (analyser_ventes_francophones pd_read_csv pd_to_datetime fichier_csv
              colonne_pays colonne_date regroupement date_debut t)
  = inr (Rien (AucuneDonnee date_debut)).
Proof.
  intros Hr Hjp Hjd Hl Hd. rewrite execution_resultat. unfold attendu.
  cbv zeta. rewrite Hr, Hjp, Hjd, Hl, Hd, retenues_NaT. reflexivity.
Qed.

(** X3. Naming the same column for the country and for the date makes the
    call raise [AttributeError] once the dates are converted and filtered:
    [.str] is then applied to a datetime column.  No message is printed and
    no table is returned. *)
Theorem meme_colonne_AttributeError
  (fichier_csv colonne regroupement date_debut : string)
  (t : Tas F) (f : Csv) (j : nat) (limite : Horodatage) :
  pd_read_csv fichier_csv = inr f ->
  rang colonne (entete f) = Some j ->
  forallb (lisible (lecture_dates pd_to_datetime f j))
    (map (cellule j) (lignes f)) = true ->
  pd_to_datetime date_debut = Some limite ->
  retenues (lecture_dates pd_to_datetime f j) j limite (lignes f) <> [] ->
  resultat (analyser_ventes_francophones pd_read_csv pd_to_datetime fichier_csv
              colonne colonne regroupement date_debut t)
  = inl AttributeError.
Proof.
  intros Hr Hj Hl Hd HR. rewrite execution_resultat. unfold attendu.
  cbv zeta. rewrite Hr, Hj, Hl, Hd, String.eqb_refl. cbn [negb orb].
  now destruct (retenues (lecture_dates pd_to_datetime f j) j limite (lignes f)).
Qed.

(** The two cells of a record that the function reads. *)
Definition champs (jp jd : nat) (ligne : list (option string))
  : option string * option string :=
  (cellule jp ligne, cellule jd ligne).

Definition garde_champs (h : string -> option Horodatage) (limite : Horodatage)
  (c : option string * option string) : bool :=
  ge_h (date_cellule h (snd c)) limite.

Definition cle_champs (h : string -> option Horodatage) (fq : Frequence)
  (c : option string * option string) : list (Z * bool) :=
  match periode_de fq (date_cellule h (snd c)) with
  | Some p => [(p, classer (fst c))]
  | None => []
  end.

Lemma filter_map_comm {A B : Type} (p : A -> B) (q : B -> bool) (l : list A) :
  filter q (map p l) = map p (filter (fun x => q (p x)) l).
Proof.
  induction l as [|x r IH]; [reflexivity|].
  cbn [map filter]. destruct (q (p x)); cbn [map]; now rewrite IH.
Qed.

Lemma flat_map_map_comm {A B C : Type} (p : A -> B) (k : B -> list C)
  (l : list A) :
  flat_map k (map p l) = flat_map (fun x => k (p x)) l.
Proof.
  induction l as [|x r IH]; [reflexivity|]. cbn [map flat_map]. now rewrite IH.
Qed.

Lemma champs_retenues (h : string -> option Horodatage) (jp jd : nat)
  (limite : Horodatage) (rows : list (list (option string))) :
  map (champs jp jd) (retenues h jd limite rows)
  = filter (garde_champs h limite) (map (champs jp jd) rows).
Proof. now rewrite filter_map_comm. Qed.

Lemma cles_champs (h : string -> option Horodatage) (jp jd : nat)
  (fq : Frequence) (rows : list (list (option string))) :
  cles_lignes h jp jd fq rows
  = flat_map (cle_champs h fq) (map (champs jp jd) rows).
Proof. now rewrite flat_map_map_comm. Qed.

Lemma champs_dates (jp jd : nat) (rows : list (list (option string))) :
  map (cellule jd) rows = map snd (map (champs jp jd) rows).
Proof. now rewrite map_map. Qed.

Lemma champs_pays (jp jd : nat) (rows : list (list (option string))) :
  map (cellule jp) rows = map fst (map (champs jp jd) rows).
Proof. now rewrite map_map. Qed.

(** What a call does is a function of the header and of the two cells it
    reads in each record. *)
Lemma attendu_champs
  (pd_read_csv' : string -> Exception + Csv) (n : nat)
  (fichier_csv colonne_pays colonne_date regroupement date_debut : string)
  (f f' : Csv) (jp jd jp' jd' : nat) :
  pd_read_csv fichier_csv = inr f ->
  pd_read_csv' fichier_csv = inr f' ->
  rang colonne_pays (entete f) = Some jp ->
  rang colonne_date (entete f) = Some jd ->
  rang colonne_pays (entete f') = Some jp' ->
  rang colonne_date (entete f') = Some jd' ->
  map (champs jp jd) (lignes f) = map (champs jp' jd') (lignes f') ->
  attendu pd_read_csv pd_to_datetime n fichier_csv colonne_pays colonne_date
    regroupement date_debut
  = attendu pd_read_csv' pd_to_datetime n fichier_csv colonne_pays colonne_date
      regroupement date_debut
  /\ cles_appel pd_read_csv pd_to_datetime fichier_csv colonne_pays colonne_date
       regroupement date_debut
     = cles_appel pd_read_csv' pd_to_datetime fichier_csv colonne_pays
         colonne_date regroupement date_debut.
Proof.
  intros Hr Hr' Hjp Hjd Hjp' Hjd' Hc.
  unfold attendu, cles_appel, lecture_dates, pays_textuels. cbv zeta.
  rewrite Hr, Hr', Hjp, Hjd, Hjp', Hjd'.
  assert (Ed : map (cellule jd) (lignes f) = map (cellule jd') (lignes f')).
  { now rewrite (champs_dates jp jd), (champs_dates jp' jd'), Hc. }
  assert (Ep : map (cellule jp) (lignes f) = map (cellule jp') (lignes f')).
  { now rewrite (champs_pays jp jd), (champs_pays jp' jd'), Hc. }
  rewrite Ed, Ep.
  set (h := horodateur pd_to_datetime (dtype (map (cellule jd') (lignes f')))).
  assert (K : forall limite fq,
    cles_lignes h jp jd fq (retenues h jd limite (lignes f))
    = cles_lignes h jp' jd' fq (retenues h jd' limite (lignes f'))).
  { intros limite fq. now rewrite !cles_champs, !champs_retenues, Hc. }
  assert (T : forall limite,
    map (cellule jp) (retenues h jd limite (lignes f))
    = map (cellule jp') (retenues h jd' limite (lignes f'))).
  { intros limite.
    now rewrite (champs_pays jp jd), (champs_pays jp' jd'), !champs_retenues,
      Hc. }
  assert (V : forall limite,
    retenues h jd limite (lignes f) = []
    <-> retenues h jd' limite (lignes f') = []).
  { intros limite.
    pose proof (champs_retenues h jp jd limite (lignes f)) as E.
    pose proof (champs_retenues h jp' jd' limite (lignes f')) as E'.
    rewrite Hc, <- E' in E. split; intros H; rewrite H in E.
    - symmetry in E. now apply map_eq_nil in E.
    - now apply map_eq_nil in E. }
  split.
  2:{ destruct (pd_to_datetime date_debut) as [limite|]; [|reflexivity].
      destruct (frequence_de regroupement) as [fq|]; [apply K | reflexivity]. }
  destruct (forallb _ _); cbn [negb]; [|reflexivity].
  destruct (pd_to_datetime date_debut) as [limite|]; [|reflexivity].
  specialize (V limite). rewrite (T limite).
  destruct (frequence_de regroupement) as [fq|].
  - rewrite <- (K limite fq).
    destruct (retenues h jd limite (lignes f)) as [|l0 ls],
             (retenues h jd' limite (lignes f')) as [|l0' ls'];
      try reflexivity.
    + destruct V as [V _]. discriminate (V eq_refl).
    + destruct V as [_ V]. discriminate (V eq_refl).
  - destruct (retenues h jd limite (lignes f)) as [|l0 ls],
             (retenues h jd' limite (lignes f')) as [|l0' ls'];
      try reflexivity.
    + destruct V as [V _]. discriminate (V eq_refl).
    + destruct V as [_ V]. discriminate (V eq_refl).
Qed.

Lemma tables_egales
  (pd_read_csv' : string -> Exception + Csv)
  (fichier_csv colonne_pays colonne_date regroupement date_debut : string)
  (t t1 : Tas F) (a b : nat) :
  attendu pd_read_csv pd_to_datetime (suivant t) fichier_csv colonne_pays
    colonne_date regroupement date_debut
  = attendu pd_read_csv' pd_to_datetime (suivant t) fichier_csv colonne_pays
      colonne_date regroupement date_debut ->
  cles_appel pd_read_csv pd_to_datetime fichier_csv colonne_pays colonne_date
    regroupement date_debut
  = cles_appel pd_read_csv' pd_to_datetime fichier_csv colonne_pays
      colonne_date regroupement date_debut ->
  analyser_ventes_francophones pd_read_csv pd_to_datetime fichier_csv
    colonne_pays colonne_date regroupement date_debut t
  = Retour (Tables a b) t1 ->
  exists t1',
    analyser_ventes_francophones pd_read_csv' pd_to_datetime fichier_csv
      colonne_pays colonne_date regroupement date_debut t
    = Retour (Tables a b) t1'
    /\ lire a t1' = lire a t1
    /\ lire b t1' = lire b t1.
Proof.
  intros Ea Ek H. apply execution_tables in H as (Ha & La & Lb & _).
  destruct (execution pd_read_csv' pd_to_datetime fichier_csv colonne_pays
              colonne_date regroupement date_debut t) as (t1' & E & C & _).
  rewrite <- Ea, Ha in E. exists t1'. split; [exact E|].
  rewrite <- Ea in C. destruct (C _ _ Ha) as [La' Lb']. cbv zeta in La', Lb'.
  now rewrite La', Lb', La, Lb, Ek.
Qed.

(** X4. The outcome depends on the file only through its header and the
    country and date cells of its records: two files whose records agree on
    these two cells, whatever their other columns and wherever the two
    columns stand, give the same outcome and, when tables are returned, the
    same two tables. *)
Theorem autres_colonnes_sans_effet
  (pd_read_csv' : string -> Exception + Csv)
  (fichier_csv colonne_pays colonne_date regroupement date_debut : string)
  (f f' : Csv) (jp jd jp' jd' : nat) (t : Tas F) :
  pd_read_csv fichier_csv = inr f ->
  pd_read_csv' fichier_csv = inr f' ->
  rang colonne_pays (entete f) = Some jp ->
  rang colonne_date (entete f) = Some jd ->
  rang colonne_pays (entete f') = Some jp' ->
  rang colonne_date (entete f') = Some jd' ->
  map (champs jp jd) (lignes f) = map (champs jp' jd') (lignes f') ->
  resultat (analyser_ventes_francophones pd_read_csv pd_to_datetime fichier_csv
              colonne_pays colonne_date regroupement date_debut t)
  = resultat (analyser_ventes_francophones pd_read_csv' pd_to_datetime
                fichier_csv colonne_pays colonne_date regroupement date_debut t)
  /\ forall a b t1,
       analyser_ventes_francophones pd_read_csv pd_to_datetime fichier_csv
         colonne_pays colonne_date regroupement date_debut t
       = Retour (Tables a b) t1 ->
       exists t1',
         analyser_ventes_francophones pd_read_csv' pd_to_datetime fichier_csv
           colonne_pays colonne_date regroupement date_debut t
         = Retour (Tables a b) t1'
         /\ lire a t1' = lire a t1
         /\ lire b t1' = lire b t1.
Proof.
  intros Hr Hr' Hjp Hjd Hjp' Hjd' Hc.
  destruct (attendu_champs pd_read_csv' (suivant t) fichier_csv colonne_pays
              colonne_date regroupement date_debut f f' jp jd jp' jd'
              Hr Hr' Hjp Hjd Hjp' Hjd' Hc) as [Ea Ek].
  split.
  - now rewrite !execution_resultat.
  - intros a b t1. now apply tables_egales.
Qed.

(** X5. Records that the date filter drops have no influence, as long as
    they leave the country column and the date column of the type they had:
    adding to a file such records, whose date is readable and is missing or
    earlier than the start date, changes neither the outcome nor the
    tables. *)
Theorem enregistrements_ecartes_sans_effet
  (pd_read_csv' : string -> Exception + Csv)
  (fichier_csv colonne_pays colonne_date regroupement date_debut : string)
  (f f' : Csv) (jd : nat) (limite : Horodatage)
  (ajout : list (list (option string))) (t : Tas F) :
  pd_read_csv fichier_csv = inr f ->
  pd_read_csv' fichier_csv = inr f' ->
  entete f' = entete f ->
  lignes f' = (lignes f ++ ajout)%list ->
  (forall j, rang colonne_pays (entete f) = Some j
             \/ rang colonne_date (entete f) = Some j ->
             dtype (map (cellule j) (lignes f'))
             = dtype (map (cellule j) (lignes f))) ->
  rang colonne_date (entete f) = Some jd ->
  pd_to_datetime date_debut = Some limite ->
  forallb (fun r => lisible (lecture_dates pd_to_datetime f jd) (cellule jd r)
                    && negb (retenue (lecture_dates pd_to_datetime f jd)
                               jd limite r)) ajout = true ->
  resultat (analyser_ventes_francophones pd_read_csv pd_to_datetime fichier_csv
              colonne_pays colonne_date regroupement date_debut t)
  = resultat (analyser_ventes_francophones pd_read_csv' pd_to_datetime
                fichier_csv colonne_pays colonne_date regroupement date_debut t)
  /\ forall a b t1,
       analyser_ventes_francophones pd_read_csv pd_to_datetime fichier_csv
         colonne_pays colonne_date regroupement date_debut t
       = Retour (Tables a b) t1 ->
       exists t1',
         analyser_ventes_francophones pd_read_csv' pd_to_datetime fichier_csv
           colonne_pays colonne_date regroupement date_debut t
         = Retour (Tables a b) t1'
         /\ lire a t1' = lire a t1
         /\ lire b t1' = lire b t1.
Proof.
  intros Hr Hr' He Hl Ht Hjd Hd Ha.
  assert (Eh : lecture_dates pd_to_datetime f' jd
               = lecture_dates pd_to_datetime f jd).
  { unfold lecture_dates. now rewrite Ht by auto. }
  set (h := lecture_dates pd_to_datetime f jd) in *.
  assert (A1 : forallb (lisible h) (map (cellule jd) ajout) = true).
  { rewrite forallb_forall in *. intros o Ho.
    apply in_map_iff in Ho as [r [<- Hin]].
    specialize (Ha r Hin). now apply andb_prop in Ha. }
  assert (A2 : retenues h jd limite ajout = []).
  { unfold retenues. clear - Ha. induction ajout as [|r rs IH]; [reflexivity|].
    cbn [forallb] in Ha. apply andb_prop in Ha as [H1 H2].
    apply andb_prop in H1 as [_ H1]. cbn [filter].
    destruct (retenue h jd limite r); [discriminate | auto]. }
  assert (R : retenues h jd limite (lignes f') = retenues h jd limite (lignes f)).
  { rewrite Hl. unfold retenues in *. now rewrite filter_app, A2, app_nil_r. }
  assert (L : forallb (lisible h) (map (cellule jd) (lignes f'))
              = forallb (lisible h) (map (cellule jd) (lignes f))).
  { now rewrite Hl, map_app, forallb_app, A1, andb_true_r. }
  assert (Ea : attendu pd_read_csv pd_to_datetime (suivant t) fichier_csv
                 colonne_pays colonne_date regroupement date_debut
               = attendu pd_read_csv' pd_to_datetime (suivant t) fichier_csv
                   colonne_pays colonne_date regroupement date_debut).
  { unfold attendu. cbv zeta. rewrite Hr, Hr', He.
    destruct (rang colonne_pays (entete f)) as [jp|] eqn:Hjp; [|reflexivity].
    rewrite Hjd, Eh. fold h. unfold pays_textuels.
    rewrite L, Hd, R, !Ht by auto. reflexivity. }
  assert (Ek : cles_appel pd_read_csv pd_to_datetime fichier_csv colonne_pays
                 colonne_date regroupement date_debut
               = cles_appel pd_read_csv' pd_to_datetime fichier_csv colonne_pays
                   colonne_date regroupement date_debut).
  { unfold cles_appel. rewrite Hr, Hr', He, Hjd, Hd, Eh. fold h.
    rewrite R. reflexivity. }
  split.
  - now rewrite !execution_resultat.
  - intros a b t1. now apply tables_egales.
Qed.

Lemma presente_app (c : bool) (ks ks' : list (Z * bool)) :
  presente c (ks ++ ks') = presente c ks || presente c ks'.
Proof. unfold presente. apply existsb_app. Qed.

(** Among the records the filter keeps, whether a class occurs does not
    depend on the grouping. *)
Lemma presente_retenues (h : string -> option Horodatage) (c : bool)
  (jp jd : nat) (fq : Frequence) (limite : Horodatage)
  (rows : list (list (option string))) :
  presente c (cles_lignes h jp jd fq
                (retenues h jd limite rows))
  = existsb (fun r => Bool.eqb c (classer (cellule jp r)))
      (retenues h jd limite rows).
Proof.
  unfold cles_lignes, retenues. induction rows as [|r rs IH]; [reflexivity|].
  cbn [filter]. destruct (retenue h jd limite r) eqn:E; [|exact IH].
  cbn [flat_map existsb]. rewrite presente_app, IH. f_equal.
  unfold cle_ligne. unfold retenue in E.
  destruct (date_cellule h (cellule jd r)); [discriminate|].
  cbn [periode_de presente existsb snd]. apply orb_false_r.
Qed.

Lemma total_des_retenues
  (fichier_csv colonne_pays colonne_date regroupement date_debut : string)
  (t t' : Tas F) (a b : nat) :
  analyser_ventes_francophones pd_read_csv pd_to_datetime fichier_csv
    colonne_pays colonne_date regroupement date_debut t
  = Retour (Tables a b) t' ->
  exists f jp jd limite fq (tot : list Z),
    Reussite pd_read_csv pd_to_datetime fichier_csv colonne_pays colonne_date
      regroupement date_debut f jp jd limite fq
    /\ chercher total (colonnes (lire a t')) = Some (CInt tot)
    /\ somme tot
       = Z.of_nat (List.length
                     (retenues (lecture_dates pd_to_datetime f jd) jd limite
                        (lignes f))).
Proof.
  intros H. apply execution_tables in H as (Ha & La & _ & _).
  apply attendu_tables in Ha as (f & jp & jd & limite & fq & R & K & _ & _).
  exists f, jp, jd, limite, fq. eexists. split; [exact R|]. split.
  - rewrite La, K. unfold comptes. cbn [colonnes]. rewrite comptes_total.
    reflexivity.
  - rewrite somme_comptes. f_equal. apply cles_retenues_length.
Qed.

(** X6. The four supported groupings behave alike: when a call returns its
    tables for one of them, a call with the same file, columns and start
    date returns tables for any other supported grouping, and the totals of
    the two count tables add up to the same number of sales. *)
Theorem regroupements_solidaires
  (fichier_csv colonne_pays colonne_date regroupement regroupement'
   date_debut : string)
  (fq' : Frequence) (t t1 t2 : Tas F) (a b : nat) :
  analyser_ventes_francophones pd_read_csv pd_to_datetime fichier_csv
    colonne_pays colonne_date regroupement date_debut t
  = Retour (Tables a b) t1 ->
  frequence_de regroupement' = Some fq' ->
  exists (a' b' : nat) (t2' : Tas F) (tot tot' : list Z),
    analyser_ventes_francophones pd_read_csv pd_to_datetime fichier_csv
      colonne_pays colonne_date regroupement' date_debut t2
    = Retour (Tables a' b') t2'
    /\ chercher total (colonnes (lire a t1)) = Some (CInt tot)
    /\ chercher total (colonnes (lire a' t2')) = Some (CInt tot')
    /\ somme tot = somme tot'.
Proof.
  intros H Hfq'.
  destruct (total_des_retenues _ _ _ _ _ _ _ _ _ H)
    as (f & jp & jd & limite & fq & tot & R & Ct & St).
  assert (R' : Reussite pd_read_csv pd_to_datetime fichier_csv colonne_pays
                 colonne_date regroupement' date_debut f jp jd limite fq').
  { destruct R as [Hr Hjp Hjd Hl Hd HR Hpd Hta Hfq Hde Hc1 Hc2].
    constructor; try assumption.
    - rewrite presente_retenues in *. exact Hc1.
    - rewrite presente_retenues in *. exact Hc2. }
  destruct (attendu_reussite pd_read_csv pd_to_datetime (suivant t2) _ _ _ _ _
              _ _ _ _ _ R') as [Ha' _].
  destruct (execution pd_read_csv pd_to_datetime fichier_csv colonne_pays
              colonne_date regroupement' date_debut t2) as (t2' & E & _).
  rewrite Ha' in E.
  destruct (total_des_retenues _ _ _ _ _ _ _ _ _ E)
    as (f0 & jp0 & jd0 & limite0 & fq0 & tot' & R0 & Ct' & St').
  exists (S (S (suivant t2))), (S (S (S (suivant t2)))), t2', tot, tot'.
  split; [exact E|]. split; [exact Ct|]. split; [exact Ct'|].
  rewrite St, St'.
  destruct R as [Hr _ Hjd _ Hd _ _ _ _ _ _].
  destruct R0 as [Hr0 _ Hjd0 _ Hd0 _ _ _ _ _ _].
  rewrite Hr in Hr0. injection Hr0 as <-.
  rewrite Hjd in Hjd0. injection Hjd0 as <-.
  rewrite Hd in Hd0. injection Hd0 as <-. reflexivity.
Qed.

(** *** Objects that exist before a call *)

(** A program that never gives back a store with fewer objects. *)
Definition croissant {A : Type} (p : Prog F A) : Prop :=
  forall t, (suivant t <= suivant (tas_de (p t)))%nat.

Lemma croissant_ret {A : Type} (a : A) : croissant (ret a).
Proof. intros t. cbn. lia. Qed.

Lemma croissant_lever {A : Type} (e : Exception) : croissant (lever (A := A) e).
Proof. intros t. cbn. lia. Qed.

Lemma croissant_retourner {A : Type} (v : Retourne) :
  croissant (retourner (A := A) v).
Proof. intros t. cbn. lia. Qed.

Lemma croissant_de {A : Type} (x : Exception + A) : croissant (de x).
Proof. destruct x; [apply croissant_lever | apply croissant_ret]. Qed.

Lemma croissant_contenu (r : nat) : croissant (contenu r).
Proof. intros t. cbn. lia. Qed.

Lemma croissant_modifier (r : nat) (g : DataFrame F -> DataFrame F) :
  croissant (modifier r g).
Proof. intros t. cbn. lia. Qed.

Lemma croissant_nouveau (d : DataFrame F) : croissant (nouveau d).
Proof. intros t. cbn. lia. Qed.

Lemma croissant_bind {A B : Type} (p : Prog F A) (k : A -> Prog F B) :
  croissant p -> (forall a, croissant (k a)) -> croissant (bind p k).
Proof.
  intros Hp Hk t. specialize (Hp t). unfold bind.
  destruct (p t) as [a t'|v t'|e t']; cbn [tas_de] in *; try assumption.
  specialize (Hk a t'). lia.
Qed.

Lemma croissant_essayer {A : Type} (p : Prog F A) (h : Exception -> Prog F A) :
  croissant p -> (forall e, croissant (h e)) -> croissant (essayer p h).
Proof.
  intros Hp Hh t. specialize (Hp t). unfold essayer.
  destruct (p t) as [a t'|v t'|e t']; cbn [tas_de] in *; try assumption.
  specialize (Hh e t'). lia.
Qed.

Lemma croissant_si (b : bool) (p : Prog F unit) :
  croissant p -> croissant (si b p).
Proof. intros H. destruct b; [exact H | apply croissant_ret]. Qed.

Ltac croit :=
  repeat first
    [ apply croissant_ret | apply croissant_lever | apply croissant_retourner
    | apply croissant_de | apply croissant_contenu | apply croissant_modifier
    | apply croissant_nouveau
    | apply croissant_si
    | apply croissant_bind; [|intros ?]
    | apply croissant_essayer; [|intros ?]
    | match goal with
      | |- croissant (match ?x with _ => _ end) => destruct x
      end ].

Lemma croissant_analyser
  (fichier_csv colonne_pays colonne_date regroupement date_debut : string) :
  croissant (analyser_ventes_francophones pd_read_csv pd_to_datetime
               fichier_csv colonne_pays colonne_date regroupement date_debut).
Proof.
  unfold analyser_ventes_francophones, lecture, verification, conversion,
    filtrage, classification, controle_regroupement, extraction, comptage,
    pourcentages, part, getitem, setitem, copy, len, getitem_mask, set_columns,
    setitem_scalaire, loc_getitem, loc_setitem, loc_setitem_scalaire,
    loc_setitem_tout.
  croit.
Qed.

Lemma anciens_objets
  (fichier_csv colonne_pays colonne_date regroupement date_debut : string)
  (t : Tas F) (r : nat) :
  (r < suivant t)%nat ->
  lire r (apres pd_read_csv pd_to_datetime fichier_csv colonne_pays colonne_date
            date_debut regroupement t)
  = lire r t.
Proof.
  intros Hr. unfold apres.
  destruct (execution pd_read_csv pd_to_datetime fichier_csv colonne_pays
              colonne_date regroupement date_debut t) as (t' & E & _ & _ & A).
  rewrite E. destruct (attendu _ _ _ _ _ _ _ _); cbn [tas_de]; now apply A.
Qed.

(** X7. Neither function touches an object that existed before it was
    called: whatever the outcome (tables, [None] or an exception), every
    frame of the store is the same after a call of
    [analyser_ventes_francophones], and after the four calls of
    [analyser_multiple_regroupements]; all they write to are frames they
    created. *)
Theorem objets_anterieurs_intacts
  (fichier_csv colonne_pays colonne_date regroupement date_debut : string)
  (t : Tas F) (r : nat) :
  (r < suivant t)%nat ->
  lire r (tas_de (analyser_ventes_francophones pd_read_csv pd_to_datetime
                    fichier_csv colonne_pays colonne_date regroupement
                    date_debut t))
  = lire r t
  /\ lire r (snd (analyser_multiple_regroupements pd_read_csv pd_to_datetime
                    fichier_csv colonne_pays colonne_date date_debut t))
     = lire r t.
Proof.
  intros Hr. split.
  - exact (anciens_objets _ _ _ _ _ t r Hr).
  - unfold analyser_multiple_regroupements.
    destruct (pour_chaque_appels pd_read_csv pd_to_datetime fichier_csv
                colonne_pays colonne_date date_debut regroupements t) as [_ E].
    rewrite E. clear E. revert t Hr.
    induction regroupements as [|[code nom] rs IH]; intros t Hr; [reflexivity|].
    cbn [fold_left fst]. rewrite IH.
    + now apply anciens_objets.
    + pose proof (croissant_analyser fichier_csv colonne_pays colonne_date
                    code date_debut t) as C.
      unfold apres. lia.
Qed.

(** X8. Division by zero is avoided row by row: for any counts table, the
    percentages table holds count / total * 100 in the rows whose total is
    positive, with a total of 100, and zeros in every column of the other
    rows; no quotient by a zero total is ever stored. *)
Theorem parts_sans_division_par_zero
  (vpp : nat) (t : Tas F) (idx a f tot : list Z) :
  lire vpp t = trois idx (CInt a) (CInt f) (CInt tot) ->
  vpp <> suivant t ->
  List.length a = List.length tot ->
  List.length f = List.length tot ->
  let part := fun u v =>
    if 0 <? v then fmul (fdiv (of_int u) (of_int v)) (of_int 100)
    else of_int 0 in
  exists (pct : nat) (t' : Tas F),
    pourcentages vpp t = Suite pct t'
    /\ lire pct t'
       = trois idx (CFloat (map2 part a tot)) (CFloat (map2 part f tot))
           (CInt (map (fun v => if 0 <? v then 100 else 0) tot)).
Proof.
  intros L N La Lf part.
  destruct (pourcentages_ok vpp t idx a f tot L N) as (t' & E & Lp & _ & _).
  exists (suivant t), t'. split; [exact E|].
  rewrite Lp, !parts_brutes_spec, totaux_bruts_spec by assumption.
  reflexivity.
Qed.

End Complements.

(** ** The printed summary (lines 203-219) *)

(** [100 - p] on shares. *)
Class Difference (F : Type) : Type := {
  fsub : F -> F -> F
}.

#[export] Instance difference_binary64 : Difference float := {
  fsub := PrimFloat.sub
}.

#[export] Instance difference_exacte : Difference Q := {
  fsub := Qminus
}.

(** The numbers the summary prints: the three totals and, when the grand
    total is positive, the two overall percentages. *)
Record Resume (F : Type) : Type := {
  total_francophones : Z;
  total_autres : Z;
  total_general : Z;
  pourcentages_globaux : option (F * F)
}.

Arguments total_francophones {F} _.
Arguments total_autres {F} _.
Arguments total_general {F} _.
Arguments pourcentages_globaux {F} _.

Section Resumes.

Context {F : Type} {NF : Flottant F} {DF : Difference F} {TY : Typage}.
Variable pd_read_csv : string -> Exception + Csv.
Variable pd_to_datetime : string -> option Horodatage.

Local Open Scope prog_scope.

(** [c.sum()] of a column of counts. *)
Definition sum_col (c : Colonne F) : Exception + Z :=
  match c with
  | CInt l => inr (somme l)
  | _ => inl TypeError
  end.

Definition resume (ventes_par_periode : nat) : Prog F (Resume F) :=
  f <- getitem ventes_par_periode pays_franco ;;
  total_francophones <- de (sum_col f) ;;
  a <- getitem ventes_par_periode autres_pays ;;
  total_autres <- de (sum_col a) ;;
  let total_general := total_francophones + total_autres in
  ret {| total_francophones := total_francophones;
         total_autres := total_autres;
         total_general := total_general;
         pourcentages_globaux :=
           if 0 <? total_general then
             let pourcentage_franco :=
               fmul (fdiv (of_int total_francophones) (of_int total_general))
                 (of_int 100) in
             Some (pourcentage_franco, fsub (of_int 100) pourcentage_franco)
           else None |}.

Local Close Scope prog_scope.

(** Number of records of a class among given records. *)
Definition nombre_classe (c : bool) (jp : nat)
  (rows : list (list (option string))) : Z :=
  Z.of_nat (List.length
              (filter (fun r => Bool.eqb c (classer (cellule jp r))) rows)).

Lemma somme_indicatrice_nulle (l : list Z) : somme (map (fun _ => 0) l) = 0.
Proof. induction l as [|x r IH]; [reflexivity|]. simpl. now rewrite IH. Qed.

Lemma somme_effectifs (c : bool) (l : list Z) (ks : list (Z * bool)) :
  NoDup l -> (forall k, In k ks -> In (fst k) l) ->
  somme (map (fun p => effectif (p, c) ks) l)
  = Z.of_nat (List.length (filter (fun k => Bool.eqb c (snd k)) ks)).
Proof.
  intros Hnd. induction ks as [|k r IH]; intros Hin.
  - cbn [filter List.length]. apply somme_indicatrice_nulle.
  - rewrite (map_ext _ (fun p => (if cle_eqb (p, c) k then 1 else 0)
                                 + effectif (p, c) r)).
    2:{ intros p. apply effectif_cons. }
    rewrite somme_map_plus, IH by (intros k' Hk'; apply Hin; now right).
    cbn [filter]. unfold cle_eqb. cbn [fst snd].
    destruct (Bool.eqb c (snd k)) eqn:E.
    + rewrite (map_ext _ (fun p => if fst k =? p then 1 else 0)).
      2:{ intros p. rewrite andb_true_r, Z.eqb_sym. reflexivity. }
      rewrite somme_indicatrice by assumption.
      assert (existsb (Z.eqb (fst k)) l = true) as ->.
      { apply existsb_exists. exists (fst k). split; [apply Hin; now left|].
        apply Z.eqb_refl. }
      cbn [List.length]. lia.
    + rewrite (map_ext _ (fun _ => 0)).
      2:{ intros p. now rewrite andb_false_r. }
      rewrite somme_indicatrice_nulle. lia.
Qed.

Lemma classes_retenues (h : string -> option Horodatage) (c : bool)
  (jp jd : nat) (fq : Frequence) (limite : Horodatage)
  (rows : list (list (option string))) :
  List.length (filter (fun k => Bool.eqb c (snd k))
                 (cles_lignes h jp jd fq
                    (retenues h jd limite rows)))
  = List.length (filter (fun r => Bool.eqb c (classer (cellule jp r)))
                   (retenues h jd limite rows)).
Proof.
  unfold cles_lignes, retenues. induction rows as [|r rs IH]; [reflexivity|].
  cbn [filter]. destruct (retenue h jd limite r) eqn:E; [|exact IH].
  cbn [flat_map filter]. rewrite filter_app, length_app, IH.
  unfold cle_ligne. unfold retenue in E.
  destruct (date_cellule h (cellule jd r)); [discriminate|].
  cbn [periode_de filter snd].
  destruct (Bool.eqb c (classer (cellule jp r))); reflexivity.
Qed.

(** X9. After a call that returned its tables, the summary computed from the
    counts table gives the number of kept francophone sales, the number of
    kept sales of the other countries and, as grand total, the number of
    kept sales; the grand total is positive, so the two overall percentages
    are always printed; computing the summary changes nothing in the
    store. *)
Theorem resume_des_retenues
  (fichier_csv colonne_pays colonne_date regroupement date_debut : string)
  (t t' : Tas F) (a b : nat) :
  analyser_ventes_francophones pd_read_csv pd_to_datetime fichier_csv
    colonne_pays colonne_date regroupement date_debut t
  = Retour (Tables a b) t' ->
  exists (f : Csv) (jp jd : nat) (limite : Horodatage) (r : Resume F),
    pd_read_csv fichier_csv = inr f
    /\ rang colonne_pays (entete f) = Some jp
    /\ rang colonne_date (entete f) = Some jd
    /\ pd_to_datetime date_debut = Some limite
    /\ resume a t' = Suite r t'
    /\ let gardees := retenues (lecture_dates pd_to_datetime f jd) jd limite
                        (lignes f) in
       total_francophones r = nombre_classe true jp gardees
       /\ total_autres r = nombre_classe false jp gardees
       /\ total_general r = Z.of_nat (List.length gardees)
       /\ 0 < total_general r
       /\ pourcentages_globaux r <> None.
Proof.
  intros H. apply execution_tables in H as (Ha & La & _ & _).
  apply attendu_tables in Ha as (f & jp & jd & limite & fq & R & K & _ & _).
  set (h := lecture_dates pd_to_datetime f jd) in *.
  set (ks := cles_lignes h jp jd fq (retenues h jd limite (lignes f))) in *.
  assert (Hnd : NoDup (periodes ks)) by apply trie_NoDup, distincts_trie.
  assert (Hin : forall k, In k ks -> In (fst k) (periodes ks)).
  { intros k Hk. apply distincts_In. now apply in_map. }
  assert (Sf : somme (map (fun p => effectif (p, true) ks) (periodes ks))
               = nombre_classe true jp
                   (retenues h jd limite (lignes f))).
  { rewrite somme_effectifs by assumption. unfold nombre_classe, ks.
    f_equal. apply classes_retenues. }
  assert (Sa : somme (map (fun p => effectif (p, false) ks) (periodes ks))
               = nombre_classe false jp
                   (retenues h jd limite (lignes f))).
  { rewrite somme_effectifs by assumption. unfold nombre_classe, ks.
    f_equal. apply classes_retenues. }
  assert (Sg : somme (map (fun p => effectif (p, true) ks) (periodes ks))
               + somme (map (fun p => effectif (p, false) ks) (periodes ks))
               = Z.of_nat (List.length
                             (retenues h jd limite (lignes f)))).
  { rewrite <- somme_map_plus.
    rewrite (map_ext _ (fun p => nombre_periode p ks)).
    2:{ intros p. rewrite Z.add_comm. apply effectif_somme_classes. }
    rewrite somme_comptes. f_equal. apply cles_retenues_length. }
  assert (Pg : 0 < Z.of_nat (List.length
                               (retenues h jd limite (lignes f)))).
  { destruct R as [_ _ _ _ _ HR _ _ _ _ _ _]. fold h in HR.
    destruct (retenues h jd limite (lignes f));
      [contradiction | cbn [List.length]; lia]. }
  destruct R as [Hr Hjp Hjd _ Hd _ _ _ _ _ _ _].
  exists f, jp, jd, limite. eexists.
  split; [exact Hr|]. split; [exact Hjp|]. split; [exact Hjd|].
  split; [exact Hd|]. split.
  { rewrite K in La. unfold comptes in La.
    unfold resume, getitem, contenu, bind, de, ret.
    repeat progress
      (rewrite ?La;
       cbn -[effectif periodes somme Z.ltb Z.add of_int fmul fdiv fsub]).
    reflexivity. }
  cbv zeta.
  cbn [total_francophones total_autres total_general pourcentages_globaux].
  split; [exact Sf|]. split; [exact Sa|]. split; [exact Sg|].
  rewrite Sg. split; [exact Pg|].
  apply Z.ltb_lt in Pg. rewrite Pg. discriminate.
Qed.

End Resumes.

(** ** The helper on records of a single class *)

Section MultipleErreurs.

Context {F : Type} {NF : Flottant F} {TY : Typage}.
Variable pd_read_csv : string -> Exception + Csv.
Variable pd_to_datetime : string -> option Horodatage.
Variables fichier_csv colonne_pays colonne_date date_debut : string.



End MultipleErreurs.

(** ** Range of the shares in exact arithmetic *)


Lemma map2_map_map {A B C D : Type} (g : B -> C -> D) (h : A -> B) (k : A -> C)
  (l : list A) :
  map2 g (map h l) (map k l) = map (fun x => g (h x) (k x)) l.
Proof. induction l as [|x r IH]; [reflexivity|]. cbn [map map2]. now rewrite IH. Qed.


(** ** The further properties on concrete records *)

(** The sales of [ventes] in an export that has an amount column and the two
    columns in another place. *)
Definition ventes_annotees : Csv :=
  {| entete := ["montant"; "date"; "pays"];
     lignes := [[Some "120"; Some "2020-01-15"; Some "FR"];
                [Some "80"; Some "2020-01-20"; Some "us"];
                [Some "45"; Some "2020-02-01"; Some "ca"]] |}.

(** The sales of [ventes] followed by a sale of 2019 and an undated one. *)
Definition ventes_anciennes : Csv :=
  {| entete := ["pays"; "date"];
     lignes := lignes ventes
               ++ [[Some "fr"; Some "2019-05-05"]; [Some "us"; None]] |}.

Lemma ventes_lisibles :
  forallb (lisible (lecture_dates Iso.to_datetime ventes 1))
    (map (cellule 1) (lignes ventes)) = true.
Proof. vm_compute. reflexivity. Defined.

Lemma ventes_retenues :
  retenues (lecture_dates Iso.to_datetime ventes 1) 1
    (Calendrier.minuit 2020 1 1) (lignes ventes) <> [].
Proof. vm_compute. discriminate. Defined.







Lemma lecture_impossible_temoin :
  lecteur ventes "absent.csv" = inl FileNotFoundError
  /\ analyser_ventes_francophones (F := float) (lecteur ventes) Iso.to_datetime
       "absent.csv" "pays" "date" "M" "2020-01-01" tas_vide
     = Retour (Rien (FichierIntrouvable "absent.csv")) tas_vide.
Proof.
  split; [reflexivity|].
  exact (lecture_impossible (lecteur ventes) Iso.to_datetime "absent.csv"
           "pays" "date" "M" "2020-01-01" tas_vide FileNotFoundError eq_refl).
Defined.

Lemma debut_NaT_aucune_donnee_temoin :
  Iso.to_datetime "" = Some NaT
  /\ resultat (analyser_ventes_francophones (F := float) (lecteur ventes)
                 Iso.to_datetime "ventesdolibarr.csv" "pays" "date" "M" ""
                 tas_vide)
     = inr (Rien (AucuneDonnee "")).
Proof.
  split; [reflexivity|].
  exact (debut_NaT_aucune_donnee (lecteur ventes) Iso.to_datetime
           "ventesdolibarr.csv" "pays" "date" "M" "" tas_vide ventes 0%nat 1%nat
           eq_refl eq_refl eq_refl ventes_lisibles eq_refl).
Defined.

Lemma meme_colonne_AttributeError_temoin :
  resultat (analyser_ventes_francophones (F := float) (lecteur ventes)
              Iso.to_datetime "ventesdolibarr.csv" "date" "date" "M"
              "2020-01-01" tas_vide)
  = inl AttributeError.
Proof.
  exact (meme_colonne_AttributeError (lecteur ventes) Iso.to_datetime
           "ventesdolibarr.csv" "date" "M" "2020-01-01" tas_vide ventes 1%nat
           (Calendrier.minuit 2020 1 1)
           eq_refl eq_refl ventes_lisibles debut_2020_01_01 ventes_retenues).
Defined.

Lemma autres_colonnes_sans_effet_temoin :
  map (champs 0 1) (lignes ventes) = map (champs 2 1) (lignes ventes_annotees)
  /\ resultat (appel ventes "M") = resultat (appel ventes_annotees "M")
  /\ forall a b t1,
       appel ventes "M" = Retour (Tables a b) t1 ->
       exists t1',
         appel ventes_annotees "M" = Retour (Tables a b) t1'
         /\ lire a t1' = lire a t1
         /\ lire b t1' = lire b t1.
Proof.
  split; [reflexivity|].
  exact (autres_colonnes_sans_effet (lecteur ventes) Iso.to_datetime
           (lecteur ventes_annotees)
           "ventesdolibarr.csv" "pays" "date" "M" "2020-01-01"
           ventes ventes_annotees 0%nat 1%nat 2%nat 1%nat tas_vide
           eq_refl eq_refl eq_refl eq_refl eq_refl eq_refl eq_refl).
Defined.

Lemma ecartes_ajoutes :
  forallb (fun r => lisible (lecture_dates Iso.to_datetime ventes 1) (cellule 1 r)
                    && negb (retenue (lecture_dates Iso.to_datetime ventes 1) 1
                               (Calendrier.minuit 2020 1 1) r))
    [[Some "fr"; Some "2019-05-05"]; [Some "us"; None]] = true.
Proof. vm_compute. reflexivity. Defined.

Lemma types_conserves :
  forall j, rang "pays" (entete ventes) = Some j
            \/ rang "date" (entete ventes) = Some j ->
            dtype (map (cellule j) (lignes ventes_anciennes))
            = dtype (map (cellule j) (lignes ventes)).
Proof.
  intros j [H|H]; vm_compute in H; injection H as <-; vm_compute; reflexivity.
Defined.

Lemma enregistrements_ecartes_sans_effet_temoin :
  resultat (appel ventes "M") = resultat (appel ventes_anciennes "M")
  /\ forall a b t1,
       appel ventes "M" = Retour (Tables a b) t1 ->
       exists t1',
         appel ventes_anciennes "M" = Retour (Tables a b) t1'
         /\ lire a t1' = lire a t1
         /\ lire b t1' = lire b t1.
Proof.
  exact (enregistrements_ecartes_sans_effet (lecteur ventes) Iso.to_datetime
           (lecteur ventes_anciennes)
           "ventesdolibarr.csv" "pays" "date" "M" "2020-01-01"
           ventes ventes_anciennes 1%nat (Calendrier.minuit 2020 1 1)
           [[Some "fr"; Some "2019-05-05"]; [Some "us"; None]] tas_vide
           eq_refl eq_refl eq_refl eq_refl types_conserves eq_refl
           debut_2020_01_01 ecartes_ajoutes).
Defined.

Lemma regroupements_solidaires_temoin :
  appel ventes "M" = Retour (Tables 2 3) (tas_de (appel ventes "M"))
  /\ frequence_de "Q" = Some FQ
  /\ exists (a' b' : nat) (t2' : Tas float) (tot tot' : list Z),
       appel ventes "Q" = Retour (Tables a' b') t2'
       /\ chercher total (colonnes (lire 2 (tas_de (appel ventes "M"))))
          = Some (CInt tot)
       /\ chercher total (colonnes (lire a' t2')) = Some (CInt tot')
       /\ somme tot = somme tot'.
Proof.
  split; [exact appel_ventes_mensuel|]. split; [reflexivity|].
  exact (regroupements_solidaires (lecteur ventes) Iso.to_datetime
           "ventesdolibarr.csv" "pays" "date" "M" "Q" "2020-01-01" FQ
           tas_vide (tas_de (appel ventes "M")) tas_vide 2 3
           appel_ventes_mensuel eq_refl).
Defined.

Lemma objets_anterieurs_intacts_temoin :
  (0 < suivant tas_dates)%nat
  /\ lire 0 (tas_de (analyser_ventes_francophones (lecteur ventes)
                       Iso.to_datetime "ventesdolibarr.csv" "pays" "date" "M"
                       "2020-01-01" tas_dates))
     = lire 0 tas_dates
  /\ lire 0 (snd (analyser_multiple_regroupements (lecteur ventes)
                    Iso.to_datetime "ventesdolibarr.csv" "pays" "date"
                    "2020-01-01" tas_dates))
     = lire 0 tas_dates.
Proof.
  split; [exact (le_n 1)|].
  exact (objets_anterieurs_intacts (lecteur ventes) Iso.to_datetime
           "ventesdolibarr.csv" "pays" "date" "M" "2020-01-01" tas_dates 0%nat
           (le_n 1)).
Defined.

(** A store whose frame 0 is a counts table with an empty row. *)
Definition tas_zero : Tas float :=
  allouer (trois [5; 6] (CInt [0; 1]) (CInt [0; 3]) (CInt [0; 4])) tas_vide.

Lemma parts_sans_division_par_zero_temoin :
  let part := fun u v =>
    if 0 <? v then fmul (fdiv (of_int u) (of_int v)) (of_int 100)
    else of_int 0 in
  exists (pct : nat) (t' : Tas float),
    pourcentages 0 tas_zero = Suite pct t'
    /\ lire pct t'
       = trois [5; 6] (CFloat (map2 part [0; 1] [0; 4]))
           (CFloat (map2 part [0; 3] [0; 4]))
           (CInt (map (fun v => if 0 <? v then 100 else 0) [0; 4])).
Proof.
  exact (parts_sans_division_par_zero 0%nat tas_zero [5; 6] [0; 1] [0; 3] [0; 4]
           eq_refl (fun H => O_S 0 H) eq_refl eq_refl).
Defined.

Lemma resume_des_retenues_temoin :
  appel ventes "M" = Retour (Tables 2 3) (tas_de (appel ventes "M"))
  /\ exists (f : Csv) (jp jd : nat) (limite : Horodatage) (r : Resume float),
       lecteur ventes "ventesdolibarr.csv" = inr f
       /\ rang "pays" (entete f) = Some jp
       /\ rang "date" (entete f) = Some jd
       /\ Iso.to_datetime "2020-01-01" = Some limite
       /\ resume 2 (tas_de (appel ventes "M"))
          = Suite r (tas_de (appel ventes "M"))
       /\ let gardees := retenues (lecture_dates Iso.to_datetime f jd) jd limite
                           (lignes f) in
          total_francophones r = nombre_classe true jp gardees
          /\ total_autres r = nombre_classe false jp gardees
          /\ total_general r = Z.of_nat (List.length gardees)
          /\ 0 < total_general r
          /\ pourcentages_globaux r <> None.
Proof.
  split; [exact appel_ventes_mensuel|].
  exact (resume_des_retenues (lecteur ventes) Iso.to_datetime
           "ventesdolibarr.csv" "pays" "date" "M" "2020-01-01" tas_vide
           (tas_de (appel ventes "M")) 2 3 appel_ventes_mensuel).
Defined.





(** ** Counts per period *)

Section ParPeriode.

Context {F : Type} {NF : Flottant F} {TY : Typage}.
Variable pd_read_csv : string -> Exception + Csv.
Variable pd_to_datetime : string -> option Horodatage.

(** Whether a record falls in period [p] and is of class [c], [h] being the
    conversion of its date. *)
Definition dans_periode (h : string -> option Horodatage) (jp jd : nat)
  (fq : Frequence) (p : Z) (c : bool) (ligne : list (option string)) : bool :=
  match periode_de fq (date_cellule h (cellule jd ligne)) with
  | Some q => (p =? q) && Bool.eqb c (classer (cellule jp ligne))
  | None => false
  end.

Definition compte (h : string -> option Horodatage) (jp jd : nat)
  (fq : Frequence) (p : Z) (c : bool) (rows : list (list (option string)))
  : Z :=
  Z.of_nat (List.length (filter (dans_periode h jp jd fq p c) rows)).

Lemma effectif_app (k : Z * bool) (ks ks' : list (Z * bool)) :
  effectif k (ks ++ ks') = effectif k ks + effectif k ks'.
Proof. unfold effectif. rewrite filter_app, length_app. lia. Qed.

Lemma effectif_compte (h : string -> option Horodatage) (jp jd : nat)
  (fq : Frequence) (p : Z) (c : bool) (rows : list (list (option string))) :
  effectif (p, c) (cles_lignes h jp jd fq rows)
  = compte h jp jd fq p c rows.
Proof.
  unfold cles_lignes, compte. induction rows as [|r rs IH]; [reflexivity|].
  cbn [flat_map filter]. rewrite effectif_app, IH.
  unfold cle_ligne, dans_periode.
  destruct (periode_de fq (date_cellule h (cellule jd r))) as [q|].
  - rewrite effectif_cons. unfold cle_eqb. cbn [fst snd].
    destruct ((p =? q) && Bool.eqb c (classer (cellule jp r)));
      cbn [List.length effectif filter]; unfold effectif; cbn [filter List.length];
      lia.
  - unfold effectif. cbn [filter List.length]. lia.
Qed.

Lemma periodes_des_lignes (h : string -> option Horodatage) (jp jd : nat)
  (fq : Frequence) (p : Z) (rows : list (list (option string))) :
  In p (periodes (cles_lignes h jp jd fq rows))
  <-> exists r, In r rows
                /\ periode_de fq (date_cellule h (cellule jd r))
                   = Some p.
Proof.
  unfold periodes. rewrite distincts_In, in_map_iff. unfold cles_lignes. split.
  - intros [[q c] [E Hk]]. cbn [fst] in E. subst q.
    apply in_flat_map in Hk as [r [Hr Hk]]. exists r. split; [exact Hr|].
    unfold cle_ligne in Hk.
    destruct (periode_de fq (date_cellule h (cellule jd r)))
      as [q|]; [|contradiction].
    destruct Hk as [E|[]]. now injection E as -> _.
  - intros [r [Hr E]]. exists (p, classer (cellule jp r)). split; [reflexivity|].
    apply in_flat_map. exists r. split; [exact Hr|].
    unfold cle_ligne. rewrite E. now left.
Qed.

(** X12. The counts table a call returns has one row for each period that
    holds a kept record, and only those; in the row of a period, the two
    counts are the numbers of kept records dated in that period that are of
    the other countries and francophone, and the total is their sum. *)
Theorem comptes_par_periode
  (fichier_csv colonne_pays colonne_date regroupement date_debut : string)
  (t t' : Tas F) (a b : nat) :
  analyser_ventes_francophones pd_read_csv pd_to_datetime fichier_csv
    colonne_pays colonne_date regroupement date_debut t
  = Retour (Tables a b) t' ->
  exists (f : Csv) (jp jd : nat) (limite : Horodatage) (fq : Frequence),
    pd_read_csv fichier_csv = inr f
    /\ rang colonne_pays (entete f) = Some jp
    /\ rang colonne_date (entete f) = Some jd
    /\ pd_to_datetime date_debut = Some limite
    /\ frequence_de regroupement = Some fq
    /\ let h := lecture_dates pd_to_datetime f jd in
       let kept := retenues h jd limite (lignes f) in
       (forall p, In p (index (lire a t'))
                  <-> exists r, In r kept
                        /\ periode_de fq (date_cellule h (cellule jd r))
                           = Some p)
       /\ lire a t'
          = trois (index (lire a t'))
              (CInt (map (fun p => compte h jp jd fq p false kept)
                       (index (lire a t'))))
              (CInt (map (fun p => compte h jp jd fq p true kept)
                       (index (lire a t'))))
              (CInt (map (fun p => compte h jp jd fq p false kept
                                   + compte h jp jd fq p true kept)
                       (index (lire a t')))).
Proof.
  intros H. apply execution_tables in H as (Ha & La & _ & _).
  apply attendu_tables in Ha as (f & jp & jd & limite & fq & R & K & _ & _).
  exists f, jp, jd, limite, fq.
  destruct R as [Hr Hjp Hjd _ Hd _ _ _ Hfq _ _ _].
  repeat (split; [assumption|]).
  cbv zeta. rewrite La, K.
  set (h := lecture_dates pd_to_datetime f jd).
  set (kept := retenues h jd limite (lignes f)).
  unfold comptes. cbn [index]. split.
  - intros p. apply periodes_des_lignes.
  - unfold trois. f_equal.
    rewrite map2_map_map.
    rewrite !(map_ext (fun p => effectif (p, false) _)
                (fun p => compte h jp jd fq p false kept))
      by (intros p; apply effectif_compte).
    rewrite !(map_ext (fun p => effectif (p, true) _)
                (fun p => compte h jp jd fq p true kept))
      by (intros p; apply effectif_compte).
    rewrite (map_ext
               (fun x => effectif (x, false) _ + effectif (x, true) _)
               (fun p => compte h jp jd fq p false kept
                         + compte h jp jd fq p true kept))
      by (intros p; now rewrite !effectif_compte).
    reflexivity.
Qed.
End ParPeriode.

Lemma comptes_par_periode_temoin :
  appel ventes "M" = Retour (Tables 2 3) (tas_de (appel ventes "M"))
  /\ exists (f : Csv) (jp jd : nat) (limite : Horodatage) (fq : Frequence),
       lecteur ventes "ventesdolibarr.csv" = inr f
       /\ rang "pays" (entete f) = Some jp
       /\ rang "date" (entete f) = Some jd
       /\ Iso.to_datetime "2020-01-01" = Some limite
       /\ frequence_de "M" = Some fq
       /\ let h := lecture_dates Iso.to_datetime f jd in
          let kept := retenues h jd limite (lignes f) in
          (forall p, In p (index (lire 2 (tas_de (appel ventes "M"))))
                     <-> exists r, In r kept
                           /\ periode_de fq (date_cellule h (cellule jd r))
                              = Some p)
          /\ lire 2 (tas_de (appel ventes "M"))
             = trois (index (lire 2 (tas_de (appel ventes "M"))))
                 (CInt (map (fun p => compte h jp jd fq p false kept)
                          (index (lire 2 (tas_de (appel ventes "M"))))))
                 (CInt (map (fun p => compte h jp jd fq p true kept)
                          (index (lire 2 (tas_de (appel ventes "M"))))))
                 (CInt (map (fun p => compte h jp jd fq p false kept
                                      + compte h jp jd fq p true kept)
                          (index (lire 2 (tas_de (appel ventes "M")))))).
Proof.
  split; [exact appel_ventes_mensuel|].
  exact (comptes_par_periode (lecteur ventes) Iso.to_datetime
           "ventesdolibarr.csv" "pays" "date" "M" "2020-01-01" tas_vide
           (tas_de (appel ventes "M")) 2 3 appel_ventes_mensuel).
Defined.
